(** * Answering-machine-detection core of attack-capital: a shallow embedding

  The development follows the TypeScript sources:
  - [src/lib/phoneUtils.ts]          -> [Module PhoneUtils]
  - [src/lib/amdStrategies.ts]       -> [Module AmdStrategies]
  - the webhook routes (Twilio status, Jambonz webhook, Jambonz
    amd-events)                      -> [Module Routes]
  - [displayPhoneNumber]             -> [Module PhoneDisplay]
  - the dial route                   -> [Module DialRoute]
  - the speech-verification route    -> [Module VerifyRoute]
  - the recording-analysis route     -> [Module RecordingRoute]
  - the speech-result route          -> [Module SpeechResultRoute]
  - the media-stream handler         -> [Module MediaStream],
                                        [Module StreamAnalysis]
  - [AmdPerformanceAnalyzer]         -> [Module Analytics]

  Conventions of the embedding.
  - A JavaScript string is a [string]: a sequence of 8-bit code units.  The
    operations used by the sources (deleting non-digits, [startsWith],
    [includes] with an ASCII needle, lower-casing) act on a code unit
    below 128 exactly as JavaScript does; code units from 128 on are
    neither digits nor ASCII letters.
  - A JavaScript number is a [number]: [NaN] or an exact rational.  The
    rounding of IEEE doubles is not modelled; arithmetic is kept as the
    source writes it.
  - An object used as a key-value bag is a [gmap string jsval]; the
    spread [{...a, ...b, k: v}] is [<[k:=v]> (b ∪ a)] (stdpp's union is
    left-biased, so the later spread wins).
  - [async] functions are run to completion: a collaborator call is a
    field of the environment record [Env] whose result is either a value
    or a thrown error ([outcome]). *)

From Stdlib Require Import QArith Lqa Ascii.
From Stdlib Require DecimalString.
From stdpp Require Import gmap strings list fin_maps.

Close Scope Q_scope.
#[local] Open Scope string_scope.

#[local] Set Warnings "-register-all".

(* ===================================================================== *)
(** ** JavaScript values                                                  *)
(* ===================================================================== *)

Module JS.

(** The double quote, for texts that contain one, and a text between
    double quotes. *)
Definition dq : string := String (Ascii.ascii_of_nat 34) EmptyString.

Definition quoted (s : string) : string := dq +:+ s +:+ dq.

Inductive number : Type :=
  | NaN
  | Num (q : Q).

Inductive jsval : Type :=
  | JUndefined
  | JNull
  | JBool (b : bool)
  | JNum (n : number)
  | JStr (s : string)
  | JArr (l : list jsval)
  | JObj (m : gmap string jsval).

(** An object literal. *)
Abbreviation obj := (gmap string jsval).

(** [{...a, ...b}] *)
Definition spread (a b : obj) : obj := b ∪ a.

Definition number_truthy (n : number) : bool :=
  match n with
  | NaN => false
  | Num q => negb (Qeq_bool q 0)
  end.

Definition string_truthy (s : string) : bool :=
  match s with
  | EmptyString => false
  | String _ _ => true
  end.

(** ToBoolean *)
Definition truthy (v : jsval) : bool :=
  match v with
  | JUndefined | JNull => false
  | JBool b => b
  | JNum n => number_truthy n
  | JStr s => string_truthy s
  | JArr _ | JObj _ => true
  end.

(** [a || b] *)
Definition or_else (a b : jsval) : jsval := if truthy a then a else b.

(** A destructured or looked-up property: [undefined] when absent. *)
Definition prop (o : obj) (k : string) : jsval := default JUndefined (o !! k).

(** [v.k] for a value that is neither [null] nor [undefined]; a
    primitive or an array has none of the properties the sources read. *)
Definition get (v : jsval) (k : string) : jsval :=
  match v with
  | JObj m => prop m k
  | _ => JUndefined
  end.

(** [v === "lit"] *)
Definition is_str (v : jsval) (lit : string) : bool :=
  match v with
  | JStr s => String.eqb s lit
  | _ => false
  end.

(** An optional string ([string | undefined]) as a value. *)
Definition of_opt (o : option string) : jsval :=
  match o with
  | Some s => JStr s
  | None => JUndefined
  end.

(** [`${x}`] for an optional string. *)
Definition tmpl (o : option string) : string := default "undefined" o.

Definition opt_truthy (o : option string) : bool :=
  match o with
  | Some s => string_truthy s
  | None => false
  end.

(** *** Strings *)

Definition is_digit (c : ascii) : bool :=
  let n := nat_of_ascii c in (48 <=? n)%nat && (n <=? 57)%nat.

(** [s.replace(/\D/g, "")] *)
Fixpoint strip_non_digits (s : string) : string :=
  match s with
  | EmptyString => EmptyString
  | String c r =>
      if is_digit c then String c (strip_non_digits r) else strip_non_digits r
  end.

(** [s.replace(/[^\d+]/g, '')] *)
Fixpoint strip_non_digits_plus (s : string) : string :=
  match s with
  | EmptyString => EmptyString
  | String c r =>
      if is_digit c || Ascii.eqb c "+"
      then String c (strip_non_digits_plus r) else strip_non_digits_plus r
  end.

(** [s.replace('+', '')]: the first occurrence only. *)
Fixpoint remove_first_plus (s : string) : string :=
  match s with
  | EmptyString => EmptyString
  | String c r => if Ascii.eqb c "+" then r else String c (remove_first_plus r)
  end.

(** [s.startsWith(p)] *)
Definition startsWith (s p : string) : bool := String.prefix p s.

(** [s.includes(needle)] *)
Fixpoint includes (s needle : string) : bool :=
  String.prefix needle s ||
  match s with
  | EmptyString => false
  | String _ r => includes r needle
  end.

Definition lower_char (c : ascii) : ascii :=
  let n := nat_of_ascii c in
  if (65 <=? n)%nat && (n <=? 90)%nat then ascii_of_nat (n + 32) else c.

(** [s.toLowerCase()] *)
Fixpoint toLowerCase (s : string) : string :=
  match s with
  | EmptyString => EmptyString
  | String c r => String (lower_char c) (toLowerCase r)
  end.

(** [s.slice(n)] for [0 <= n] *)
Definition slice_from (n : nat) (s : string) : string :=
  String.substring n (String.length s - n) s.

(** *** parseInt on a string (ECMA-262, radix argument absent) *)

Definition is_ws (c : ascii) : bool :=
  let n := nat_of_ascii c in
  ((9 <=? n)%nat && (n <=? 13)%nat) || (n =? 32)%nat || (n =? 160)%nat.

Fixpoint trim_start (s : string) : string :=
  match s with
  | EmptyString => EmptyString
  | String c r => if is_ws c then trim_start r else s
  end.

Definition digit_value (radix : N) (c : ascii) : option N :=
  let n := N_of_ascii c in
  let d :=
    if (48 <=? n)%N && (n <=? 57)%N then Some (n - 48)%N
    else if (97 <=? n)%N && (n <=? 122)%N then Some (n - 87)%N
    else if (65 <=? n)%N && (n <=? 90)%N then Some (n - 55)%N
    else None in
  match d with
  | Some v => if (v <? radix)%N then Some v else None
  | None => None
  end.

(** The value of the longest prefix of radix digits; [acc] is [None]
    until a digit has been read. *)
Fixpoint parse_digits (radix : N) (s : string) (acc : option N) : option N :=
  match s with
  | EmptyString => acc
  | String c r =>
      match digit_value radix c with
      | Some d => parse_digits radix r (Some (radix * default 0%N acc + d)%N)
      | None => acc
      end
  end.

Definition parseInt (input : string) : number :=
  let s := trim_start input in
  let '(sign, s) :=
    match s with
    | String "-" r => ((-1)%Z, r)
    | String "+" r => (1%Z, r)
    | _ => (1%Z, s)
    end in
  let '(radix, s) :=
    match s with
    | String "0" (String "x" r) => (16%N, r)
    | String "0" (String "X" r) => (16%N, r)
    | _ => (10%N, s)
    end in
  match parse_digits radix s None with
  | None => NaN
  | Some n => Num (inject_Z (sign * Z.of_N n))
  end.

(** [a / b] and [a * b] with a constant right operand. *)
Definition ndiv (a : number) (b : Q) : number :=
  match a with
  | NaN => NaN
  | Num q => Num (q / b)%Q
  end.

Definition nmul (a : number) (b : Q) : number :=
  match a with
  | NaN => NaN
  | Num q => Num (q * b)%Q
  end.

(** *** Thrown values and results of awaited calls *)

(** A thrown value: [is_Error] is [e instanceof Error], [message] its
    [message], [code] the numeric [code] property when [e] is an object
    that has one. *)
Record thrown : Type := Thrown {
  is_Error : bool;
  message : string;
  code : option Z;
}.

Inductive outcome (A : Type) : Type :=
  | Ok (a : A)
  | Throw (e : thrown).
Arguments Ok {A} a.
Arguments Throw {A} e.

(** [new Error(msg)] *)
Definition new_Error (msg : string) : thrown :=
  {| is_Error := true; message := msg; code := None |}.

(** [error instanceof Error ? error.message : "Unknown error"] *)
Definition error_message (e : thrown) : string :=
  if is_Error e then message e else "Unknown error".

(** The parts of the runtime the sources call and this file does not
    define: [JSON.parse] ([None] when it throws a SyntaxError) and
    [Number::toString]. *)
Class Runtime : Type := {
  JSON_parse : string -> option jsval;
  Number_toString : number -> string;
}.

(** [l.join(",")] on strings. *)
Fixpoint join_comma (l : list string) : string :=
  match l with
  | [] => ""
  | [x] => x
  | x :: r => x +:+ "," +:+ join_comma r
  end.

(** ToString, as [parseInt] applies it to its argument.  An array is
    joined with commas, [null] and [undefined] elements printing as the
    empty string. *)
Fixpoint ToString `{Runtime} (v : jsval) : string :=
  match v with
  | JUndefined => "undefined"
  | JNull => "null"
  | JBool true => "true"
  | JBool false => "false"
  | JNum n => Number_toString n
  | JStr s => s
  | JArr l =>
      join_comma
        (List.map (fun x => match x with
                            | JUndefined | JNull => ""
                            | _ => ToString x
                            end) l)
  | JObj _ => "[object Object]"
  end.

End JS.

Import JS.

(* ===================================================================== *)
(** ** src/lib/phoneUtils.ts                                              *)
(* ===================================================================== *)

Module PhoneUtils.

Definition formatPhoneNumber (input : string) (defaultCountryCode : string) : string :=
  let digits := strip_non_digits input in
  if negb (string_truthy digits) then ""
  else if (String.length digits =? 11)%nat && startsWith digits "1" then
    "+" +:+ digits
  else if (String.length digits =? 12)%nat && startsWith digits "91" then
    "+" +:+ digits
  else if (String.length digits =? 10)%nat then
    if startsWith digits "6" || startsWith digits "7"
       || startsWith digits "8" || startsWith digits "9"
    then "+91" +:+ digits
    else "+1" +:+ digits
  else if (12 <? String.length digits)%nat then
    "+" +:+ digits
  else defaultCountryCode +:+ digits.

(** The default value of the second parameter. *)
Definition defaultCountryCode : string := "+1".

Fixpoint all_digits (s : string) : bool :=
  match s with
  | EmptyString => true
  | String c r => is_digit c && all_digits r
  end.

(** [/^\+\d{10,15}$/.test(s)] *)
Definition phoneRegex_test (s : string) : bool :=
  match s with
  | String "+" ds =>
      all_digits ds && (10 <=? String.length ds)%nat && (String.length ds <=? 15)%nat
  | _ => false
  end.

Definition isValidPhoneNumber (phoneNumber : string) : bool :=
  let formatted := formatPhoneNumber phoneNumber defaultCountryCode in
  phoneRegex_test formatted.

End PhoneUtils.

(** The words of the specification of the normalizer, stated without
  reference to the implementation. *)
Module PhoneSpec.

Definition decimal_digit (c : ascii) : Prop :=
  In c (String.list_ascii_of_string "0123456789").

(** The decimal digits of [s], in order. *)
Definition digits_in_order (s : string) : string :=
  String.string_of_list_ascii
    (List.filter (fun c => bool_decide (decimal_digit c)) (String.list_ascii_of_string s)).

Definition starts_with (p d : string) : Prop := exists r, d = p +:+ r.

Definition first_digit_in (d : string) (cs : string) : Prop :=
  exists c r, d = String c r /\ In c (String.list_ascii_of_string cs).

(** ['+' followed by 10 to 15 digits] *)
Definition canonical (s : string) : Prop :=
  exists ds, s = String "+" ds
             /\ Forall decimal_digit (String.list_ascii_of_string ds)
             /\ (10 <= String.length ds <= 15)%nat.

End PhoneSpec.

(* ===================================================================== *)
(** ** src/lib/amdStrategies.ts                                           *)
(* ===================================================================== *)

Module AmdStrategies.

(** The Prisma enums. *)
Inductive AmdStrategy : Type :=
  | TWILIO_NATIVE
  | JAMBONZ_SIP
  | HUGGINGFACE_MODEL
  | GEMINI_FLASH.

Inductive AmdResult : Type :=
  | HUMAN
  | MACHINE
  | VOICEMAIL
  | UNDECIDED
  | TIMEOUT
  | ERROR.

#[global] Instance AmdStrategy_eq_dec : EqDecision AmdStrategy.
Proof. solve_decision. Defined.

#[global] Instance AmdResult_eq_dec : EqDecision AmdResult.
Proof. solve_decision. Defined.

(** [interface AmdDetectionResult].  [confidence] is typed [number] in the
    source but is filled from collaborator responses without a check, so
    it is a [jsval] here. *)
Record AmdDetectionResult : Type := {
  result : AmdResult;
  confidence : jsval;
  metadata : obj;
}.

(** A numeric literal. *)
Definition num (q : Q) : jsval := JNum (Num q).

(** *** The collaborators *)

(** The arguments of [client.calls.create] that vary between call sites;
    the status-callback events and the machine-detection tuning constants
    are the same at every site. *)
Record TwilioCallParams : Type := {
  to : string;
  from : option string;
  url : string;
  statusCallback : string;
  record : option bool;
}.

(** What the sources read of a created Twilio call. *)
Record TwilioCall : Type := {
  sid : string;
  call_status : string;
}.

Inductive FetchBody : Type :=
  | NoBody
  | JsonBody (v : jsval)
  | BytesBody (b : list Byte.byte).

Record FetchRequest : Type := {
  fetch_url : string;
  fetch_method : string;
  fetch_headers : list (string * string);
  fetch_body : FetchBody;
}.

(** What the sources read of a fetch response: [ok], [statusText], and the
    results of [await response.json()] and [await response.text()]. *)
Record Response : Type := {
  ok : bool;
  statusText : string;
  json : outcome jsval;
  text : outcome string;
}.

(** The result of [model.generateContent]: [response] is absent when the
    property is undefined, else it holds what [response.text()] does. *)
Record GenerateContentResult : Type := {
  response : option (outcome string);
}.

(** The world a detector runs in: [process.env] and the three
    collaborators, each answering a request with a value or a throw. *)
Record Env : Type := {
  getenv : string -> option string;
  twilio_calls_create : TwilioCallParams -> outcome TwilioCall;
  fetch : FetchRequest -> outcome Response;
  gemini_generateContent : string -> outcome GenerateContentResult;
}.

(** [process.env.NODE_ENV === 'development' ? process.env.NGROK_URL
                                             : process.env.NEXT_PUBLIC_APP_URL] *)
Definition baseUrl (env : Env) : option string :=
  if is_str (of_opt (getenv env "NODE_ENV")) "development"
  then getenv env "NGROK_URL"
  else getenv env "NEXT_PUBLIC_APP_URL".

(** The message of the TypeError that reading [property] of [null] or
    [undefined] throws (the wording is the engine's). *)
Definition TypeError_reading (what property : string) : thrown :=
  new_Error ("Cannot read properties of " +:+ what +:+ " (reading '" +:+ property +:+ "')").

(** The result every [catch] block of the detectors builds. *)
Definition error_result (e : thrown) : AmdDetectionResult :=
  {| result := ERROR;
     confidence := num 0;
     metadata := {[ "error" := JStr (error_message e) ]} |}.

(** *** class TwilioNativeDetector *)

Module TwilioNativeDetector.

Definition processCall (env : Env) (phoneNumber callId : string) : AmdDetectionResult :=
  match twilio_calls_create env
          {| to := phoneNumber;
             from := getenv env "TWILIO_PHONE_NUMBER";
             url := tmpl (baseUrl env) +:+ "/api/webhooks/twilio/voice";
             statusCallback := tmpl (baseUrl env) +:+ "/api/webhooks/twilio/status";
             record := None |} with
  | Ok call =>
      {| result := UNDECIDED;
         confidence := num 0;
         metadata := {[ "twilioCallSid" := JStr (sid call);
                        "status" := JStr (call_status call) ]} |}
  | Throw error =>
      if bool_decide (code error = Some 21219%Z) then
        {| result := ERROR;
           confidence := num 0;
           metadata :=
             {[ "error" := JStr "Trial account limitation: Can only call verified numbers. Please verify the phone number in your Twilio console or upgrade your account.";
                "twilioError" := JStr (error_message error) ]} |}
      else error_result error
  end.

Definition handleWebhook (payload : obj) : option AmdDetectionResult :=
  let AnsweringMachineDetectionStatus := prop payload "AnsweringMachineDetectionStatus" in
  let AnsweredBy := prop payload "AnsweredBy" in
  let amdStatus := or_else AnsweringMachineDetectionStatus AnsweredBy in
  if truthy amdStatus then
    let md : obj :=
      {[ "twilioAmd" := amdStatus;
         "source" := JStr (if truthy AnsweredBy then "AnsweredBy"
                           else "AnsweringMachineDetectionStatus") ]} in
    if is_str amdStatus "human" then
      Some {| result := HUMAN; confidence := num 0.85; metadata := md |}
    else if is_str amdStatus "machine_start"
            || is_str amdStatus "machine_end_beep"
            || is_str amdStatus "machine_end_silence"
            || is_str amdStatus "machine" then
      Some {| result := MACHINE; confidence := num 0.8; metadata := md |}
    else if is_str amdStatus "fax" then
      Some {| result := MACHINE; confidence := num 0.9; metadata := md |}
    else
      Some {| result := UNDECIDED; confidence := num 0.3; metadata := md |}
  else None.

End TwilioNativeDetector.

(** [{ ...fallbackResult, metadata: { ...fallbackResult.metadata, ...extra } }] *)
Definition annotate (r : AmdDetectionResult) (extra : obj) : AmdDetectionResult :=
  {| result := result r;
     confidence := confidence r;
     metadata := spread (metadata r) extra |}.

(** *** class JambonzSipDetector *)

Module JambonzSipDetector.

Definition checkJambonzAvailability (env : Env) : bool :=
  match fetch env
          {| fetch_url := tmpl (getenv env "JAMBONZ_API_BASE_URL") +:+ "/v1/health";
             fetch_method := "GET";
             fetch_headers :=
               [("Authorization", "Bearer " +:+ tmpl (getenv env "JAMBONZ_API_KEY"))];
             fetch_body := NoBody |} with
  | Ok response => ok response
  | Throw _ => false
  end.

Definition fallbackToTwilio (env : Env) (phoneNumber callId reason : string)
  : AmdDetectionResult :=
  let result := TwilioNativeDetector.processCall env phoneNumber callId in
  annotate result
    {[ "fallbackReason" := JStr reason;
       "originalProvider" := JStr "jambonz";
       "actualProvider" := JStr "twilio";
       "fallbackUsed" := JBool true ]}.

Definition toNumberFormats (cleanToNumber : string) : list string :=
  [ cleanToNumber;
    remove_first_plus cleanToNumber;
    if startsWith cleanToNumber "+91" then slice_from 3 cleanToNumber
    else if startsWith cleanToNumber "+1" then slice_from 2 cleanToNumber
    else remove_first_plus cleanToNumber ].

Definition hookUrl (env : Env) : string := tmpl (baseUrl env) +:+ "/api/amd-events".

Definition requestBody (env : Env) (cleanFromNumber : option string) (toFormat : string)
  : jsval :=
  JObj {[ "from" := of_opt cleanFromNumber;
          "to" := JStr toFormat;
          "webhook" := JObj {[ "url" := JStr (hookUrl env); "method" := JStr "POST" ]};
          "amd" :=
            JObj {[ "enabled" := JBool true;
                    "thresholdWordCount" := num 5;
                    "timers" :=
                      JObj {[ "decisionTimeoutMs" := num 10000;
                              "toneTimeoutMs" := num 20000;
                              "noSpeechTimeoutMs" := num 5000 ]};
                    "actionHook" := JStr (hookUrl env) ]};
          "sipTrunk" :=
            if opt_truthy (getenv env "JAMBONZ_SIP_REALM") then
              JObj {[ "realm" := of_opt (getenv env "JAMBONZ_SIP_REALM");
                      "username" := of_opt (getenv env "JAMBONZ_SIP_USERNAME");
                      "password" := of_opt (getenv env "JAMBONZ_SIP_PASSWORD") ]}
            else JUndefined ]}.

(** The [for] loop over the formats still to try; the last format is the
    one with no format after it.  A throw inside the loop body is caught
    there and the loop goes on. *)
Fixpoint tryFormats (env : Env) (phoneNumber callId : string)
    (cleanFromNumber : option string) (formats : list string) : AmdDetectionResult :=
  match formats with
  | [] => fallbackToTwilio env phoneNumber callId "All Jambonz phone number formats failed"
  | toFormat :: rest =>
      let next := tryFormats env phoneNumber callId cleanFromNumber rest in
      match fetch env
              {| fetch_url := tmpl (getenv env "JAMBONZ_API_BASE_URL") +:+ "/v1/Accounts/"
                              +:+ tmpl (getenv env "JAMBONZ_ACCOUNT_SID") +:+ "/Calls";
                 fetch_method := "POST";
                 fetch_headers :=
                   [("Authorization", "Bearer " +:+ tmpl (getenv env "JAMBONZ_API_KEY"));
                    ("Content-Type", "application/json")];
                 fetch_body := JsonBody (requestBody env cleanFromNumber toFormat) |} with
      | Throw _ => next
      | Ok response =>
          if ok response then
            match json response with
            | Throw _ | Ok JNull | Ok JUndefined => next
            | Ok data =>
                {| result := UNDECIDED;
                   confidence := num 0;
                   metadata :=
                     {[ "jambonzCallSid" := get data "sid";
                        "status" := JStr "initiated";
                        "phoneFormat" := JStr toFormat;
                        "provider" := JStr "jambonz";
                        "sipRouting" := JStr "enhanced";
                        "amdConfig" :=
                          JObj {[ "thresholdWordCount" := num 5;
                                  "decisionTimeoutMs" := num 10000 ]} ]} |}
            end
          else
            match text response with
            | Throw _ => next
            | Ok errorText =>
                match rest with
                | [] => fallbackToTwilio env phoneNumber callId
                          ("Jambonz rejected all formats: " +:+ errorText)
                | _ :: _ => next
                end
            end
      end
  end.

Definition processCall (env : Env) (phoneNumber callId : string) : AmdDetectionResult :=
  if negb (opt_truthy (getenv env "JAMBONZ_API_BASE_URL"))
     || negb (opt_truthy (getenv env "JAMBONZ_ACCOUNT_SID"))
     || negb (opt_truthy (getenv env "JAMBONZ_API_KEY")) then
    fallbackToTwilio env phoneNumber callId "Jambonz not configured"
  else if negb (checkJambonzAvailability env) then
    fallbackToTwilio env phoneNumber callId "Jambonz service unavailable"
  else
    let cleanFromNumber := strip_non_digits_plus <$> getenv env "TWILIO_PHONE_NUMBER" in
    let cleanToNumber := strip_non_digits_plus phoneNumber in
    tryFormats env phoneNumber callId cleanFromNumber (toNumberFormats cleanToNumber).

Definition handleWebhook (payload : obj) : option AmdDetectionResult :=
  let amd_human_detected := prop payload "amd_human_detected" in
  let amd_machine_detected := prop payload "amd_machine_detected" in
  let amd_decision_timeout := prop payload "amd_decision_timeout" in
  if truthy amd_human_detected then
    Some {| result := HUMAN; confidence := num 0.9;
            metadata := {[ "jambonzAmd" := JStr "human_detected" ]} |}
  else if truthy amd_machine_detected then
    Some {| result := MACHINE; confidence := num 0.85;
            metadata := {[ "jambonzAmd" := JStr "machine_detected" ]} |}
  else if truthy amd_decision_timeout then
    Some {| result := TIMEOUT; confidence := num 0.5;
            metadata := {[ "jambonzAmd" := JStr "decision_timeout" ]} |}
  else None.

End JambonzSipDetector.

(** *** class HuggingFaceDetector *)

(** [processCall] of this class and of the next builds a Twilio client
    first, with the credentials the constructor has already built one
    from; it is taken not to throw. *)

Module HuggingFaceDetector.

Definition ensurePythonServiceRunning (env : Env) : option string :=
  let pythonServiceUrl :=
    if opt_truthy (getenv env "PYTHON_SERVICE_URL")
    then tmpl (getenv env "PYTHON_SERVICE_URL")
    else "http://localhost:8000" in
  match fetch env
          {| fetch_url := pythonServiceUrl +:+ "/health";
             fetch_method := "GET";
             fetch_headers := [];
             fetch_body := NoBody |} with
  | Ok healthCheck => if ok healthCheck then Some pythonServiceUrl else None
  | Throw _ => None
  end.

Definition processCall (env : Env) (phoneNumber callId : string) : AmdDetectionResult :=
  match ensurePythonServiceRunning env with
  | None =>
      let fallbackResult := TwilioNativeDetector.processCall env phoneNumber callId in
      annotate fallbackResult
        {[ "strategy" := JStr "huggingface-fallback";
           "fallbackReason" := JStr "Python service unavailable";
           "originalStrategy" := JStr "huggingface" ]}
  | Some pythonServiceUrl =>
      match twilio_calls_create env
              {| to := phoneNumber;
                 from := getenv env "TWILIO_PHONE_NUMBER";
                 url := tmpl (baseUrl env) +:+ "/api/webhooks/twilio/voice-stream";
                 statusCallback := tmpl (baseUrl env) +:+ "/api/webhooks/twilio/status";
                 record := Some false |} with
      | Ok call =>
          {| result := UNDECIDED;
             confidence := num 0;
             metadata :=
               {[ "twilioCallSid" := JStr (sid call);
                  "strategy" := JStr "huggingface";
                  "pythonService" := JStr pythonServiceUrl;
                  "streamingEnabled" := JBool true;
                  "model" := JStr "jakeBland/wav2vec-vm-finetune";
                  "analysisMethod" := JStr "real-time-streaming-ml" ]} |}
      | Throw error =>
          let fallbackResult := TwilioNativeDetector.processCall env phoneNumber callId in
          annotate fallbackResult
            {[ "strategy" := JStr "huggingface-error-fallback";
               "originalError" := JStr (error_message error);
               "originalStrategy" := JStr "huggingface" ]}
      end
  end.

Definition processAudioBuffer (env : Env) (audioBuffer : list Byte.byte)
  : AmdDetectionResult :=
  match fetch env
          {| fetch_url := tmpl (getenv env "PYTHON_SERVICE_URL") +:+ "/predict";
             fetch_method := "POST";
             fetch_headers := [("Content-Type", "application/octet-stream")];
             fetch_body := BytesBody audioBuffer |} with
  | Throw error => error_result error
  | Ok response =>
      if negb (ok response) then
        error_result (new_Error ("Python service error: " +:+ statusText response))
      else
        match json response with
        | Throw error => error_result error
        | Ok JNull => error_result (TypeError_reading "null" "label")
        | Ok JUndefined => error_result (TypeError_reading "undefined" "label")
        | Ok data =>
            {| result := if is_str (get data "label") "human" then HUMAN else MACHINE;
               confidence := get data "confidence";
               metadata :=
                 {[ "model" := JStr "jakeBland/wav2vec-vm-finetune";
                    "rawPrediction" := data ]} |}
        end
  end.

Definition handleWebhook (payload : obj) : option AmdDetectionResult :=
  TwilioNativeDetector.handleWebhook payload.

End HuggingFaceDetector.

(** *** class GeminiFlashDetector *)

Module GeminiFlashDetector.

(** The instance: [genAI] is set by the constructor when the API key is
    configured, and is [null] otherwise. *)
Record t : Type := { genAI : bool }.

Definition new (env : Env) : t :=
  {| genAI := opt_truthy (getenv env "GEMINI_API_KEY") |}.

Definition testGeminiAvailability (this : t) (env : Env) : bool :=
  if negb (genAI this) then false
  else
    match gemini_generateContent env "Hi" with
    | Ok result => bool_decide (is_Some (response result))
    | Throw _ => false
    end.

Definition processCall (this : t) (env : Env) (phoneNumber callId : string)
  : AmdDetectionResult :=
  if negb (opt_truthy (getenv env "GEMINI_API_KEY")) || negb (genAI this) then
    let fallbackResult := TwilioNativeDetector.processCall env phoneNumber callId in
    annotate fallbackResult
      {[ "strategy" := JStr "gemini-fallback";
         "fallbackReason" := JStr "Gemini API key not configured";
         "originalStrategy" := JStr "gemini";
         "note" := JStr "Get free API key from ai.google.dev" ]}
  else if negb (testGeminiAvailability this env) then
    let fallbackResult := TwilioNativeDetector.processCall env phoneNumber callId in
    annotate fallbackResult
      {[ "strategy" := JStr "gemini-api-fallback";
         "fallbackReason" := JStr "Gemini API unavailable";
         "originalStrategy" := JStr "gemini" ]}
  else
    match twilio_calls_create env
            {| to := phoneNumber;
               from := getenv env "TWILIO_PHONE_NUMBER";
               url := tmpl (baseUrl env) +:+ "/api/webhooks/twilio/voice-gemini";
               statusCallback := tmpl (baseUrl env) +:+ "/api/webhooks/twilio/status";
               record := Some false |} with
    | Ok call =>
        {| result := UNDECIDED;
           confidence := num 0;
           metadata :=
             {[ "twilioCallSid" := JStr (sid call);
                "strategy" := JStr "gemini";
                "geminiModel" := JStr "gemini-1.5-flash";
                "streamingEnabled" := JBool true;
                "analysisMethod" := JStr "multimodal-streaming-llm";
                "costOptimized" := JBool true ]} |}
    | Throw error =>
        let fallbackResult := TwilioNativeDetector.processCall env phoneNumber callId in
        annotate fallbackResult
          {[ "strategy" := JStr "gemini-error-fallback";
             "originalError" := JStr (error_message error);
             "originalStrategy" := JStr "gemini" ]}
    end.

(** [x || "unknown"] for an optional string. *)
Definition or_unknown (x : option string) : string :=
  if opt_truthy x then tmpl x else "unknown".

Definition getStandardPrompt (transcript : string) (audioQuality noiseLevel : option string)
  : string :=
  "
Analyze this phone call audio/transcript for AMD detection.

Audio characteristics:
- Quality: "
  +:+ or_unknown audioQuality
  +:+ "
- Background noise: "
  +:+ or_unknown noiseLevel
  +:+ "

Transcript: "
  +:+ quoted transcript
  +:+ "

Determine if this is:
1. Human speaker (interactive, conversational)
2. Answering machine (scripted, one-way)
3. Voicemail system (automated prompts)

Consider:
- Response patterns and timing
- Speech naturalness vs. recorded quality
- Interactive elements vs. scripted content
- Background audio characteristics

Respond with JSON:
{
  "
  +:+ quoted "classification" +:+ ": " +:+ quoted "human" +:+ " | " +:+ quoted "machine"
  +:+ " | " +:+ quoted "voicemail"
  +:+ ",
  "
  +:+ quoted "confidence"
  +:+ ": 0.0-1.0,
  "
  +:+ quoted "reasoning" +:+ ": " +:+ quoted "detailed analysis"
  +:+ ",
  "
  +:+ quoted "audio_quality_score"
  +:+ ": 0.0-1.0,
  "
  +:+ quoted "interaction_indicators" +:+ ": [" +:+ quoted "list" +:+ ", "
  +:+ quoted "of" +:+ ", " +:+ quoted "indicators"
  +:+ "]
}
    ".

Definition getFallbackPrompt (transcript : string) : string :=
  "
AMD Analysis - Audio: noisy
Transcript: "
  +:+ quoted transcript
  +:+ "
Human or Machine? JSON: {"
  +:+ quoted "type" +:+ ":" +:+ quoted "human|machine" +:+ "," +:+ quoted "conf"
  +:+ ":0.0-1.0}
    ".

Definition parseFallbackResponse (text : string) : option AmdDetectionResult :=
  let lowerText := toLowerCase text in
  if includes lowerText "human" then
    Some {| result := HUMAN;
            confidence := num 0.7;
            metadata := {[ "fallbackParsing" := JBool true; "rawResponse" := JStr text ]} |}
  else if includes lowerText "machine" || includes lowerText "voicemail" then
    Some {| result := MACHINE;
            confidence := num 0.7;
            metadata := {[ "fallbackParsing" := JBool true; "rawResponse" := JStr text ]} |}
  else None.

(** The inner [try] block of [processAudioText]: [None] when it throws,
    which is when [JSON.parse] throws or when the parsed value is [null]
    (reading [parsed.classification] then throws a TypeError). *)
Definition parseStructured `{Runtime} (text transcript optimizedTranscript : string)
    (audioQuality noiseLevel : option string) (isNoisyAudio : bool)
  : option AmdDetectionResult :=
  match JSON_parse text with
  | None | Some JNull | Some JUndefined => None
  | Some parsed =>
      let amdResult :=
        if is_str (get parsed "classification") "human" then HUMAN
        else if is_str (get parsed "classification") "voicemail" then VOICEMAIL
        else MACHINE in
      Some {| result := amdResult;
              confidence := get parsed "confidence";
              metadata :=
                {[ "geminiResponse" := parsed;
                   "transcript" := JStr optimizedTranscript;
                   "audioQuality" := of_opt audioQuality;
                   "noiseLevel" := of_opt noiseLevel;
                   "promptType" := JStr (if isNoisyAudio then "fallback" else "standard");
                   "tokenOptimized" := JBool (500 <? String.length transcript)%nat ]} |}
  end.

(** The [catch (parseError)] block. *)
Definition parseRecovered (text : string) : AmdDetectionResult :=
  match parseFallbackResponse text with
  | Some fallbackResult => fallbackResult
  | None =>
      {| result := ERROR;
         confidence := num 0;
         metadata :=
           {[ "error" := JStr "Failed to parse Gemini response";
              "rawResponse" := JStr text;
              "fallbackAttempted" := JBool true ]} |}
  end.

(** The three constants [processAudioText] computes before it calls the
    model. *)
Definition isNoisyAudio (audioQuality noiseLevel : option string) : bool :=
  is_str (of_opt noiseLevel) "high" || is_str (of_opt audioQuality) "poor".

Definition optimizedTranscript (transcript : string) : string :=
  if (500 <? String.length transcript)%nat
  then String.substring 0 500 transcript +:+ "..."
  else transcript.

Definition prompt (transcript : string) (audioQuality noiseLevel : option string) : string :=
  if isNoisyAudio audioQuality noiseLevel
  then getFallbackPrompt (optimizedTranscript transcript)
  else getStandardPrompt (optimizedTranscript transcript) audioQuality noiseLevel.

Definition processAudioText `{Runtime} (this : t) (env : Env) (transcript : string)
    (audioQuality noiseLevel : option string) : AmdDetectionResult :=
  if negb (genAI this) then error_result (new_Error "Gemini API not initialized")
  else
    match gemini_generateContent env (prompt transcript audioQuality noiseLevel) with
    | Throw error => error_result error
    | Ok result =>
        match response result with
        | None => error_result (TypeError_reading "undefined" "text")
        | Some (Throw error) => error_result error
        | Some (Ok text) =>
            match parseStructured text transcript (optimizedTranscript transcript)
                    audioQuality noiseLevel (isNoisyAudio audioQuality noiseLevel) with
            | Some r => r
            | None => parseRecovered text
            end
        end
    end.

Definition handleWebhook (payload : obj) : option AmdDetectionResult :=
  TwilioNativeDetector.handleWebhook payload.

End GeminiFlashDetector.

(** *** interface AmdDetector and createDetector *)

Inductive AmdDetector : Type :=
  | IsTwilioNative
  | IsJambonzSip
  | IsHuggingFace
  | IsGeminiFlash (this : GeminiFlashDetector.t).

(** The [default] branch of the source's [switch] throws; no value of the
    enum reaches it. *)
Definition createDetector (env : Env) (strategy : AmdStrategy) : AmdDetector :=
  match strategy with
  | TWILIO_NATIVE => IsTwilioNative
  | JAMBONZ_SIP => IsJambonzSip
  | HUGGINGFACE_MODEL => IsHuggingFace
  | GEMINI_FLASH => IsGeminiFlash (GeminiFlashDetector.new env)
  end.

Definition processCall (d : AmdDetector) (env : Env) (phoneNumber callId : string)
  : AmdDetectionResult :=
  match d with
  | IsTwilioNative => TwilioNativeDetector.processCall env phoneNumber callId
  | IsJambonzSip => JambonzSipDetector.processCall env phoneNumber callId
  | IsHuggingFace => HuggingFaceDetector.processCall env phoneNumber callId
  | IsGeminiFlash this => GeminiFlashDetector.processCall this env phoneNumber callId
  end.

Definition handleWebhook (d : AmdDetector) (payload : obj) : option AmdDetectionResult :=
  match d with
  | IsTwilioNative => TwilioNativeDetector.handleWebhook payload
  | IsJambonzSip => JambonzSipDetector.handleWebhook payload
  | IsHuggingFace => HuggingFaceDetector.handleWebhook payload
  | IsGeminiFlash _ => GeminiFlashDetector.handleWebhook payload
  end.

End AmdStrategies.

(* ===================================================================== *)
(** ** The webhook routes                                                 *)
(* ===================================================================== *)

(** The three routes that hand an event to a detector's [handleWebhook]
    and write the call record:
    - the Twilio status webhook  ([POST], form-encoded body),
    - the Jambonz webhook        ([POST], JSON body),
    - the Jambonz AMD-events webhook ([POST], JSON body).
    Each route first resolves the call record with [prisma.call.findFirst];
    the store is external, so a route is modelled from the resolved record
    on, and its [where] clause is kept as a predicate on that record.  A
    record holds its fields as the route hands them to the store; the
    store's own encoding of them is not modelled.  The JSON action a route
    answers with is not part of the record and is left out. *)

Module Routes.

Import AmdStrategies.

Inductive CallStatus : Type :=
  | INITIATED
  | RINGING
  | ANSWERED
  | COMPLETED
  | FAILED
  | CANCELLED.

#[global] Instance CallStatus_eq_dec : EqDecision CallStatus.
Proof. solve_decision. Defined.

(** The enum value as the string it is at run time. *)
Definition AmdStrategy_name (s : AmdStrategy) : string :=
  match s with
  | TWILIO_NATIVE => "TWILIO_NATIVE"
  | JAMBONZ_SIP => "JAMBONZ_SIP"
  | HUGGINGFACE_MODEL => "HUGGINGFACE_MODEL"
  | GEMINI_FLASH => "GEMINI_FLASH"
  end.

(** A row of the [calls] table. *)
Module Call.

Record t : Type := {
  id : string;
  userId : string;
  targetNumber : string;
  amdStrategy : AmdStrategy;
  status : CallStatus;
  amdResult : option AmdResult;
  confidence : jsval;
  duration : option number;
  cost : option number;
  errorMessage : option string;
  metadata : option obj;
  createdAt : Z;
  updatedAt : Z;
}.

End Call.

(** The [data] argument of [prisma.call.update]: a field is written when
    it is present ([Some]); a written [null] is [Some None]. *)
Record UpdateData : Type := {
  data_status : option CallStatus;
  data_amdResult : option (option AmdResult);
  data_confidence : option jsval;
  data_duration : option (option number);
  data_cost : option (option number);
  data_metadata : option obj;
  data_updatedAt : option Z;
}.

(** [prisma.call.update({ where: { id: call.id }, data })] on the row. *)
Definition prisma_call_update (call : Call.t) (data : UpdateData) : Call.t :=
  {| Call.id := Call.id call;
     Call.userId := Call.userId call;
     Call.targetNumber := Call.targetNumber call;
     Call.amdStrategy := Call.amdStrategy call;
     Call.status := default (Call.status call) (data_status data);
     Call.amdResult := default (Call.amdResult call) (data_amdResult data);
     Call.confidence := default (Call.confidence call) (data_confidence data);
     Call.duration := default (Call.duration call) (data_duration data);
     Call.cost := default (Call.cost call) (data_cost data);
     Call.errorMessage := Call.errorMessage call;
     Call.metadata :=
       match data_metadata data with
       | Some m => Some m
       | None => Call.metadata call
       end;
     Call.createdAt := Call.createdAt call;
     Call.updatedAt := default (Call.updatedAt call) (data_updatedAt data) |}.

(** [metadata: { path: [key], equals: value }] *)
Definition metadata_path_equals (call : Call.t) (key : string) (value : jsval) : Prop :=
  exists m, Call.metadata call = Some m /\ m !! key = Some value.

(** *** The Twilio status webhook *)

Module TwilioStatus.

(** The form fields of the request; each value is a string. *)
Abbreviation Body := (gmap string string).

(** The [where] clause of the route's [findFirst]. *)
Definition where_ (body : Body) (call : Call.t) : Prop :=
  exists CallSid, body !! "CallSid" = Some CallSid
                  /\ metadata_path_equals call "twilioCallSid" (JStr CallSid).

Definition mapTwilioStatus (status : jsval) : CallStatus :=
  if is_str status "queued" || is_str status "initiated" then INITIATED
  else if is_str status "ringing" then RINGING
  else if is_str status "in-progress" then ANSWERED
  else if is_str status "completed" then COMPLETED
  else if is_str status "failed" || is_str status "busy" || is_str status "no-answer"
  then FAILED
  else if is_str status "canceled" then CANCELLED
  else INITIATED.

(** The object handed to [prisma.call.update]. *)
Definition updateData (env : Env) (call : Call.t) (body : Body) (now : Z) : UpdateData :=
  let twilioStatus := of_opt (body !! "CallStatus") in
  let AnsweringMachineDetectionStatus :=
    of_opt (body !! "AnsweringMachineDetectionStatus") in
  let AnsweredBy := of_opt (body !! "AnsweredBy") in
  let CallDuration := body !! "CallDuration" in
  let newStatus := mapTwilioStatus twilioStatus in
  let duration :=
    if opt_truthy CallDuration then Some (parseInt (tmpl CallDuration)) else None in
  let cost :=
    match duration with
    | Some d => if number_truthy d then Some (nmul (ndiv d 60) 0.0085) else None
    | None => None
    end in
  let amdResult := Call.amdResult call in
  let confidence := Call.confidence call in
  let metadata := default ∅ (Call.metadata call) in
  let '(amdResult, confidence, metadata) :=
    if truthy AnsweringMachineDetectionStatus || truthy AnsweredBy then
      let detector := createDetector env TWILIO_NATIVE in
      let amdPayload : obj :=
        <["AnsweringMachineDetectionStatus" :=
            or_else AnsweringMachineDetectionStatus AnsweredBy]> (JStr <$> body) in
      match handleWebhook detector amdPayload with
      | Some result =>
          (Some (AmdStrategies.result result),
           AmdStrategies.confidence result,
           spread (spread metadata (AmdStrategies.metadata result))
             {[ "originalAnsweredBy" := AnsweredBy;
                "originalStrategy" := JStr (AmdStrategy_name (Call.amdStrategy call));
                "actualProvider" := JStr "twilio";
                "fallbackUsed" :=
                  JBool (bool_decide (Call.amdStrategy call <> TWILIO_NATIVE)) ]})
      | None => (amdResult, confidence, metadata)
      end
    else (amdResult, confidence, metadata) in
  {| data_status := Some newStatus;
     data_amdResult := Some amdResult;
     data_confidence := Some confidence;
     data_duration := Some duration;
     data_cost := Some cost;
     data_metadata := Some metadata;
     data_updatedAt := Some now |}.

(** The record after the route has handled [body] for [call]. *)
Definition POST (env : Env) (call : Call.t) (body : Body) (now : Z) : Call.t :=
  prisma_call_update call (updateData env call body now).

End TwilioStatus.

(** The status switch shared by the two Jambonz routes. *)
Definition mapJambonzStatus (call : Call.t) (status : jsval) : CallStatus :=
  if is_str status "trying" || is_str status "proceeding" then INITIATED
  else if is_str status "ringing" then RINGING
  else if is_str status "early" || is_str status "in-progress" then ANSWERED
  else if is_str status "completed" then COMPLETED
  else if is_str status "failed" || is_str status "busy" || is_str status "no-answer"
  then FAILED
  else if is_str status "canceled" then CANCELLED
  else Call.status call.

(** *** The Jambonz webhook *)

Module JambonzWebhook.

Definition where_ (body : obj) (call : Call.t) : Prop :=
  metadata_path_equals call "jambonzCallSid" (prop body "call_sid")
  /\ Call.amdStrategy call = JAMBONZ_SIP.

Definition updateData `{Runtime} (env : Env) (call : Call.t) (body : obj) (now : Z)
  : UpdateData :=
  let call_status := prop body "call_status" in
  let call_duration := prop body "call_duration" in
  let detector := createDetector env JAMBONZ_SIP in
  let result := handleWebhook detector body in
  let newStatus :=
    if truthy call_status then mapJambonzStatus call call_status else Call.status call in
  let duration :=
    if truthy call_duration then Some (parseInt (ToString call_duration)) else None in
  let cost :=
    match duration with
    | Some d => if number_truthy d then Some (nmul (ndiv d 60) 0.01) else None
    | None => None
    end in
  {| data_status := Some newStatus;
     data_updatedAt := Some now;
     data_amdResult := (fun r => Some (AmdStrategies.result r)) <$> result;
     data_confidence := AmdStrategies.confidence <$> result;
     data_metadata :=
       (fun r => spread (default ∅ (Call.metadata call)) (AmdStrategies.metadata r))
         <$> result;
     data_duration := Some <$> duration;
     data_cost := Some <$> cost |}.

Definition POST `{Runtime} (env : Env) (call : Call.t) (body : obj) (now : Z) : Call.t :=
  prisma_call_update call (updateData env call body now).

End JambonzWebhook.

(** *** The Jambonz AMD-events webhook *)

Module AmdEvents.

Definition where_ (body : obj) (call : Call.t) : Prop :=
  (metadata_path_equals call "jambonzCallSid" (prop body "call_sid")
   \/ metadata_path_equals call "twilioCallSid" (prop body "call_sid"))
  /\ (Call.amdStrategy call = JAMBONZ_SIP \/ Call.amdStrategy call = TWILIO_NATIVE).

Definition calculateCost (durationSec : number) (strategy : AmdStrategy) : number :=
  if bool_decide (strategy = JAMBONZ_SIP)
  then nmul (ndiv durationSec 60) 0.008
  else nmul (ndiv durationSec 60) 0.0085.

(** [nowISO] is what [new Date().toISOString()] returns when the metadata
    is built. *)
Definition updateData `{Runtime} (env : Env) (call : Call.t) (body : obj)
    (now : Z) (nowISO : string) : UpdateData :=
  let call_status := prop body "call_status" in
  let call_duration := prop body "call_duration" in
  let detector := createDetector env (Call.amdStrategy call) in
  let result := handleWebhook detector body in
  let newStatus :=
    if truthy call_status then mapJambonzStatus call call_status else Call.status call in
  let duration :=
    if truthy call_duration then Some (parseInt (ToString call_duration)) else None in
  let cost :=
    match duration with
    | Some d =>
        if number_truthy d then Some (calculateCost d (Call.amdStrategy call)) else None
    | None => None
    end in
  {| data_status := Some newStatus;
     data_updatedAt := Some now;
     data_amdResult := (fun r => Some (AmdStrategies.result r)) <$> result;
     data_confidence := AmdStrategies.confidence <$> result;
     data_metadata :=
       (fun r =>
          spread (spread (default ∅ (Call.metadata call)) (AmdStrategies.metadata r))
            {[ "lastWebhookReceived" := JStr nowISO;
               "provider" :=
                 JStr (if bool_decide (Call.amdStrategy call = JAMBONZ_SIP)
                       then "jambonz" else "twilio") ]})
         <$> result;
     data_duration := Some <$> duration;
     data_cost := Some <$> cost |}.

Definition POST `{Runtime} (env : Env) (call : Call.t) (body : obj)
    (now : Z) (nowISO : string) : Call.t :=
  prisma_call_update call (updateData env call body now nowISO).

End AmdEvents.

(** *** Events, as the reconciliation layer receives them *)

(** A webhook request together with the clock readings its route takes. *)
Inductive Event : Type :=
  | TwilioStatusEvent (body : TwilioStatus.Body) (now : Z)
  | JambonzWebhookEvent (body : obj) (now : Z)
  | AmdEventsEvent (body : obj) (now : Z) (nowISO : string).

(** The event resolves to the record: the [where] clause of its route. *)
Definition resolves (ev : Event) (call : Call.t) : Prop :=
  match ev with
  | TwilioStatusEvent body _ => TwilioStatus.where_ body call
  | JambonzWebhookEvent body _ => JambonzWebhook.where_ body call
  | AmdEventsEvent body _ _ => AmdEvents.where_ body call
  end.

(** The detector the route of [ev] selects for a record, and the payload
    of the event.  (The Twilio route calls its detector only when the body
    carries a classification, and then on a copy of the body that carries
    the same classification; on the body itself the detector answers the
    same.) *)
Definition selected (env : Env) (call : Call.t) (ev : Event) : AmdDetector :=
  match ev with
  | TwilioStatusEvent _ _ => createDetector env TWILIO_NATIVE
  | JambonzWebhookEvent _ _ => createDetector env JAMBONZ_SIP
  | AmdEventsEvent _ _ _ => createDetector env (Call.amdStrategy call)
  end.

Definition payload (ev : Event) : obj :=
  match ev with
  | TwilioStatusEvent body _ => JStr <$> body
  | JambonzWebhookEvent body _ => body
  | AmdEventsEvent body _ _ => body
  end.

(** What the selected strategy's [handleWebhook] returns for the event. *)
Definition signal (env : Env) (call : Call.t) (ev : Event) : option AmdDetectionResult :=
  handleWebhook (selected env call ev) (payload ev).

(** One event, then a sequence of events, merged into the record. *)
Definition reconcile `{Runtime} (env : Env) (call : Call.t) (ev : Event) : Call.t :=
  match ev with
  | TwilioStatusEvent body now => TwilioStatus.POST env call body now
  | JambonzWebhookEvent body now => JambonzWebhook.POST env call body now
  | AmdEventsEvent body now nowISO => AmdEvents.POST env call body now nowISO
  end.

Definition reconcile_all `{Runtime} (env : Env) (call : Call.t) (evs : list Event)
  : Call.t :=
  fold_left (reconcile env) evs call.

End Routes.

(* ===================================================================== *)
(** ** A reference runtime                                                *)
(* ===================================================================== *)

(** An instance of [Runtime] to run the model on concrete inputs.  Every
    result below is stated for an arbitrary runtime; this one only
    instantiates them.  [JSON_parse] follows the JSON grammar (RFC 8259) on
    8-bit strings (a [\u] escape above 255 is read as "?").
    [Number_toString] prints an integer in decimal and any other number
    with its fractional digits, at most 17 of them. *)

Module ReferenceRuntime.

Definition quote_char : ascii := ascii_of_nat 34.
Definition backslash : ascii := ascii_of_nat 92.

Fixpoint skip_ws (s : string) : string :=
  match s with
  | String c r =>
      let n := nat_of_ascii c in
      if (n =? 32)%nat || (n =? 9)%nat || (n =? 10)%nat || (n =? 13)%nat
      then skip_ws r else s
  | EmptyString => s
  end.

Definition hex4 (s : string) : option (N * string) :=
  match s with
  | String a (String b (String c (String d r))) =>
      match digit_value 16 a, digit_value 16 b, digit_value 16 c, digit_value 16 d with
      | Some x, Some y, Some z, Some w => Some (((x * 16 + y) * 16 + z) * 16 + w, r)%N
      | _, _, _, _ => None
      end
  | _ => None
  end.

(** The characters of a string literal after its opening quote, up to the
    closing quote; [acc] holds the characters read so far, last first. *)
Fixpoint string_body (fuel : nat) (s : string) (acc : list ascii)
  : option (string * string) :=
  match fuel with
  | O => None
  | S fuel =>
      match s with
      | EmptyString => None
      | String c r =>
          if Ascii.eqb c quote_char then
            Some (String.string_of_list_ascii (rev acc), r)
          else if Ascii.eqb c backslash then
            match r with
            | String e r' =>
                let plain x := string_body fuel r' (x :: acc) in
                if Ascii.eqb e quote_char then plain quote_char
                else if Ascii.eqb e backslash then plain backslash
                else if Ascii.eqb e "/" then plain "/"%char
                else if Ascii.eqb e "b" then plain (ascii_of_nat 8)
                else if Ascii.eqb e "f" then plain (ascii_of_nat 12)
                else if Ascii.eqb e "n" then plain (ascii_of_nat 10)
                else if Ascii.eqb e "r" then plain (ascii_of_nat 13)
                else if Ascii.eqb e "t" then plain (ascii_of_nat 9)
                else if Ascii.eqb e "u" then
                  match hex4 r' with
                  | Some (n, r'') =>
                      string_body fuel r''
                        ((if (n <? 256)%N then ascii_of_N n else "?"%char) :: acc)
                  | None => None
                  end
                else None
            | EmptyString => None
            end
          else if (nat_of_ascii c <? 32)%nat then None
          else string_body fuel r (c :: acc)
      end
  end.

(** A maximal run of decimal digits: its value, its length, the rest. *)
Fixpoint digits_run (s : string) (acc : N) (len : nat) : N * nat * string :=
  match s with
  | String c r =>
      if is_digit c
      then digits_run r (10 * acc + (N_of_ascii c - 48))%N (S len)
      else (acc, len, s)
  | EmptyString => (acc, len, s)
  end.

Definition pow10 (n : N) : Q := inject_Z (10 ^ Z.of_N n).

(** [-? int frac? exp?] *)
Definition number_literal (s : string) : option (Q * string) :=
  let '(neg, s) :=
    match s with
    | String "-" r => (true, r)
    | _ => (false, s)
    end in
  let '(ip, ilen, s1) := digits_run s 0%N 0%nat in
  let leading_zero :=
    match s with
    | String "0" _ => (1 <? ilen)%nat
    | _ => false
    end in
  if (ilen =? 0)%nat || leading_zero then None
  else
    let frac :=
      match s1 with
      | String "." r =>
          let '(fp, flen, s2) := digits_run r 0%N 0%nat in
          if (flen =? 0)%nat then None
          else Some ((inject_Z (Z.of_N fp) / pow10 (N.of_nat flen))%Q, s2)
      | _ => Some (0%Q, s1)
      end in
    match frac with
    | None => None
    | Some (fq, s2) =>
        let mant := (inject_Z (Z.of_N ip) + fq)%Q in
        let scaled :=
          match s2 with
          | String e r =>
              if Ascii.eqb e "e" || Ascii.eqb e "E" then
                let '(eneg, r') :=
                  match r with
                  | String "-" t => (true, t)
                  | String "+" t => (false, t)
                  | _ => (false, r)
                  end in
                let '(ev, elen, s3) := digits_run r' 0%N 0%nat in
                if (elen =? 0)%nat then None
                else Some ((if eneg then mant / pow10 ev else mant * pow10 ev)%Q, s3)
              else Some (mant, s2)
          | EmptyString => Some (mant, s2)
          end in
        match scaled with
        | None => None
        | Some (q, s3) => Some (Qred (if neg then - q else q)%Q, s3)
        end
    end.

(** One JSON value at the head of [s], and what follows it. *)
Fixpoint value (fuel : nat) (s : string) : option (jsval * string) :=
  match fuel with
  | O => None
  | S fuel =>
      match skip_ws s with
      | EmptyString => None
      | String c r as s' =>
          if Ascii.eqb c "{" then
            match skip_ws r with
            | String "}" r' => Some (JObj ∅, r')
            | r' => members fuel r' ∅
            end
          else if Ascii.eqb c "[" then
            match skip_ws r with
            | String "]" r' => Some (JArr [], r')
            | r' => elements fuel r' []
            end
          else if Ascii.eqb c quote_char then
            match string_body (String.length r) r [] with
            | Some (str, r') => Some (JStr str, r')
            | None => None
            end
          else if String.prefix "true" s' then Some (JBool true, slice_from 4 s')
          else if String.prefix "false" s' then Some (JBool false, slice_from 5 s')
          else if String.prefix "null" s' then Some (JNull, slice_from 4 s')
          else
            match number_literal s' with
            | Some (q, r') => Some (JNum (Num q), r')
            | None => None
            end
      end
  end

(** The elements of an array after its opening bracket; [acc] holds the
    elements read so far, last first. *)
with elements (fuel : nat) (s : string) (acc : list jsval) : option (jsval * string) :=
  match fuel with
  | O => None
  | S fuel =>
      match value fuel s with
      | None => None
      | Some (v, r) =>
          match skip_ws r with
          | String "," r' => elements fuel r' (v :: acc)
          | String "]" r' => Some (JArr (rev (v :: acc)), r')
          | _ => None
          end
      end
  end

(** The members of an object after its opening brace; a repeated key keeps
    its last value. *)
with members (fuel : nat) (s : string) (acc : obj) : option (jsval * string) :=
  match fuel with
  | O => None
  | S fuel =>
      match skip_ws s with
      | String c r =>
          if Ascii.eqb c quote_char then
            match string_body (String.length r) r [] with
            | None => None
            | Some (key, r1) =>
                match skip_ws r1 with
                | String ":" r2 =>
                    match value fuel r2 with
                    | None => None
                    | Some (v, r3) =>
                        match skip_ws r3 with
                        | String "," r4 => members fuel r4 (<[key := v]> acc)
                        | String "}" r4 => Some (JObj (<[key := v]> acc), r4)
                        | _ => None
                        end
                    end
                | _ => None
                end
            end
          else None
      | EmptyString => None
      end
  end.

Definition json_parse (text : string) : option jsval :=
  match value (2 * String.length text + 2) text with
  | Some (v, r) =>
      match skip_ws r with
      | EmptyString => Some v
      | String _ _ => None
      end
  | None => None
  end.

Definition decimal (z : Z) : string :=
  DecimalString.NilZero.string_of_int (Z.to_int z).

(** The first [n] fractional digits of [num / den], for [0 <= num < den]. *)
Fixpoint fraction_digits (n : nat) (num den : Z) : string :=
  match n with
  | O => ""
  | S n =>
      if (num =? 0)%Z then ""
      else
        let d := (10 * num / den)%Z in
        decimal d +:+ fraction_digits n (10 * num - d * den)%Z den
  end.

Definition number_toString (n : number) : string :=
  match n with
  | NaN => "NaN"
  | Num q =>
      let num := Qnum q in
      let den := Z.pos (Qden q) in
      let ip := Z.quot num den in
      let fr := (Z.abs num - Z.abs ip * den)%Z in
      let sign := if (num <? 0)%Z && (ip =? 0)%Z then "-" else "" in
      if (fr =? 0)%Z then decimal ip
      else sign +:+ decimal ip +:+ "." +:+ fraction_digits 17 fr den
  end.

#[global] Instance runtime : Runtime :=
  {| JSON_parse := json_parse; Number_toString := number_toString |}.

End ReferenceRuntime.

(* ===================================================================== *)
(** ** src/lib/phoneUtils.ts, continued: displayPhoneNumber               *)
(* ===================================================================== *)

Module PhoneDisplay.

Import PhoneUtils.

(** The length of the run of decimal digits at the head of [s]. *)
Fixpoint digit_run_length (s : string) : nat :=
  match s with
  | String c r => if is_digit c then S (digit_run_length r) else O
  | EmptyString => O
  end.

(** [s.slice(a, b)] for [0 <= a <= b] *)
Definition slice (a b : nat) (s : string) : string := String.substring a (b - a) s.

(** [s.replace(/(\+\d{1,3})(\d{3})(\d{3})(\d+)/, "$1 $2 $3 $4")]: the
    leftmost match only.  A match starts at a '+' that at least eight
    digits follow; the first group takes three digits, or fewer when the
    three later groups would be left short, and the last group takes the
    rest of the run. *)
Fixpoint group_digits (s : string) : string :=
  match s with
  | EmptyString => EmptyString
  | String c r =>
      let run := digit_run_length r in
      if Ascii.eqb c "+" && (8 <=? run)%nat then
        let g1 := Nat.min 3 (run - 7) in
        "+" +:+ String.substring 0 g1 r
        +:+ " " +:+ String.substring g1 3 r
        +:+ " " +:+ String.substring (g1 + 3) 3 r
        +:+ " " +:+ String.substring (g1 + 6) (run - (g1 + 6)) r
        +:+ slice_from run r
      else String c (group_digits r)
  end.

Definition displayPhoneNumber (phoneNumber : string) : string :=
  let formatted := formatPhoneNumber phoneNumber defaultCountryCode in
  if startsWith formatted "+1" && (String.length formatted =? 12)%nat then
    let digits := slice_from 2 formatted in
    "+1 (" +:+ slice 0 3 digits +:+ ") " +:+ slice 3 6 digits +:+ "-" +:+ slice_from 6 digits
  else if startsWith formatted "+91" && (String.length formatted =? 13)%nat then
    let digits := slice_from 3 formatted in
    "+91 " +:+ slice 0 5 digits +:+ " " +:+ slice_from 5 digits
  else if (12 <? String.length formatted)%nat then
    group_digits formatted
  else formatted.

End PhoneDisplay.

(* ===================================================================== *)
(** ** More of the JavaScript runtime                                     *)
(* ===================================================================== *)

Module JSMore.

(** [s.trim()] *)
Fixpoint trim_end (s : string) : string :=
  match s with
  | EmptyString => EmptyString
  | String c r =>
      match trim_end r with
      | EmptyString => if is_ws c then EmptyString else String c EmptyString
      | r' => String c r'
      end
  end.

Definition trim (s : string) : string := trim_end (trim_start s).

(** [l.join(sep)] on strings. *)
Fixpoint join (sep : string) (l : list string) : string :=
  match l with
  | [] => ""
  | [x] => x
  | x :: r => x +:+ sep +:+ join sep r
  end.

(** [v as string], for a value that is a string or is absent. *)
Definition as_string (v : jsval) : option string :=
  match v with
  | JStr s => Some s
  | _ => None
  end.

(** The part of ToNumber this file does not define: the number a string
    denotes. *)
Class StringNumericLiteral : Type := {
  StringToNumber : string -> number;
}.

(** ToNumber *)
Definition ToNumber `{Runtime} `{StringNumericLiteral} (v : jsval) : number :=
  match v with
  | JUndefined => NaN
  | JNull => Num 0
  | JBool true => Num 1
  | JBool false => Num 0
  | JNum n => n
  | JStr s => StringToNumber s
  | JArr _ => StringToNumber (ToString v)
  | JObj _ => NaN
  end.

(** [Math.max(a, b)] on numbers. *)
Definition Math_max (a b : number) : number :=
  match a, b with
  | Num p, Num q => Num (if Qle_bool p q then q else p)
  | _, _ => NaN
  end.

End JSMore.

Import JSMore.

(* ===================================================================== *)
(** ** The dial route                                                     *)
(* ===================================================================== *)

(** [POST] of the dial route: it checks the configuration, validates the
    request, creates the call record, asks the strategy's detector to
    place the call and stores what the detector returns.  The store
    chooses the new row's id, owner and creation time; creating the row is
    the one store operation taken to be able to fail. *)

Module DialRoute.

Import AmdStrategies Routes PhoneUtils.

Definition requiredEnvVars : list string :=
  ["TWILIO_ACCOUNT_SID"; "TWILIO_AUTH_TOKEN"; "TWILIO_PHONE_NUMBER"; "NGROK_URL"].

Definition missingVars (env : Env) : list string :=
  List.filter (fun key => negb (opt_truthy (getenv env key))) requiredEnvVars.

(** [z.nativeEnum(AmdStrategy)] *)
Definition nativeEnum_AmdStrategy (v : jsval) : option AmdStrategy :=
  if is_str v "TWILIO_NATIVE" then Some TWILIO_NATIVE
  else if is_str v "JAMBONZ_SIP" then Some JAMBONZ_SIP
  else if is_str v "HUGGINGFACE_MODEL" then Some HUGGINGFACE_MODEL
  else if is_str v "GEMINI_FLASH" then Some GEMINI_FLASH
  else None.

(** [dialSchema.parse(body)]: [None] when it throws a ZodError. *)
Definition dialSchema_parse (body : jsval) : option (string * AmdStrategy) :=
  match body with
  | JObj m =>
      match prop m "phoneNumber", nativeEnum_AmdStrategy (prop m "amdStrategy") with
      | JStr phoneNumber, Some amdStrategy =>
          if (7 <=? String.length phoneNumber)%nat && isValidPhoneNumber phoneNumber
          then Some (phoneNumber, amdStrategy)
          else None
      | _, _ => None
      end
  | _ => None
  end.

(** What the store chooses for a new row. *)
Record Created : Type := {
  new_id : string;
  new_userId : string;
  new_createdAt : Z;
}.

(** The row [prisma.call.create] returns for
    [{ targetNumber, amdStrategy, status: CallStatus.INITIATED }]. *)
Definition prisma_call_create (c : Created) (targetNumber : string)
    (amdStrategy : AmdStrategy) : Call.t :=
  {| Call.id := new_id c;
     Call.userId := new_userId c;
     Call.targetNumber := targetNumber;
     Call.amdStrategy := amdStrategy;
     Call.status := INITIATED;
     Call.amdResult := None;
     Call.confidence := JNull;
     Call.duration := None;
     Call.cost := None;
     Call.errorMessage := None;
     Call.metadata := None;
     Call.createdAt := new_createdAt c;
     Call.updatedAt := new_createdAt c |}.

(** The row after the route's [prisma.call.update] with the detector's
    result. *)
Definition store_result (call : Call.t) (r : AmdDetectionResult) : Call.t :=
  {| Call.id := Call.id call;
     Call.userId := Call.userId call;
     Call.targetNumber := Call.targetNumber call;
     Call.amdStrategy := Call.amdStrategy call;
     Call.status := if bool_decide (result r = ERROR) then FAILED else INITIATED;
     Call.amdResult := Some (result r);
     Call.confidence := confidence r;
     Call.duration := Call.duration call;
     Call.cost := Call.cost call;
     Call.errorMessage :=
       if bool_decide (result r = ERROR) then as_string (prop (metadata r) "error")
       else None;
     Call.metadata := Some (metadata r);
     Call.createdAt := Call.createdAt call;
     Call.updatedAt := Call.updatedAt call |}.

(** The JSON bodies the route answers with, by their shape. *)
Inductive Answer : Type :=
  | ConfigurationError (details : string)
  | InvalidRequest
  | InternalError (details : string)
  | CallFailed (callId : string) (error : jsval)
  | CallInitiated (callId : string).

(** The route: its answer, and the row it leaves in the store, if it has
    created one.  [body] is what [request.json()] gives, [created] what
    the store gives when the route creates the row. *)
Definition POST (env : Env) (body : outcome jsval) (created : outcome Created)
  : Answer * option Call.t :=
  match missingVars env with
  | _ :: _ =>
      (ConfigurationError
         ("Missing environment variables: " +:+ join ", " (missingVars env)), None)
  | [] =>
      match body with
      | Throw error => (InternalError (error_message error), None)
      | Ok body =>
          match dialSchema_parse body with
          | None => (InvalidRequest, None)
          | Some (phoneNumber, amdStrategy) =>
              let formattedPhoneNumber := formatPhoneNumber phoneNumber defaultCountryCode in
              match created with
              | Throw error => (InternalError (error_message error), None)
              | Ok c =>
                  let call := prisma_call_create c formattedPhoneNumber amdStrategy in
                  let detector := createDetector env amdStrategy in
                  let result :=
                    processCall detector env formattedPhoneNumber (Call.id call) in
                  let call' := store_result call result in
                  if bool_decide (AmdStrategies.result result = ERROR) then
                    (CallFailed (Call.id call)
                       (or_else (prop (metadata result) "error") (JStr "Call failed")),
                     Some call')
                  else (CallInitiated (Call.id call), Some call')
              end
          end
      end
  end.

End DialRoute.

(* ===================================================================== *)
(** ** The speech-verification route                                      *)
(* ===================================================================== *)

Module VerifyRoute.

Import AmdStrategies Routes.

Definition where_ (body : obj) (call : Call.t) : Prop :=
  metadata_path_equals call "jambonzCallSid" (prop body "call_sid")
  \/ metadata_path_equals call "twilioCallSid" (prop body "call_sid").

Definition humanKeywords : list string :=
  ["hello"; "hi"; "hey"; "yes"; "yeah"; "yep"; "speaking";
   "this is"; "what"; "who"; "how"; "why"; "okay"; "ok"].

Definition isHumanResponse (speechText : string) : bool :=
  if negb (string_truthy speechText) then false
  else
    let text := trim (toLowerCase speechText) in
    existsb (fun keyword => includes text keyword) humanKeywords
    || (2 <? String.length text)%nat.

(** The enum value as the string it is at run time. *)
Definition AmdResult_name (r : AmdResult) : string :=
  match r with
  | HUMAN => "HUMAN"
  | MACHINE => "MACHINE"
  | VOICEMAIL => "VOICEMAIL"
  | UNDECIDED => "UNDECIDED"
  | TIMEOUT => "TIMEOUT"
  | ERROR => "ERROR"
  end.

(** [speech && isHumanResponse(speech)] as a condition: [None] when
    [isHumanResponse] throws, which it does on a truthy [speech] that is
    no string (it has no [toLowerCase]). *)
Definition heard_human (speech : jsval) : option bool :=
  if truthy speech then
    match speech with
    | JStr s => Some (isHumanResponse s)
    | _ => None
    end
  else Some false.

(** The object handed to [prisma.call.update]; [None] when the route
    throws before it. *)
Definition updateData `{Runtime} `{StringNumericLiteral} (call : Call.t) (body : obj)
    (now : Z) (nowISO : string) : option UpdateData :=
  let speech := prop body "speech" in
  let confidence := prop body "confidence" in
  match heard_human speech with
  | None => None
  | Some human =>
      let amdResult := if human then HUMAN else MACHINE in
      let responseConfidence :=
        if human then Math_max (Num 0.8) (ToNumber (or_else confidence (num 0.8)))
        else Num 0.7 in
      Some {| data_status := None;
              data_amdResult := Some (Some amdResult);
              data_confidence := Some (JNum responseConfidence);
              data_duration := None;
              data_cost := None;
              data_metadata :=
                Some (spread (default ∅ (Call.metadata call))
                        {[ "speechVerification" :=
                             JObj {[ "speech" := or_else speech (JStr "no_speech");
                                     "confidence" := or_else confidence (num 0);
                                     "verifiedAt" := JStr nowISO;
                                     "result" := JStr (AmdResult_name amdResult) ]} ]});
              data_updatedAt := Some now |}
  end.

(** The record after the route has handled [body] for [call]; the record
    is as it was when the route throws. *)
Definition POST `{Runtime} `{StringNumericLiteral} (call : Call.t) (body : obj)
    (now : Z) (nowISO : string) : Call.t :=
  match updateData call body now nowISO with
  | Some data => prisma_call_update call data
  | None => call
  end.

End VerifyRoute.

(* ===================================================================== *)
(** ** The recording-analysis route                                       *)
(* ===================================================================== *)

(** [POST] of the Twilio recording webhook and the three functions of its
    file.  The analysis functions catch what they throw, so the route's
    own [catch] is reached only when the store fails; the store is taken
    to succeed, as in the other routes.  The route does not pass an
    [updatedAt]; the store's own stamping of it is not modelled. *)

Module RecordingRoute.

Import AmdStrategies Routes.

(** What the route needs of the world besides [Env]: the
    [content-length] header of the answer to a HEAD request for the
    recording, and the value [Math.random()] returns. *)
Record World : Type := {
  head_content_length : option string -> outcome (option string);
  Math_random : Q;
}.

Definition where_ (body : TwilioStatus.Body) (call : Call.t) : Prop :=
  TwilioStatus.where_ body call.

(** [a < b] and [a > b] for a number and a constant. *)
Definition nlt (a : number) (b : Q) : bool :=
  match a with
  | NaN => false
  | Num q => negb (Qle_bool b q)
  end.

Definition ngt (a : number) (b : Q) : bool :=
  match a with
  | NaN => false
  | Num q => negb (Qle_bool q b)
  end.

Definition Qmax (a b : Q) : Q := if Qle_bool a b then b else a.
Definition Qmin (a b : Q) : Q := if Qle_bool a b then a else b.
Definition Qabs (a : Q) : Q := if Qle_bool 0 a then a else (- a)%Q.

Record AudioAnalysis : Type := {
  isHuman : bool;
  analysis_confidence : Q;
  patterns : list string;
}.

Definition analyzeAudioPatterns (world : World) (recordingUrl : option string)
  : AudioAnalysis :=
  match head_content_length world recordingUrl with
  | Throw _ =>
      {| isHuman := true; analysis_confidence := 0.3; patterns := ["analysis-error"] |}
  | Ok contentLength =>
      let '(humanScore, found) :=
        if opt_truthy contentLength then
          let size := parseInt (tmpl contentLength) in
          let '(humanScore, found) :=
            if nlt size 50000 then ((0.5 + 0.2)%Q, ["short-response"]) else (0.5%Q, []) in
          if ngt size 200000 then ((humanScore - 0.3)%Q, (found ++ ["long-message"])%list)
          else (humanScore, found)
        else (0.5%Q, []) in
      let variance := ((Math_random world - 0.5) * 0.2)%Q in
      let humanScore := (humanScore + variance)%Q in
      let humanScore := Qmax 0.1 (Qmin 0.9 humanScore) in
      {| isHuman := negb (Qle_bool humanScore 0.5);
         analysis_confidence := (Qabs (humanScore - 0.5) * 2)%Q;
         patterns := (found ++ ["pattern-analysis-complete"])%list |}
  end.

Definition patterns_value (a : AudioAnalysis) : jsval := JArr (JStr <$> patterns a).

Definition analyzeRecordingWithHuggingFaceStyle (env : Env) (world : World)
    (recordingUrl : option string) : AmdDetectionResult :=
  let audioAnalysis := analyzeAudioPatterns world recordingUrl in
  let builtin :=
    {| result := if isHuman audioAnalysis then HUMAN else MACHINE;
       confidence := num (analysis_confidence audioAnalysis);
       metadata :=
         {[ "model" := JStr "huggingface-style-builtin";
            "pythonService" := JBool false;
            "patterns" := patterns_value audioAnalysis;
            "analysisMethod" := JStr "pattern-recognition" ]} |} in
  if opt_truthy (getenv env "PYTHON_SERVICE_URL") then
    match fetch env
            {| fetch_url := tmpl (getenv env "PYTHON_SERVICE_URL") +:+ "/predict-url";
               fetch_method := "POST";
               fetch_headers := [("Content-Type", "application/json")];
               fetch_body := JsonBody (JObj {[ "url" := of_opt recordingUrl ]}) |} with
    | Throw _ => builtin
    | Ok response =>
        if ok response then
          match json response with
          | Throw _ | Ok JNull | Ok JUndefined => builtin
          | Ok data =>
              {| result := if is_str (get data "label") "human" then HUMAN else MACHINE;
                 confidence := get data "confidence";
                 metadata :=
                   {[ "model" := JStr "jakeBland/wav2vec-vm-finetune";
                      "pythonService" := JBool true;
                      "rawPrediction" := data ]} |}
          end
        else builtin
    end
  else builtin.

(** [getTranscriptFromRecording]: it returns [null]. *)
Definition getTranscriptFromRecording (recordingUrl : option string) : option string :=
  None.

Definition analyzeRecordingWithGemini `{Runtime} (env : Env) (world : World)
    (recordingUrl : option string) : AmdDetectionResult :=
  let transcript := getTranscriptFromRecording recordingUrl in
  if opt_truthy transcript then
    let detector := GeminiFlashDetector.new env in
    let result :=
      GeminiFlashDetector.processAudioText detector env (tmpl transcript)
        (Some "recorded") (Some "low") in
    {| result := AmdStrategies.result result;
       confidence := AmdStrategies.confidence result;
       metadata := spread (AmdStrategies.metadata result) {[ "recordingAnalysis" := JBool true ]} |}
  else
    let audioAnalysis := analyzeAudioPatterns world recordingUrl in
    {| result := if isHuman audioAnalysis then HUMAN else MACHINE;
       confidence := num (analysis_confidence audioAnalysis * 0.8)%Q;
       metadata :=
         {[ "geminiUnavailable" := JBool true;
            "fallbackAnalysis" := JBool true;
            "patterns" := patterns_value audioAnalysis ]} |}.

(** The object handed to [prisma.call.update]. *)
Definition updateData `{Runtime} (env : Env) (world : World) (call : Call.t)
    (body : TwilioStatus.Body) : UpdateData :=
  let RecordingUrl := body !! "RecordingUrl" in
  let RecordingDuration := body !! "RecordingDuration" in
  let '(amdResult, confidence, analysisMetadata) :=
    match Call.amdStrategy call with
    | HUGGINGFACE_MODEL =>
        let result := analyzeRecordingWithHuggingFaceStyle env world RecordingUrl in
        (AmdStrategies.result result,
         AmdStrategies.confidence result,
         spread (spread (default ∅ (Call.metadata call)) (AmdStrategies.metadata result))
           {[ "recordingUrl" := of_opt RecordingUrl;
              "recordingDuration" := of_opt RecordingDuration;
              "analysisMethod" := JStr "recording-huggingface-style" ]})
    | GEMINI_FLASH =>
        let result := analyzeRecordingWithGemini env world RecordingUrl in
        (AmdStrategies.result result,
         AmdStrategies.confidence result,
         spread (spread (default ∅ (Call.metadata call)) (AmdStrategies.metadata result))
           {[ "recordingUrl" := of_opt RecordingUrl;
              "recordingDuration" := of_opt RecordingDuration;
              "analysisMethod" := JStr "recording-gemini-fallback" ]})
    | TWILIO_NATIVE | JAMBONZ_SIP => (UNDECIDED, num 0, ∅)
    end in
  {| data_status := Some COMPLETED;
     data_amdResult := Some (Some amdResult);
     data_confidence := Some confidence;
     data_duration :=
       Some (Some (let d := parseInt (tmpl RecordingDuration) in
                   if number_truthy d then d else Num 0));
     data_cost := None;
     data_metadata := Some analysisMetadata;
     data_updatedAt := None |}.

Definition POST `{Runtime} (env : Env) (world : World) (call : Call.t)
    (body : TwilioStatus.Body) : Call.t :=
  prisma_call_update call (updateData env world call body).

End RecordingRoute.

(* ===================================================================== *)
(** ** The speech-result route                                            *)
(* ===================================================================== *)

Module SpeechResultRoute.

Import AmdStrategies Routes.

Definition where_ (body : TwilioStatus.Body) (call : Call.t) : Prop :=
  TwilioStatus.where_ body call /\ Call.amdStrategy call = GEMINI_FLASH.

(** The object handed to [prisma.call.update]. *)
Definition updateData `{Runtime} (env : Env) (call : Call.t) (body : TwilioStatus.Body)
  : UpdateData :=
  let SpeechResult := body !! "SpeechResult" in
  let speechConfidence := body !! "Confidence" in
  if opt_truthy SpeechResult then
    let detector := GeminiFlashDetector.new env in
    let result :=
      GeminiFlashDetector.processAudioText detector env (tmpl SpeechResult) None None in
    {| data_status := Some ANSWERED;
       data_amdResult := Some (Some (AmdStrategies.result result));
       data_confidence := Some (AmdStrategies.confidence result);
       data_duration := None;
       data_cost := None;
       data_metadata :=
         Some (spread (spread (default ∅ (Call.metadata call))
                         (AmdStrategies.metadata result))
                 {[ "speechResult" := of_opt SpeechResult;
                    "speechConfidence" := of_opt speechConfidence ]});
       data_updatedAt := None |}
  else
    {| data_status := Some COMPLETED;
       data_amdResult := Some (Some TIMEOUT);
       data_confidence := Some (num 0.3);
       data_duration := None;
       data_cost := None;
       data_metadata :=
         Some (spread (default ∅ (Call.metadata call))
                 {[ "error" := JStr "No speech detected" ]});
       data_updatedAt := None |}.

Definition POST `{Runtime} (env : Env) (call : Call.t) (body : TwilioStatus.Body)
  : Call.t :=
  prisma_call_update call (updateData env call body).

End SpeechResultRoute.

(* ===================================================================== *)
(** ** The media-stream handler                                           *)
(* ===================================================================== *)

(** [handleWebSocketMessage] and the module-level map [activeStreams].
    The map is the state; a call of [processAudioChunk], which the
    handler starts and does not await, is an emission of the step. *)

Module MediaStream.

Import AmdStrategies Routes.

(** [Buffer.from(value, 'base64')], which throws on a value it cannot
    read bytes from. *)
Class BufferRuntime : Type := {
  Buffer_from : jsval -> outcome (list Byte.byte);
}.

(** [interface AudioBuffer]; [callSid] is what the start message held. *)
Record AudioBuffer : Type := {
  chunks : list (list Byte.byte);
  timestamp : Z;
  callSid : jsval;
}.

(** The keys of a [Map] are compared by SameValueZero.  A key that is an
    object or an array comes fresh from [JSON.parse] and is the same as
    no other key. *)
Definition same_key (a b : jsval) : bool :=
  match a, b with
  | JUndefined, JUndefined | JNull, JNull => true
  | JBool x, JBool y => Bool.eqb x y
  | JNum NaN, JNum NaN => true
  | JNum (Num p), JNum (Num q) => Qeq_bool p q
  | JStr s, JStr t => String.eqb s t
  | _, _ => false
  end.

(** The map, in insertion order. *)
Definition Streams : Type := list (jsval * AudioBuffer).

Fixpoint Map_get (k : jsval) (m : Streams) : option AudioBuffer :=
  match m with
  | [] => None
  | (k', v) :: r => if same_key k' k then Some v else Map_get k r
  end.

Fixpoint Map_set (k : jsval) (v : AudioBuffer) (m : Streams) : Streams :=
  match m with
  | [] => [(k, v)]
  | (k', v') :: r => if same_key k' k then (k', v) :: r else (k', v') :: Map_set k v r
  end.

Fixpoint Map_delete (k : jsval) (m : Streams) : Streams :=
  match m with
  | [] => []
  | (k', v') :: r => if same_key k' k then r else (k', v') :: Map_delete k r
  end.

(** A started call [processAudioChunk(callSid, Buffer.concat(chunks))]. *)
Record Emission : Type := {
  emitted_callSid : jsval;
  emitted_chunks : list (list Byte.byte);
}.

(** [Buffer.concat(chunks)] *)
Definition audioBuffer (e : Emission) : list Byte.byte := concat (emitted_chunks e).

(** The [switch] of the handler, on the parsed message. *)
Definition handle `{BufferRuntime} (activeStreams : Streams) (data : jsval) (now : Z)
  : Streams * list Emission :=
  let event := get data "event" in
  let streamSid := get data "streamSid" in
  if is_str event "start" then
    if truthy (get data "callSid") then
      (Map_set streamSid
         {| chunks := []; timestamp := now; callSid := get data "callSid" |}
         activeStreams, [])
    else (activeStreams, [])
  else if is_str event "media" then
    if truthy streamSid && truthy (get data "media") then
      match Map_get streamSid activeStreams with
      | None => (activeStreams, [])
      | Some stream =>
          match Buffer_from (get (get data "media") "payload") with
          | Throw _ => (activeStreams, [])
          | Ok audioChunk =>
              let pushed := (chunks stream ++ [audioChunk])%list in
              let bufferDuration := (length pushed * 20)%nat in
              if (2000 <=? bufferDuration)%nat then
                (Map_set streamSid
                   {| chunks := []; timestamp := now; callSid := callSid stream |}
                   activeStreams,
                 [{| emitted_callSid := callSid stream; emitted_chunks := pushed |}])
              else
                (Map_set streamSid
                   {| chunks := pushed;
                      timestamp := timestamp stream;
                      callSid := callSid stream |}
                   activeStreams, [])
          end
      end
    else (activeStreams, [])
  else if is_str event "stop" then
    if truthy streamSid then
      (Map_delete streamSid activeStreams,
       match Map_get streamSid activeStreams with
       | Some stream =>
           if (0 <? length (chunks stream))%nat
           then [{| emitted_callSid := callSid stream; emitted_chunks := chunks stream |}]
           else []
       | None => []
       end)
    else (activeStreams, [])
  else (activeStreams, []).

(** [handleWebSocketMessage]: a message that does not parse, or that
    parses to [null], makes the handler throw into its own [catch]. *)
Definition handleWebSocketMessage `{Runtime} `{BufferRuntime}
    (activeStreams : Streams) (message : string) (now : Z) : Streams * list Emission :=
  match JSON_parse message with
  | None | Some JNull | Some JUndefined => (activeStreams, [])
  | Some data => handle activeStreams data now
  end.

(** The handler on the messages of a connection, one after the other,
    each with the reading of the clock it takes. *)
Fixpoint run `{Runtime} `{BufferRuntime} (activeStreams : Streams)
    (messages : list (string * Z)) : Streams * list Emission :=
  match messages with
  | [] => (activeStreams, [])
  | (message, now) :: rest =>
      let '(activeStreams', out) := handleWebSocketMessage activeStreams message now in
      let '(final, out') := run activeStreams' rest in
      (final, (out ++ out')%list)
  end.

End MediaStream.

(* ===================================================================== *)
(** ** The analysis of streamed audio                                     *)
(* ===================================================================== *)

(** [processAudioChunk] of the media-stream file and the two functions it
    calls.  The request [processWithHuggingFace] sends carries the audio
    as a form file; the answer to it is a field of [World]. *)

Module StreamAnalysis.

Import AmdStrategies Routes.

Record World : Type := {
  fetch_form : string -> list Byte.byte -> outcome Response;
}.

Definition where_ (callSid : jsval) (call : Call.t) : Prop :=
  metadata_path_equals call "twilioCallSid" callSid.

(** [buffer.toString('base64')] *)
Definition base64_char (n : N) : ascii :=
  ascii_of_N
    (if (n <? 26)%N then n + 65
     else if (n <? 52)%N then n + 71
     else if (n <? 62)%N then n - 4
     else if (n =? 62)%N then 43
     else 47)%N.

Fixpoint base64 (l : list Byte.byte) : string :=
  match l with
  | [] => ""
  | [a] =>
      let x := Byte.to_N a in
      String (base64_char (x / 4)) (String (base64_char (x mod 4 * 16)) "==")
  | [a; b] =>
      let x := Byte.to_N a in
      let y := Byte.to_N b in
      String (base64_char (x / 4))
        (String (base64_char (x mod 4 * 16 + y / 16))
           (String (base64_char (y mod 16 * 4)) "="))
  | a :: b :: c :: r =>
      let x := Byte.to_N a in
      let y := Byte.to_N b in
      let z := Byte.to_N c in
      String (base64_char (x / 4))
        (String (base64_char (x mod 4 * 16 + y / 16))
           (String (base64_char (y mod 16 * 4 + z / 64))
              (String (base64_char (z mod 64)) (base64 r))))
  end.

Definition processWithHuggingFace (env : Env) (world : World) (audioData : list Byte.byte)
  : jsval :=
  if negb (opt_truthy (getenv env "PYTHON_SERVICE_URL")) then JNull
  else
    match fetch_form world
            (tmpl (getenv env "PYTHON_SERVICE_URL") +:+ "/predict-stream") audioData with
    | Throw _ => JNull
    | Ok response =>
        if negb (ok response) then JNull
        else
          match json response with
          | Throw _ => JNull
          | Ok data => data
          end
    end.

Definition prompt (audioData : list Byte.byte) : string :=
  "
      Analyze this audio data to determine if it's from a human speaker or an answering machine/voicemail.
      
      Audio data (base64): "
  +:+ String.substring 0 100 (base64 audioData)
  +:+ "...
      
      Consider:
      - Human speech patterns vs. recorded messages
      - Interactive responses vs. scripted content
      - Background noise and audio quality
      
      Respond with JSON only:
      {
        "
  +:+ dq
  +:+ "classification"
  +:+ dq
  +:+ ": "
  +:+ dq
  +:+ "human"
  +:+ dq
  +:+ " | "
  +:+ dq
  +:+ "machine"
  +:+ dq
  +:+ " | "
  +:+ dq
  +:+ "voicemail"
  +:+ dq
  +:+ ",
        "
  +:+ dq
  +:+ "confidence"
  +:+ dq
  +:+ ": 0.0-1.0,
        "
  +:+ dq
  +:+ "reasoning"
  +:+ dq
  +:+ ": "
  +:+ dq
  +:+ "brief explanation"
  +:+ dq
  +:+ "
      }
    ".

(** The result, or [None] for [null]. *)
Definition processWithGemini `{Runtime} (env : Env) (audioData : list Byte.byte)
  : option AmdDetectionResult :=
  match gemini_generateContent env (prompt audioData) with
  | Throw _ => None
  | Ok result =>
      match response result with
      | None | Some (Throw _) => None
      | Some (Ok text) =>
          match JSON_parse text with
          | None | Some JNull | Some JUndefined => None
          | Some parsed =>
              Some {| result :=
                        if is_str (get parsed "classification") "human" then HUMAN
                        else MACHINE;
                      confidence := get parsed "confidence";
                      metadata :=
                        {[ "geminiResponse" := parsed;
                           "audioLength" := num (inject_Z (Z.of_nat (length audioData))) ]} |}
          end
      end
  end.

(** The object handed to [prisma.call.update], or [None] when the
    function does not update. *)
Definition updateData `{Runtime} (env : Env) (world : World) (call : Call.t)
    (audioData : list Byte.byte) (now : Z) : option UpdateData :=
  let '(amdResult, confidence, metadata) :=
    match Call.amdStrategy call with
    | HUGGINGFACE_MODEL =>
        let result := processWithHuggingFace env world audioData in
        if truthy result then
          (Some (if is_str (get result "label") "human" then HUMAN else MACHINE),
           get result "confidence",
           spread (default ∅ (Call.metadata call))
             {[ "huggingFaceResult" := result;
                "processingTime" := get result "processing_time_ms" ]})
        else (None, num 0, ∅)
    | GEMINI_FLASH =>
        match processWithGemini env audioData with
        | Some result =>
            (Some (AmdStrategies.result result),
             AmdStrategies.confidence result,
             spread (default ∅ (Call.metadata call))
               {[ "geminiResult" := JObj (AmdStrategies.metadata result) ]})
        | None => (None, num 0, ∅)
        end
    | TWILIO_NATIVE | JAMBONZ_SIP => (None, num 0, ∅)
    end in
  match amdResult with
  | Some r =>
      Some {| data_status := None;
              data_amdResult := Some (Some r);
              data_confidence := Some confidence;
              data_duration := None;
              data_cost := None;
              data_metadata := Some metadata;
              data_updatedAt := Some now |}
  | None => None
  end.

(** The record after [processAudioChunk] has run for it. *)
Definition processAudioChunk `{Runtime} (env : Env) (world : World) (call : Call.t)
    (audioData : list Byte.byte) (now : Z) : Call.t :=
  match updateData env world call audioData now with
  | Some data => prisma_call_update call data
  | None => call
  end.

End StreamAnalysis.

(* ===================================================================== *)
(** ** class AmdPerformanceAnalyzer: analyzeStrategy                       *)
(* ===================================================================== *)

(** The analyzer reads the rows of the table through
    [prisma.call.findMany]; the table is a list of rows here, and the
    [where] clause a filter on it.  Rates and averages are exact
    rationals. *)

Module Analytics.

Import AmdStrategies Routes.

Record DateRange : Type := {
  range_from : Z;
  range_to : Z;
}.

(** [prisma.call.findMany({ where: whereClause })] *)
Definition findMany (table : list Call.t) (strategy : AmdStrategy)
    (dateRange : option DateRange) : list Call.t :=
  List.filter
    (fun call =>
       bool_decide (Call.amdStrategy call = strategy)
       && match dateRange with
          | Some r =>
              (range_from r <=? Call.createdAt call)%Z
              && (Call.createdAt call <=? range_to r)%Z
          | None => true
          end)
    table.

Record DetectionBreakdown : Type := {
  human : nat;
  machine : nat;
  timeout : nat;
  error : nat;
}.

Record PerformanceMetrics : Type := {
  strategy : AmdStrategy;
  totalCalls : nat;
  successRate : Q;
  averageResponseTime : Q;
  averageCost : number;
  accuracyRate : Q;
  fallbackRate : option Q;
  errorRate : Q;
  detectionBreakdown : DetectionBreakdown;
}.

Definition getEmptyMetrics (strategy : AmdStrategy) : PerformanceMetrics :=
  {| strategy := strategy;
     totalCalls := 0;
     successRate := 0;
     averageResponseTime := 0;
     averageCost := Num 0;
     accuracyRate := 0;
     fallbackRate := None;
     errorRate := 0;
     detectionBreakdown := {| human := 0; machine := 0; timeout := 0; error := 0 |} |}.

(** [call.amdResult === r] *)
Definition has_result (r : AmdResult) (call : Call.t) : bool :=
  bool_decide (Call.amdResult call = Some r).

(** [(a / b) * 100] on two counts. *)
Definition percentage (a b : nat) : Q :=
  (inject_Z (Z.of_nat a) / inject_Z (Z.of_nat b) * 100)%Q.

(** [a + b] on numbers. *)
Definition nadd (a b : number) : number :=
  match a, b with
  | Num p, Num q => Num (p + q)%Q
  | _, _ => NaN
  end.

(** ['groundTruth' in call.metadata] *)
Definition hasGroundTruth (call : Call.t) : bool :=
  match Call.metadata call with
  | Some m => bool_decide (is_Some (m !! "groundTruth"))
  | None => false
  end.

(** [metadata.groundTruth === call.amdResult], the verdict being the
    name of its enum value, or [null]. *)
Definition correctPrediction (call : Call.t) : bool :=
  match Call.metadata call with
  | Some m =>
      match Call.amdResult call, prop m "groundTruth" with
      | Some r, JStr s => String.eqb s (VerifyRoute.AmdResult_name r)
      | None, JNull => true
      | _, _ => false
      end
  | None => false
  end.

(** ['fallbackUsed' in call.metadata && call.metadata.fallbackUsed === true] *)
Definition fallbackCall (call : Call.t) : bool :=
  match Call.metadata call with
  | Some m =>
      match m !! "fallbackUsed" with
      | Some (JBool true) => true
      | _ => false
      end
  | None => false
  end.

Definition analyzeStrategy (table : list Call.t) (strategy : AmdStrategy)
    (dateRange : option DateRange) : PerformanceMetrics :=
  let calls := findMany table strategy dateRange in
  let totalCalls := length calls in
  if (totalCalls =? 0)%nat then getEmptyMetrics strategy
  else
    let responseTimes :=
      List.map (fun call => (Call.updatedAt call - Call.createdAt call)%Z) calls in
    let averageResponseTime :=
      if (0 <? length responseTimes)%nat
      then (inject_Z (fold_left Z.add responseTimes 0%Z)
            / inject_Z (Z.of_nat (length responseTimes)) / 1000)%Q
      else 0%Q in
    let costsWithValues := omap Call.cost calls in
    let averageCost :=
      if (0 <? length costsWithValues)%nat
      then ndiv (fold_left nadd costsWithValues (Num 0))
             (inject_Z (Z.of_nat (length costsWithValues)))
      else Num 0 in
    let successfulCalls := List.filter (fun call => negb (has_result ERROR call)) calls in
    let successRate := percentage (length successfulCalls) totalCalls in
    let errorCalls := List.filter (has_result ERROR) calls in
    let errorRate := percentage (length errorCalls) totalCalls in
    let detectionBreakdown :=
      {| human := length (List.filter (has_result HUMAN) calls);
         machine := length (List.filter (has_result MACHINE) calls);
         timeout := length (List.filter (has_result TIMEOUT) calls);
         error := length errorCalls |} in
    let callsWithGroundTruth := List.filter hasGroundTruth calls in
    let accuracyRate :=
      if (0 <? length callsWithGroundTruth)%nat
      then percentage (length (List.filter correctPrediction callsWithGroundTruth))
             (length callsWithGroundTruth)
      else 0%Q in
    let fallbackRate :=
      if bool_decide (strategy = JAMBONZ_SIP)
      then Some (percentage (length (List.filter fallbackCall calls)) totalCalls)
      else None in
    {| strategy := strategy;
       totalCalls := totalCalls;
       successRate := successRate;
       averageResponseTime := averageResponseTime;
       averageCost := averageCost;
       accuracyRate := accuracyRate;
       fallbackRate := fallbackRate;
       errorRate := errorRate;
       detectionBreakdown := detectionBreakdown |}.

End Analytics.

(* ===================================================================== *)
(** ** Concrete worlds, records and events                                *)
(* ===================================================================== *)

Module Fixtures.

Import AmdStrategies Routes.

(** Twilio places the call; every other collaborator is unreachable and
    nothing but Twilio is configured. *)
Definition env_twilio_only : Env :=
  {| getenv := fun k =>
       if String.eqb k "TWILIO_PHONE_NUMBER" then Some "+15005550006"
       else if String.eqb k "NEXT_PUBLIC_APP_URL" then Some "https://amd.example"
       else None;
     twilio_calls_create := fun _ => Ok {| sid := "CA0001"; call_status := "queued" |};
     fetch := fun _ => Throw (new_Error "fetch failed");
     gemini_generateContent := fun _ => Throw (new_Error "fetch failed") |}.

(** The ML service answers every request with an over-confident
    prediction. *)
Definition env_overconfident : Env :=
  {| getenv := getenv env_twilio_only;
     twilio_calls_create := twilio_calls_create env_twilio_only;
     fetch := fun _ =>
       Ok {| ok := true;
             statusText := "OK";
             json := Ok (JObj {[ "label" := JStr "human"; "confidence" := num 1.5 ]});
             text := Throw (new_Error "body used already") |};
     gemini_generateContent := gemini_generateContent env_twilio_only |}.

(** The LLM answers every prompt with prose. *)
Definition env_prose (answer : string) : Env :=
  {| getenv := fun k =>
       if String.eqb k "GEMINI_API_KEY" then Some "key" else getenv env_twilio_only k;
     twilio_calls_create := twilio_calls_create env_twilio_only;
     fetch := fetch env_twilio_only;
     gemini_generateContent := fun _ => Ok {| response := Some (Ok answer) |} |}.

(** A call placed with the SIP-enhanced strategy that fell back to Twilio,
    as the dial route stores it. *)
Definition call_fallen_back : Call.t :=
  {| Call.id := "call_1";
     Call.userId := "user_1";
     Call.targetNumber := "+14155552671";
     Call.amdStrategy := JAMBONZ_SIP;
     Call.status := INITIATED;
     Call.amdResult := Some UNDECIDED;
     Call.confidence := num 0;
     Call.duration := None;
     Call.cost := None;
     Call.errorMessage := None;
     Call.metadata :=
       Some (metadata (JambonzSipDetector.processCall env_twilio_only "+14155552671" "call_1"));
     Call.createdAt := 1000;
     Call.updatedAt := 1000 |}.

(** A completed native call with a stored duration and cost. *)
Definition call_completed : Call.t :=
  {| Call.id := "call_2";
     Call.userId := "user_1";
     Call.targetNumber := "+14155552671";
     Call.amdStrategy := TWILIO_NATIVE;
     Call.status := COMPLETED;
     Call.amdResult := Some HUMAN;
     Call.confidence := num 0.85;
     Call.duration := Some (Num 42);
     Call.cost := Some (nmul (ndiv (Num 42) 60) 0.0085);
     Call.errorMessage := None;
     Call.metadata := Some {[ "twilioCallSid" := JStr "CA0001"; "status" := JStr "queued" ]};
     Call.createdAt := 1000;
     Call.updatedAt := 5000 |}.

Definition twilio_answered_by (who : string) : TwilioStatus.Body :=
  {[ "CallSid" := "CA0001"; "CallStatus" := "in-progress"; "AnsweredBy" := who ]}.

Definition twilio_status_only (st : string) : TwilioStatus.Body :=
  {[ "CallSid" := "CA0001"; "CallStatus" := st ]}.

Definition twilio_completed (seconds : string) : TwilioStatus.Body :=
  {[ "CallSid" := "CA0001"; "CallStatus" := "completed"; "CallDuration" := seconds ]}.

Definition jambonz_status (st : string) : obj :=
  {[ "call_sid" := JStr "CA0001"; "call_status" := JStr st ]}.

Definition jambonz_timeout : obj :=
  {[ "call_sid" := JStr "CA0001"; "amd_decision_timeout" := JBool true ]}.

End Fixtures.

(* ===================================================================== *)
(** ** The words of the specification                                     *)
(* ===================================================================== *)

Module AmdSpec.

Import AmdStrategies.

(** A field carries a value when it is present and not empty (truthy). *)
Definition carried (field : option jsval) : option jsval :=
  match field with
  | Some v => if truthy v then Some v else None
  | None => None
  end.

(** The answering-party classification a payload carries:
    [AnsweringMachineDetectionStatus], or else [AnsweredBy]. *)
Definition classification (payload : obj) : option jsval :=
  match carried (payload !! "AnsweringMachineDetectionStatus") with
  | Some c => Some c
  | None => carried (payload !! "AnsweredBy")
  end.

(** A real number in [0,1]. *)
Definition in_unit_interval (v : jsval) : Prop :=
  exists q, v = JNum (Num q) /\ (0 <= q)%Q /\ (q <= 1)%Q.

(** [needle] occurs in [s]. *)
Definition contains (s needle : string) : Prop :=
  exists a b, s = a +:+ needle +:+ b.

(** The machine classifications the native strategy lists. *)
Definition machine_variants : list string :=
  ["machine_start"; "machine_end_beep"; "machine_end_silence"; "machine"].

(** An environment variable is configured: set, and not empty. *)
Definition configured (env : Env) (k : string) : Prop :=
  exists v, getenv env k = Some v /\ v <> "".

(** The alternate provider's required configuration. *)
Definition jambonz_configured (env : Env) : Prop :=
  configured env "JAMBONZ_API_BASE_URL"
  /\ configured env "JAMBONZ_ACCOUNT_SID"
  /\ configured env "JAMBONZ_API_KEY".

(** [r] is the result [native] with the keys of [added] set in its
    metadata: same verdict, same confidence, every key of [added] present
    with its value, every other key as in [native]. *)
Definition annotated_with (native r : AmdDetectionResult) (added : obj) : Prop :=
  result r = result native
  /\ confidence r = confidence native
  /\ (forall k v, added !! k = Some v -> metadata r !! k = Some v)
  /\ (forall k, added !! k = None -> metadata r !! k = metadata native !! k).

End AmdSpec.

Module RouteSpec.

Import AmdStrategies Routes.

(** The status vocabularies of the two providers. *)
Definition twilio_vocabulary : list (string * CallStatus) :=
  [ ("queued", INITIATED); ("initiated", INITIATED); ("ringing", RINGING);
    ("in-progress", ANSWERED); ("completed", COMPLETED);
    ("failed", FAILED); ("busy", FAILED); ("no-answer", FAILED);
    ("canceled", CANCELLED) ].

Definition jambonz_vocabulary : list (string * CallStatus) :=
  [ ("trying", INITIATED); ("proceeding", INITIATED); ("ringing", RINGING);
    ("early", ANSWERED); ("in-progress", ANSWERED); ("completed", COMPLETED);
    ("failed", FAILED); ("busy", FAILED); ("no-answer", FAILED);
    ("canceled", CANCELLED) ].

(** [v] is no word of the vocabulary. *)
Definition unmapped (vocabulary : list (string * CallStatus)) (v : jsval) : Prop :=
  forall s, In s (List.map fst vocabulary) -> v <> JStr s.

(** The keys a route writes itself, next to the metadata of the
    detector's result, when it merges a result into the record. *)
Definition route_stamp (call : Call.t) (ev : Event) : obj :=
  match ev with
  | TwilioStatusEvent body _ =>
      {[ "originalAnsweredBy" := of_opt (body !! "AnsweredBy");
         "originalStrategy" := JStr (AmdStrategy_name (Call.amdStrategy call));
         "actualProvider" := JStr "twilio";
         "fallbackUsed" := JBool (bool_decide (Call.amdStrategy call <> TWILIO_NATIVE)) ]}
  | JambonzWebhookEvent _ _ => ∅
  | AmdEventsEvent _ _ nowISO =>
      {[ "lastWebhookReceived" := JStr nowISO;
         "provider" := JStr (if bool_decide (Call.amdStrategy call = JAMBONZ_SIP)
                             then "jambonz" else "twilio") ]}
  end.

(** The keys the detectors' webhook results use, and the keys the routes
    write themselves. *)
Definition signal_keys : list string := ["twilioAmd"; "source"; "jambonzAmd"].

Definition stamp_keys : list string :=
  ["originalAnsweredBy"; "originalStrategy"; "actualProvider"; "fallbackUsed";
   "lastWebhookReceived"; "provider"].

(** The fields of a record that no webhook route writes. *)
Definition same_identity (c c' : Call.t) : Prop :=
  Call.id c' = Call.id c
  /\ Call.userId c' = Call.userId c
  /\ Call.targetNumber c' = Call.targetNumber c
  /\ Call.amdStrategy c' = Call.amdStrategy c
  /\ Call.errorMessage c' = Call.errorMessage c
  /\ Call.createdAt c' = Call.createdAt c.

End RouteSpec.

(** ** Proof automation *)

(** A literal confidence is in [0,1]. *)
Ltac unit_literal :=
  eexists; split; [reflexivity|]; unfold Qle; simpl; lia.

(** The key of a lookup that succeeds in a literal object is one of the
    literal's keys. *)
Ltac literal_key Hk :=
  repeat (apply lookup_insert_Some in Hk; destruct Hk as [[<- _]|[_ Hk]];
          [simpl; tauto|]);
  first [ apply lookup_singleton_Some in Hk; destruct Hk as [<- _]; simpl; tauto
        | by rewrite lookup_empty in Hk ].

(** ** Words for the outcome of placing a call *)

Module PlacementSpec.

Import AmdStrategies.

(** The result says that Twilio has placed the call: no verdict yet, and
    the call's Twilio id under the key the Twilio routes look records up
    by. *)
Definition placed_on_twilio (r : AmdDetectionResult) : Prop :=
  result r = UNDECIDED
  /\ (exists sid, metadata r !! "twilioCallSid" = Some (JStr sid))
  /\ metadata r !! "jambonzCallSid" = None
  /\ metadata r !! "error" = None.

(** The result says that Jambonz has placed the call, dialling [f]. *)
Definition placed_on_jambonz (r : AmdDetectionResult) (f : string) : Prop :=
  result r = UNDECIDED
  /\ is_Some (metadata r !! "jambonzCallSid")
  /\ metadata r !! "phoneFormat" = Some (JStr f)
  /\ metadata r !! "provider" = Some (JStr "jambonz")
  /\ metadata r !! "twilioCallSid" = None
  /\ metadata r !! "fallbackUsed" = None
  /\ metadata r !! "error" = None.

(** The result says that no call has been placed: it carries a message
    and no provider's call id. *)
Definition not_placed (r : AmdDetectionResult) : Prop :=
  result r = ERROR
  /\ (exists msg, metadata r !! "error" = Some (JStr msg))
  /\ metadata r !! "twilioCallSid" = None
  /\ metadata r !! "jambonzCallSid" = None.

(** Jambonz accepts the number written as [f]: the request to create the
    call is answered, with an ok status and a JSON body that is not
    [null]. *)
Definition accepts (env : Env) (cleanFromNumber : option string) (f : string) : bool :=
  match fetch env
          {| fetch_url := tmpl (getenv env "JAMBONZ_API_BASE_URL") +:+ "/v1/Accounts/"
                          +:+ tmpl (getenv env "JAMBONZ_ACCOUNT_SID") +:+ "/Calls";
             fetch_method := "POST";
             fetch_headers :=
               [("Authorization", "Bearer " +:+ tmpl (getenv env "JAMBONZ_API_KEY"));
                ("Content-Type", "application/json")];
             fetch_body :=
               JsonBody (JambonzSipDetector.requestBody env cleanFromNumber f) |} with
  | Throw _ => false
  | Ok response =>
      ok response
      && match json response with
         | Throw _ | Ok JNull | Ok JUndefined => false
         | Ok _ => true
         end
  end.

(** The marks of a call that was handed from Jambonz to Twilio. *)
Definition jambonz_fallback_marks (reason : string) : obj :=
  {[ "fallbackReason" := JStr reason;
     "originalProvider" := JStr "jambonz";
     "actualProvider" := JStr "twilio";
     "fallbackUsed" := JBool true ]}.

End PlacementSpec.

(** ** Words for sequences of events *)

Module ReconcileSpec.

Import AmdStrategies Routes.

(** The event came in on one of the two Jambonz routes. *)
Definition from_jambonz (ev : Event) : bool :=
  match ev with
  | TwilioStatusEvent _ _ => false
  | JambonzWebhookEvent _ _ | AmdEventsEvent _ _ _ => true
  end.

End ReconcileSpec.

(** ** Words for the records the dial route leaves *)

Module DialSpec.

Import AmdStrategies Routes.

(** Every Twilio status event for the call id [sid] resolves to the
    record. *)
Definition answers_to_twilio (call : Call.t) (sid : string) : Prop :=
  forall body now,
    body !! "CallSid" = Some sid -> resolves (TwilioStatusEvent body now) call.

(** Every Jambonz webhook event whose [call_sid] is [v] resolves to the
    record. *)
Definition answers_to_jambonz (call : Call.t) (v : jsval) : Prop :=
  forall body now,
    prop body "call_sid" = v -> resolves (JambonzWebhookEvent body now) call.

(** No webhook event resolves to the record. *)
Definition unreachable (call : Call.t) : Prop :=
  forall ev, ~ resolves ev call.

End DialSpec.

(** ** Words for the media-stream handler *)

Module StreamSpec.

Import AmdStrategies Routes MediaStream.

(** Every buffer of the map holds fewer than 100 chunks, which is less
    than two seconds of audio. *)
Definition bounded (activeStreams : Streams) : Prop :=
  Forall (fun e => (length (chunks e.2) < 100)%nat) activeStreams.

(** No two entries of the map have the same key. *)
Fixpoint distinct (activeStreams : Streams) : Prop :=
  match activeStreams with
  | [] => True
  | (k, _) :: r => Map_get k r = None /\ distinct r
  end.

(** An emission holds at least one chunk and at most 100. *)
Definition well_sized (e : Emission) : Prop :=
  (1 <= length (emitted_chunks e) <= 100)%nat.

(** [message] is a media message of the stream [k] whose payload holds
    the bytes [b]. *)
Definition media_message `{Runtime} `{BufferRuntime} (k : jsval) (message : string)
    (b : list Byte.byte) : Prop :=
  exists data, JSON_parse message = Some data
    /\ get data "event" = JStr "media"
    /\ get data "streamSid" = k
    /\ truthy (get data "media") = true
    /\ Buffer_from (get (get data "media") "payload") = Ok b.

(** [message] is the stop message of the stream [k]. *)
Definition stop_message `{Runtime} (k : jsval) (message : string) : Prop :=
  exists data, JSON_parse message = Some data
    /\ get data "event" = JStr "stop"
    /\ get data "streamSid" = k.

(** All the audio of a list of emissions, in order. *)
Definition emitted_audio (out : list Emission) : list (list Byte.byte) :=
  concat (emitted_chunks <$> out).

End StreamSpec.

(** ** Words for the analytics *)

Module AnalyticsSpec.

Import AmdStrategies Routes.

(** The verdicts the detection breakdown has no column for: VOICEMAIL,
    UNDECIDED, and no verdict at all. *)
Definition unlisted (call : Call.t) : bool :=
  match Call.amdResult call with
  | Some VOICEMAIL | Some UNDECIDED | None => true
  | Some HUMAN | Some MACHINE | Some TIMEOUT | Some ERROR => false
  end.

End AnalyticsSpec.

(** ** A world for the dial route *)

Module DialFixtures.

Import AmdStrategies Routes.

(** Twilio is configured and places every call; no other collaborator
    answers. *)
Definition env_dial : Env :=
  {| getenv := fun k =>
       if String.eqb k "TWILIO_ACCOUNT_SID" then Some "AC0001"
       else if String.eqb k "TWILIO_AUTH_TOKEN" then Some "token"
       else if String.eqb k "TWILIO_PHONE_NUMBER" then Some "+15005550006"
       else if String.eqb k "NGROK_URL" then Some "https://amd.example"
       else None;
     twilio_calls_create := fun _ => Ok {| sid := "CA0001"; call_status := "queued" |};
     fetch := fun _ => Throw (new_Error "fetch failed");
     gemini_generateContent := fun _ => Throw (new_Error "fetch failed") |}.

(** Twilio is configured and refuses every call. *)
Definition env_dial_refused : Env :=
  {| getenv := getenv env_dial;
     twilio_calls_create := fun _ => Throw (new_Error "Invalid phone number");
     fetch := fetch env_dial;
     gemini_generateContent := gemini_generateContent env_dial |}.

Definition dial_request (phoneNumber amdStrategy : string) : jsval :=
  JObj {[ "phoneNumber" := JStr phoneNumber; "amdStrategy" := JStr amdStrategy ]}.

Definition new_row : DialRoute.Created :=
  {| DialRoute.new_id := "call_9";
     DialRoute.new_userId := "user_1";
     DialRoute.new_createdAt := 1000 |}.

End DialFixtures.

(** ** Worlds and records for the recording route *)

Module RecordingFixtures.

Import AmdStrategies Routes.

(** The recording is a short one, and the random number is 1/4. *)
Definition world_short : RecordingRoute.World :=
  {| RecordingRoute.head_content_length := fun _ => Ok (Some "32000");
     RecordingRoute.Math_random := 0.25 |}.

(** A call placed with the streaming strategy, as the dial route stores
    it when Twilio has placed the call. *)
Definition call_streaming : Call.t :=
  {| Call.id := "call_3";
     Call.userId := "user_1";
     Call.targetNumber := "+14155552671";
     Call.amdStrategy := HUGGINGFACE_MODEL;
     Call.status := INITIATED;
     Call.amdResult := Some UNDECIDED;
     Call.confidence := num 0;
     Call.duration := None;
     Call.cost := None;
     Call.errorMessage := None;
     Call.metadata :=
       Some (metadata (HuggingFaceDetector.processCall Fixtures.env_twilio_only
                         "+14155552671" "call_3"));
     Call.createdAt := 1000;
     Call.updatedAt := 1000 |}.

Definition recording_done : TwilioStatus.Body :=
  {[ "CallSid" := "CA0001";
     "RecordingUrl" := "https://api.twilio.example/rec/RE0001";
     "RecordingDuration" := "7" ]}.

End RecordingFixtures.

(** ** A decoder and messages for the media-stream handler *)

Module StreamFixtures.

Import MediaStream.

Definition sextet (c : ascii) : option N :=
  let n := N_of_ascii c in
  if (65 <=? n)%N && (n <=? 90)%N then Some (n - 65)%N
  else if (97 <=? n)%N && (n <=? 122)%N then Some (n - 71)%N
  else if (48 <=? n)%N && (n <=? 57)%N then Some (n + 4)%N
  else if (n =? 43)%N then Some 62%N
  else if (n =? 47)%N then Some 63%N
  else None.

Definition byte_of (n : N) : Byte.byte := default Byte.x00 (Byte.of_N (n mod 256)).

(** Base64 text in canonical form (the standard alphabet, groups of four,
    padded) to the bytes it encodes. *)
Fixpoint base64_decode (s : string) : option (list Byte.byte) :=
  match s with
  | EmptyString => Some []
  | String a (String b (String "=" (String "=" EmptyString))) =>
      x ← sextet a; y ← sextet b;
      Some [byte_of (x * 4 + y / 16)]
  | String a (String b (String c (String "=" EmptyString))) =>
      x ← sextet a; y ← sextet b; z ← sextet c;
      Some [byte_of (x * 4 + y / 16); byte_of (y * 16 + z / 4)]
  | String a (String b (String c (String d r))) =>
      x ← sextet a; y ← sextet b; z ← sextet c; w ← sextet d;
      rest ← base64_decode r;
      Some (byte_of (x * 4 + y / 16) :: byte_of (y * 16 + z / 4)
            :: byte_of (z * 64 + w) :: rest)
  | _ => None
  end.

(** [Buffer.from(value, 'base64')] on the payloads of the examples:
    strings of canonical Base64.  The examples use no other payload. *)
#[global] Instance canonical_base64 : BufferRuntime :=
  {| Buffer_from := fun v =>
       match v with
       | JStr s =>
           match base64_decode s with
           | Some b => Ok b
           | None => Throw (new_Error "payload outside the examples")
           end
       | _ => Throw (new_Error "The first argument must be of type string")
       end |}.

Definition start_text (streamSid callSid : string) : string :=
  "{" +:+ quoted "event" +:+ ":" +:+ quoted "start" +:+ ","
  +:+ quoted "streamSid" +:+ ":" +:+ quoted streamSid +:+ ","
  +:+ quoted "callSid" +:+ ":" +:+ quoted callSid +:+ "}".

Definition media_text (streamSid payload : string) : string :=
  "{" +:+ quoted "event" +:+ ":" +:+ quoted "media" +:+ ","
  +:+ quoted "streamSid" +:+ ":" +:+ quoted streamSid +:+ ","
  +:+ quoted "media" +:+ ":{" +:+ quoted "payload" +:+ ":" +:+ quoted payload +:+ "}}".

Definition stop_text (streamSid : string) : string :=
  "{" +:+ quoted "event" +:+ ":" +:+ quoted "stop" +:+ ","
  +:+ quoted "streamSid" +:+ ":" +:+ quoted streamSid +:+ "}".

End StreamFixtures.

(* ===================================================================== *)
(** * Theory                                                              *)
(* ===================================================================== *)

(** ** Strings *)

Section StringFacts.

Lemma append_cons (c : ascii) (p r : string) :
  String c p +:+ r = String c (p +:+ r).
Proof. reflexivity. Qed.

Lemma prefix_spec (p s : string) :
  String.prefix p s = true <-> exists r, s = p +:+ r.
Proof.
  revert s; induction p as [|c p IH]; intros s; simpl.
  - split; [intros _; exists s; reflexivity | intros _; by destruct s].
  - destruct s as [|c' s]; simpl.
    + split; [discriminate | intros [r Hr]; discriminate].
    + destruct (Ascii.ascii_dec c c') as [->|Hne].
      * rewrite IH. split; intros [r Hr]; exists r;
          rewrite append_cons in *; congruence.
      * split; [discriminate | intros [r Hr]; rewrite append_cons in Hr; congruence].
Qed.

Lemma startsWith_spec (s p : string) :
  startsWith s p = true <-> exists r, s = p +:+ r.
Proof. apply prefix_spec. Qed.

Lemma string_truthy_false (s : string) : string_truthy s = false <-> s = "".
Proof. destruct s; simpl; split; congruence. Qed.

Lemma length_append (a b : string) :
  String.length (a +:+ b) = (String.length a + String.length b)%nat.
Proof. induction a; [reflexivity|]. rewrite append_cons. simpl. congruence. Qed.

End StringFacts.

(** ** The phone number normalizer *)

Section PhoneFacts.

Import PhoneUtils PhoneSpec.

Lemma is_digit_spec (c : ascii) : is_digit c = true <-> decimal_digit c.
Proof.
  unfold decimal_digit.
  destruct c as [[] [] [] [] [] [] [] []]; vm_compute; split; intros H;
    try reflexivity; try discriminate; intuition discriminate.
Qed.

Lemma strip_non_digits_spec (s : string) :
  strip_non_digits s = digits_in_order s.
Proof.
  unfold digits_in_order. induction s as [|c s IH]; [reflexivity|].
  cbn [strip_non_digits String.list_ascii_of_string List.filter].
  destruct (is_digit c) eqn:Hc.
  - rewrite bool_decide_eq_true_2 by (by apply is_digit_spec).
    simpl. by rewrite IH.
  - rewrite bool_decide_eq_false_2; [exact IH|].
    intros Hd. apply is_digit_spec in Hd. congruence.
Qed.

Lemma all_digits_spec (ds : string) :
  all_digits ds = true <-> Forall decimal_digit (String.list_ascii_of_string ds).
Proof.
  induction ds as [|c ds IH]; simpl.
  - split; [constructor | reflexivity].
  - rewrite andb_true_iff, is_digit_spec, IH, Forall_cons. reflexivity.
Qed.

Lemma phoneRegex_test_spec (s : string) :
  phoneRegex_test s = true <-> canonical s.
Proof.
  unfold canonical. destruct s as [|c ds].
  - split; [discriminate | intros (ds & H & _); discriminate].
  - destruct (Ascii.ascii_dec c "+") as [->|Hne].
    + cbn [phoneRegex_test].
      rewrite !andb_true_iff, all_digits_spec, !Nat.leb_le. split.
      * intros [[Hd Hlo] Hhi]. exists ds. auto.
      * intros (ds' & [= <-] & Hd & Hlo & Hhi). auto.
    + split.
      * destruct c as [[] [] [] [] [] [] [] []]; simpl; try discriminate.
        exfalso; apply Hne; reflexivity.
      * intros (ds' & [= -> _] & _). congruence.
Qed.

Lemma startsWith_char (c c' : ascii) (r : string) :
  startsWith (String c r) (String c' "") = true <-> c = c'.
Proof.
  rewrite startsWith_spec. split.
  - intros [r' Hr]. rewrite append_cons in Hr. congruence.
  - intros ->. exists r. reflexivity.
Qed.

Lemma mobile_prefix_spec (d : string) :
  startsWith d "6" || startsWith d "7" || startsWith d "8" || startsWith d "9" = true
  <-> first_digit_in d "6789".
Proof.
  unfold first_digit_in. destruct d as [|c r].
  - split; [discriminate | intros (c & r & H & _); discriminate].
  - rewrite !orb_true_iff, !startsWith_char. split.
    + intros H. exists c, r. split; [reflexivity|]. simpl. intuition auto.
    + intros (c' & r' & [= <- <-] & Hin). simpl in Hin. intuition auto.
Qed.

(** The case analysis of [formatPhoneNumber] on the digits of its input,
    shared by the results below. *)
Lemma formatPhoneNumber_cases (s dcc : string) :
  let d := digits_in_order s in
  let out := formatPhoneNumber s dcc in
  (d = "" -> out = "")
  /\ ((String.length d = 11%nat /\ starts_with "1" d)
      \/ (String.length d = 12%nat /\ starts_with "91" d) -> out = "+" +:+ d)
  /\ (String.length d = 10%nat -> first_digit_in d "6789" -> out = "+91" +:+ d)
  /\ (String.length d = 10%nat -> ~ first_digit_in d "6789" -> out = "+1" +:+ d)
  /\ ((12 < String.length d)%nat -> out = "+" +:+ d)
  /\ (d <> "" ->
      ~ (String.length d = 11%nat /\ starts_with "1" d) ->
      ~ (String.length d = 12%nat /\ starts_with "91" d) ->
      String.length d <> 10%nat -> (String.length d <= 12)%nat ->
      out = dcc +:+ d).
Proof.
  intros d out. subst out. unfold formatPhoneNumber.
  rewrite strip_non_digits_spec. fold d. cbv zeta.
  destruct (string_truthy d) eqn:Ht; cbn [negb].
  2: { apply string_truthy_false in Ht. rewrite Ht.
       split_and!; try reflexivity; try (simpl; intros; lia || tauto || discriminate). }
  assert (Hne : d <> "") by (intros ->; discriminate).
  pose proof (startsWith_spec d "1") as H1.
  pose proof (startsWith_spec d "91") as H91.
  pose proof (mobile_prefix_spec d) as Hm.
  fold (starts_with "1" d) in H1. fold (starts_with "91" d) in H91.
  pose proof (Nat.eqb_spec (String.length d) 11) as E11.
  pose proof (Nat.eqb_spec (String.length d) 12) as E12.
  pose proof (Nat.eqb_spec (String.length d) 10) as E10.
  pose proof (Nat.ltb_spec 12 (String.length d)) as E13.
  destruct (startsWith d "1");
    [apply proj1 in H1; specialize (H1 eq_refl)
    | assert (~ starts_with "1" d) by (intros ?%H1; discriminate); clear H1];
  (destruct (startsWith d "91");
    [apply proj1 in H91; specialize (H91 eq_refl)
    | assert (~ starts_with "91" d) by (intros ?%H91; discriminate); clear H91]);
  (destruct (startsWith d "6" || startsWith d "7" || startsWith d "8" || startsWith d "9");
    [apply proj1 in Hm; specialize (Hm eq_refl)
    | assert (~ first_digit_in d "6789") by (intros ?%Hm; discriminate); clear Hm]);
  destruct E11, E12, E10, E13; cbn [andb]; try lia;
  split_and!; intros; first [reflexivity | exfalso; first [lia | tauto]].
Qed.

(** C4: the normalizer computes the case analysis of the specification on
    the digits [d] of its input (empty; 11 digits from "1" or 12 digits
    from "91"; 10 digits by first digit; more than 12 digits; otherwise
    the default country code), it is total, and [isValidPhoneNumber]
    holds exactly when the normalized form is '+' followed by 10 to 15
    digits; an input without digits is invalid. *)
Theorem formatPhoneNumber_case_analysis (s dcc : string) :
  let d := digits_in_order s in
  let out := formatPhoneNumber s dcc in
  (d = "" -> out = "")
  /\ ((String.length d = 11%nat /\ starts_with "1" d)
      \/ (String.length d = 12%nat /\ starts_with "91" d) -> out = "+" +:+ d)
  /\ (String.length d = 10%nat -> first_digit_in d "6789" -> out = "+91" +:+ d)
  /\ (String.length d = 10%nat -> ~ first_digit_in d "6789" -> out = "+1" +:+ d)
  /\ ((12 < String.length d)%nat -> out = "+" +:+ d)
  /\ (d <> "" ->
      ~ (String.length d = 11%nat /\ starts_with "1" d) ->
      ~ (String.length d = 12%nat /\ starts_with "91" d) ->
      String.length d <> 10%nat -> (String.length d <= 12)%nat ->
      out = dcc +:+ d)
  /\ (isValidPhoneNumber s = true <-> canonical (formatPhoneNumber s "+1"))
  /\ (d = "" -> isValidPhoneNumber s = false).
Proof.
  intros d out.
  destruct (formatPhoneNumber_cases s dcc) as (C1 & C2 & C3 & C4 & C5 & C6).
  split_and!; try assumption.
  - unfold isValidPhoneNumber, defaultCountryCode. apply phoneRegex_test_spec.
  - intros Hd. unfold isValidPhoneNumber.
    destruct (formatPhoneNumber_cases s defaultCountryCode) as (E & _).
    by rewrite (E Hd).
Qed.

Example format_us_10 : formatPhoneNumber "(415) 555-2671" "+1" = "+14155552671".
Proof. reflexivity. Qed.

Example format_in_10 : formatPhoneNumber "98765 43210" "+1" = "+919876543210".
Proof. reflexivity. Qed.

Example format_toll_free : formatPhoneNumber "8007742678" "+1" = "+918007742678".
Proof. reflexivity. Qed.

Example format_short : formatPhoneNumber "5551234" "+44" = "+445551234".
Proof. reflexivity. Qed.

Example format_empty : formatPhoneNumber "n/a" "+1" = "".
Proof. reflexivity. Qed.

Lemma digits_of_all_digits (ds : string) :
  Forall decimal_digit (String.list_ascii_of_string ds) -> digits_in_order ds = ds.
Proof.
  unfold digits_in_order. induction ds as [|c ds IH]; [reflexivity|].
  cbn [String.list_ascii_of_string]. intros [Hc Hds]%Forall_cons.
  cbn [List.filter]. rewrite bool_decide_eq_true_2 by exact Hc.
  cbn [String.string_of_list_ascii]. f_equal. auto.
Qed.

Lemma digits_of_canonical (ds : string) :
  Forall decimal_digit (String.list_ascii_of_string ds) ->
  digits_in_order (String "+" ds) = ds.
Proof. intros H. rewrite <- (digits_of_all_digits ds H) at 2. reflexivity. Qed.

Lemma append_length_neq (p q d : string) :
  String.length p <> String.length q -> p +:+ d <> q +:+ d.
Proof.
  intros Hlen Heq. apply (f_equal String.length) in Heq.
  rewrite !length_append in Heq. lia.
Qed.

(** C5 (as amended): a canonical string, '+' followed by 10 to 15 digits
    [d], is returned unchanged by the normalizer exactly when [d] has 11
    digits and starts with "1", or has 12 digits and starts with "91", or
    has 13 to 15 digits. *)
Theorem formatPhoneNumber_canonical_fixpoint (s : string) :
  canonical s ->
  let d := digits_in_order s in
  formatPhoneNumber s defaultCountryCode = s
  <-> (String.length d = 11%nat /\ starts_with "1" d)
      \/ (String.length d = 12%nat /\ starts_with "91" d)
      \/ (13 <= String.length d <= 15)%nat.
Proof.
  intros (ds & -> & Hds & Hlen) d.
  assert (Hd : d = ds) by (apply digits_of_canonical, Hds). clearbody d. subst d.
  pose proof (formatPhoneNumber_cases (String "+" ds) defaultCountryCode) as Hc.
  cbv zeta in Hc. rewrite (digits_of_canonical ds Hds) in Hc.
  destruct Hc as (_ & H2 & H3 & H4 & H5 & H6).
  assert (Hne : ds <> "") by (intros ->; simpl in Hlen; lia).
  assert (Hlong : forall p, String.length p <> 1%nat -> p +:+ ds <> String "+" ds).
  { intros p Hp. change (String "+" ds) with ("+" +:+ ds).
    apply append_length_neq. exact Hp. }
  assert (Hdec : forall n p, (String.length ds = n /\ starts_with p ds)
                             \/ ~ (String.length ds = n /\ starts_with p ds)).
  { intros n p. destruct (startsWith_spec ds p) as [a b].
    destruct (startsWith ds p).
    - destruct (decide (String.length ds = n)); [left | right; intros [? _]; done].
      split; [assumption | by apply a].
    - right. intros [_ Hs]. apply b in Hs. discriminate. }
  split.
  - intros Hfix.
    destruct (decide (String.length ds = 10%nat)) as [E10|E10].
    { exfalso. destruct (mobile_prefix_spec ds) as [Hm1 Hm2].
      destruct (startsWith ds "6" || startsWith ds "7"
                || startsWith ds "8" || startsWith ds "9").
      - rewrite (H3 E10 (Hm1 eq_refl)) in Hfix.
        revert Hfix. apply Hlong. simpl. lia.
      - rewrite H4 in Hfix; [|exact E10|intros ?%Hm2; discriminate].
        revert Hfix. apply Hlong. simpl. lia. }
    destruct (decide (12 < String.length ds)%nat) as [E13|E13]; [right; right; lia|].
    destruct (Hdec 11%nat "1") as [P1|N1]; [left; exact P1|].
    destruct (Hdec 12%nat "91") as [P2|N2]; [right; left; exact P2|].
    exfalso. rewrite (H6 Hne N1 N2 E10 ltac:(lia)) in Hfix.
    revert Hfix. apply Hlong. simpl. lia.
  - intros [H|[H|H]].
    + apply H2. left. exact H.
    + apply H2. right. exact H.
    + apply H5. lia.
Qed.

Lemma canonical_intro (ds : string) :
  all_digits ds = true -> (10 <=? String.length ds)%nat = true ->
  (String.length ds <=? 15)%nat = true -> canonical (String "+" ds).
Proof.
  intros Hd Hlo%Nat.leb_le Hhi%Nat.leb_le. exists ds.
  split; [reflexivity|]. split; [by apply all_digits_spec | lia].
Qed.

(** C5 (as amended) at a canonical North-American number. *)
Lemma formatPhoneNumber_canonical_fixpoint_witness :
  canonical "+12025550123"
  /\ formatPhoneNumber "+12025550123" defaultCountryCode = "+12025550123".
Proof.
  assert (Hc : canonical "+12025550123") by (by apply canonical_intro).
  split; [exact Hc|].
  apply (proj2 (formatPhoneNumber_canonical_fixpoint "+12025550123" Hc)).
  left. split; [reflexivity | exists "2025550123"; reflexivity].
Defined.

(** C5, as stated, fails: a canonical British number is not a fixed point
    of the normalizer, which prefixes the default country code. *)
Lemma formatPhoneNumber_canonical_changed :
  canonical "+447911123456"
  /\ formatPhoneNumber "+447911123456" defaultCountryCode = "+1447911123456"
  /\ formatPhoneNumber "+447911123456" defaultCountryCode <> "+447911123456".
Proof.
  split; [by apply canonical_intro|]. split; [reflexivity | discriminate].
Qed.

Example format_canonical_10_digits :
  formatPhoneNumber "+1234567890" defaultCountryCode = "+11234567890".
Proof. reflexivity. Qed.

Example isValid_examples :
  isValidPhoneNumber "8007742678" = true
  /\ isValidPhoneNumber "+919876543210" = true
  /\ isValidPhoneNumber "12345" = false
  /\ isValidPhoneNumber "" = false.
Proof. repeat split. Qed.

End PhoneFacts.

(** ** The detection strategies *)

Section StrategyFacts.

Import AmdStrategies AmdSpec.

Lemma is_str_spec (v : jsval) (lit : string) : is_str v lit = true <-> v = JStr lit.
Proof.
  destruct v; simpl; try (split; [discriminate | intros [=]]).
  rewrite String.eqb_eq. split; congruence.
Qed.

Lemma is_str_false (v : jsval) (lit : string) : is_str v lit = false <-> v <> JStr lit.
Proof. rewrite <- is_str_spec. destruct (is_str v lit); split; congruence. Qed.

Lemma prop_carried (payload : obj) (k : string) :
  carried (payload !! k) = if truthy (prop payload k) then Some (prop payload k) else None.
Proof. unfold prop, carried. destruct (payload !! k) as [v|]; reflexivity. Qed.

Lemma classification_or_else (payload : obj) :
  let c := or_else (prop payload "AnsweringMachineDetectionStatus") (prop payload "AnsweredBy") in
  classification payload = if truthy c then Some c else None.
Proof.
  unfold classification, or_else. rewrite !prop_carried.
  destruct (truthy (prop payload "AnsweringMachineDetectionStatus")) eqn:E; [by rewrite E|].
  reflexivity.
Qed.

Lemma machine_variants_spec (c : jsval) :
  is_str c "machine_start" || is_str c "machine_end_beep"
  || is_str c "machine_end_silence" || is_str c "machine" = true
  <-> exists m, In m machine_variants /\ c = JStr m.
Proof.
  rewrite !orb_true_iff, !is_str_spec. unfold machine_variants. split.
  - intros [[[->| ->]| ->]| ->]; eexists; (split; [|reflexivity]); simpl; auto.
  - intros (m & Hin & ->). simpl in Hin.
    destruct Hin as [<-|[<-|[<-|[<-|[]]]]]; auto.
Qed.

Lemma human_not_machine_variant : ~ In "human" machine_variants.
Proof. simpl. intuition discriminate. Qed.

Lemma fax_not_machine_variant : ~ In "fax" machine_variants.
Proof. simpl. intuition discriminate. Qed.

(** C6 (as amended): the native strategy's [handleWebhook] returns null
    when the payload carries no classification; when it carries one,
    "human" gives HUMAN at 0.85, the four listed machine values
    (machine_start, machine_end_beep, machine_end_silence, machine) give
    MACHINE at 0.8, "fax" gives MACHINE at 0.9, and every other value,
    other "machine_" strings included, gives UNDECIDED at 0.3. *)
Theorem native_handleWebhook_mapping (payload : obj) :
  (classification payload = None -> TwilioNativeDetector.handleWebhook payload = None)
  /\ (forall c, classification payload = Some c ->
       exists r, TwilioNativeDetector.handleWebhook payload = Some r
         /\ metadata r !! "twilioAmd" = Some c
         /\ (c = JStr "human" -> result r = HUMAN /\ confidence r = num 0.85)
         /\ ((exists m, In m machine_variants /\ c = JStr m) ->
             result r = MACHINE /\ confidence r = num 0.8)
         /\ (c = JStr "fax" -> result r = MACHINE /\ confidence r = num 0.9)
         /\ (c <> JStr "human" -> (forall m, In m machine_variants -> c <> JStr m) ->
             c <> JStr "fax" -> result r = UNDECIDED /\ confidence r = num 0.3)).
Proof.
  pose proof (classification_or_else payload) as Hc. cbv zeta in Hc.
  unfold TwilioNativeDetector.handleWebhook.
  set (c0 := or_else _ _) in *. clearbody c0.
  destruct (truthy c0) eqn:Ht; rewrite Hc; split; try discriminate; try reflexivity.
  intros c [= <-].
  destruct (is_str c0 "human") eqn:E1;
    [apply is_str_spec in E1 | apply is_str_false in E1].
  { eexists; split; [reflexivity|]. split; [reflexivity|]. split_and!.
    - done.
    - intros (m & Hin & ->). injection E1 as ->. by apply human_not_machine_variant in Hin.
    - intros ->. discriminate.
    - intros Hn. by destruct Hn. }
  destruct (is_str c0 "machine_start" || is_str c0 "machine_end_beep"
            || is_str c0 "machine_end_silence" || is_str c0 "machine") eqn:E2.
  { apply machine_variants_spec in E2 as (m & Hin & ->).
    eexists; split; [reflexivity|]. split; [reflexivity|]. split_and!.
    - intros [= ->]. by apply human_not_machine_variant in Hin.
    - done.
    - intros [= ->]. by apply fax_not_machine_variant in Hin.
    - intros _ Hn. by destruct (Hn m Hin). }
  assert (HnM : ~ exists m, In m machine_variants /\ c0 = JStr m)
    by (intros ?%machine_variants_spec; congruence).
  destruct (is_str c0 "fax") eqn:E3;
    [apply is_str_spec in E3 | apply is_str_false in E3];
    (eexists; split; [reflexivity|]; split; [reflexivity|]; split_and!; done).
Qed.

(** C6, as stated, fails: "machine_end_other" is a "machine_" value, and the
    native strategy answers UNDECIDED at 0.3 for it, not MACHINE at 0.8. *)
Lemma native_handleWebhook_machine_end_other :
  let payload : obj := {[ "AnsweredBy" := JStr "machine_end_other" ]} in
  classification payload = Some (JStr "machine_end_other")
  /\ startsWith "machine_end_other" "machine_" = true
  /\ (fun r => (result r, confidence r)) <$> TwilioNativeDetector.handleWebhook payload
     = Some (UNDECIDED, num 0.3)
  /\ (fun r => (result r, confidence r)) <$> TwilioNativeDetector.handleWebhook payload
     <> Some (MACHINE, num 0.8).
Proof. vm_compute. split_and!; try reflexivity. discriminate. Qed.

Example native_machine_end_beep :
  (fun r => (result r, confidence r))
    <$> TwilioNativeDetector.handleWebhook {[ "AnsweredBy" := JStr "machine_end_beep" ]}
  = Some (MACHINE, num 0.8).
Proof. reflexivity. Qed.

Example native_status_only :
  TwilioNativeDetector.handleWebhook {[ "CallStatus" := JStr "ringing" ]} = None.
Proof. reflexivity. Qed.

Example native_empty_classification :
  TwilioNativeDetector.handleWebhook {[ "AnsweredBy" := JStr "" ]} = None.
Proof. reflexivity. Qed.

(** *** Fallback to the native strategy *)

Lemma opt_truthy_spec (env : Env) (k : string) :
  opt_truthy (getenv env k) = true <-> configured env k.
Proof.
  unfold configured. destruct (getenv env k) as [[|c v]|]; simpl.
  - split; [discriminate | intros (v & [= <-] & Hv); congruence].
  - split; [intros _; eexists; split; [reflexivity | discriminate] | reflexivity].
  - split; [discriminate | intros (v & [=] & _)].
Qed.

Lemma annotate_spec (native : AmdDetectionResult) (added : obj) :
  annotated_with native (annotate native added) added.
Proof.
  unfold annotated_with, annotate, spread. cbn [result confidence metadata].
  split_and!; try reflexivity.
  - intros k v Hk. by apply lookup_union_Some_l.
  - intros k Hk. by rewrite lookup_union_r.
Qed.

(** The two health probes fail exactly when the request throws or the
    response is not ok. *)
Lemma checkJambonzAvailability_false (env : Env) :
  JambonzSipDetector.checkJambonzAvailability env = false
  <-> match fetch env
              {| fetch_url := tmpl (getenv env "JAMBONZ_API_BASE_URL") +:+ "/v1/health";
                 fetch_method := "GET";
                 fetch_headers :=
                   [("Authorization", "Bearer " +:+ tmpl (getenv env "JAMBONZ_API_KEY"))];
                 fetch_body := NoBody |} with
      | Ok response => ok response = false
      | Throw _ => True
      end.
Proof.
  unfold JambonzSipDetector.checkJambonzAvailability.
  destruct (fetch env _) as [response|e]; [reflexivity | done].
Qed.

Lemma ensurePythonServiceRunning_None (env : Env) :
  HuggingFaceDetector.ensurePythonServiceRunning env = None
  <-> match fetch env
              {| fetch_url :=
                   (if opt_truthy (getenv env "PYTHON_SERVICE_URL")
                    then tmpl (getenv env "PYTHON_SERVICE_URL")
                    else "http://localhost:8000") +:+ "/health";
                 fetch_method := "GET";
                 fetch_headers := [];
                 fetch_body := NoBody |} with
      | Ok response => ok response = false
      | Throw _ => True
      end.
Proof.
  unfold HuggingFaceDetector.ensurePythonServiceRunning.
  destruct (fetch env _) as [response|e]; [|done].
  destruct (ok response); split; congruence.
Qed.

(** The native strategy never sets a fallback key itself. *)
Lemma native_processCall_no_fallback_key (env : Env) (phoneNumber callId : string) :
  let native := TwilioNativeDetector.processCall env phoneNumber callId in
  metadata native !! "fallbackUsed" = None /\ metadata native !! "fallbackReason" = None.
Proof.
  cbv zeta. unfold TwilioNativeDetector.processCall.
  destruct (twilio_calls_create env _) as [call|e]; [split; reflexivity|].
  case_bool_decide; split; reflexivity.
Qed.



(** *** The transcript classification *)

Lemma includes_spec (s needle : string) :
  includes s needle = true <-> contains s needle.
Proof.
  unfold contains. induction s as [|c s IH]; cbn [includes].
  - rewrite orb_false_r, prefix_spec. split.
    + intros [r Hr]. exists "", r. exact Hr.
    + intros (a & b & Hab). destruct a as [|c a]; [by exists b|].
      rewrite append_cons in Hab. discriminate.
  - rewrite orb_true_iff, prefix_spec, IH. split.
    + intros [[r Hr]|(a & b & ->)]; [exists "", r; exact Hr|].
      exists (String c a), b. reflexivity.
    + intros (a & b & Hab). destruct a as [|c' a]; [left; by exists b|].
      rewrite append_cons in Hab. injection Hab as -> ->. right. by exists a, b.
Qed.

Lemma includes_false (s needle : string) :
  includes s needle = false <-> ~ contains s needle.
Proof. rewrite <- includes_spec. destruct (includes s needle); split; congruence. Qed.

(** What the [catch (parseError)] block returns. *)
Lemma parseRecovered_spec (text : string) :
  let r := GeminiFlashDetector.parseRecovered text in
  let lower := toLowerCase text in
  (contains lower "human" -> result r = HUMAN /\ confidence r = num 0.7)
  /\ (~ contains lower "human" ->
      contains lower "machine" \/ contains lower "voicemail" ->
      result r = MACHINE /\ confidence r = num 0.7)
  /\ (~ contains lower "human" -> ~ contains lower "machine" ->
      ~ contains lower "voicemail" ->
      result r = ERROR
      /\ confidence r = num 0
      /\ metadata r !! "error" = Some (JStr "Failed to parse Gemini response")
      /\ metadata r !! "rawResponse" = Some (JStr text)).
Proof.
  cbv zeta. unfold GeminiFlashDetector.parseRecovered,
    GeminiFlashDetector.parseFallbackResponse.
  destruct (includes (toLowerCase text) "human") eqn:Eh;
    [apply includes_spec in Eh | apply includes_false in Eh].
  { split_and!; [done | done | done]. }
  destruct (includes (toLowerCase text) "machine") eqn:Em;
    [apply includes_spec in Em | apply includes_false in Em].
  { cbn [orb]. split_and!; [done | done | done]. }
  destruct (includes (toLowerCase text) "voicemail") eqn:Ev;
    [apply includes_spec in Ev | apply includes_false in Ev]; cbn [orb].
  { split_and!; [done | done | done]. }
  split_and!; [done | tauto | done].
Qed.

(** C8: when the model's response text is not parseable as JSON, the
    transcript classification scans the lower-cased text: "human" gives
    HUMAN at 0.7; otherwise "machine" or "voicemail" gives MACHINE at 0.7;
    otherwise the result is ERROR, with a readable [error] and the raw
    response text in its metadata. *)
Theorem processAudioText_unparseable `{Runtime} (this : GeminiFlashDetector.t)
    (env : Env) (transcript : string) (audioQuality noiseLevel : option string)
    (text : string) :
  GeminiFlashDetector.genAI this = true ->
  gemini_generateContent env (GeminiFlashDetector.prompt transcript audioQuality noiseLevel)
    = Ok {| response := Some (Ok text) |} ->
  JSON_parse text = None ->
  let r := GeminiFlashDetector.processAudioText this env transcript audioQuality noiseLevel in
  let lower := toLowerCase text in
  (contains lower "human" -> result r = HUMAN /\ confidence r = num 0.7)
  /\ (~ contains lower "human" ->
      contains lower "machine" \/ contains lower "voicemail" ->
      result r = MACHINE /\ confidence r = num 0.7)
  /\ (~ contains lower "human" -> ~ contains lower "machine" ->
      ~ contains lower "voicemail" ->
      result r = ERROR
      /\ confidence r = num 0
      /\ metadata r !! "error" = Some (JStr "Failed to parse Gemini response")
      /\ metadata r !! "rawResponse" = Some (JStr text)).
Proof.
  intros Hg Hgen Hparse. cbv zeta.
  unfold GeminiFlashDetector.processAudioText. rewrite Hg, Hgen. cbn [negb response].
  unfold GeminiFlashDetector.parseStructured. rewrite Hparse.
  exact (parseRecovered_spec text).
Qed.

(** C8 at a concrete response: prose that mentions a voicemail, under the
    reference runtime. *)
Lemma processAudioText_unparseable_witness :
  let env := Fixtures.env_prose "I believe this is a Voicemail greeting." in
  let r := GeminiFlashDetector.processAudioText (GeminiFlashDetector.new env) env
             "hi you have reached the mailbox of" None None in
  result r = MACHINE /\ confidence r = num 0.7.
Proof.
  cbv zeta.
  apply (processAudioText_unparseable (H := ReferenceRuntime.runtime)
           (GeminiFlashDetector.new (Fixtures.env_prose "I believe this is a Voicemail greeting."))
           (Fixtures.env_prose "I believe this is a Voicemail greeting.")
           "hi you have reached the mailbox of" None None
           "I believe this is a Voicemail greeting."
           eq_refl eq_refl eq_refl).
  - intros Hc%includes_spec. discriminate.
  - right. apply includes_spec. reflexivity.
Defined.

Example processAudioText_prose_error :
  let env := Fixtures.env_prose "Sorry, I cannot help with that." in
  let r := GeminiFlashDetector.processAudioText (GeminiFlashDetector.new env) env
             "hello" None None in
  result r = ERROR
  /\ metadata r !! "rawResponse" = Some (JStr "Sorry, I cannot help with that.").
Proof. split; reflexivity. Qed.

(** The literal [null] parses, and reading a field of it throws inside the
    same [try]: the keyword scan runs on it as well. *)
Example processAudioText_null :
  let env := Fixtures.env_prose "null" in
  let r := GeminiFlashDetector.processAudioText (GeminiFlashDetector.new env) env
             "hello" None None in
  JSON_parse "null" = Some JNull /\ result r = ERROR.
Proof. split; reflexivity. Qed.

(** *** The range of the confidence *)

Lemma native_processCall_confidence (env : Env) (phoneNumber callId : string) :
  let r := TwilioNativeDetector.processCall env phoneNumber callId in
  confidence r = num 0 /\ (result r = UNDECIDED \/ result r = ERROR).
Proof.
  cbv zeta. unfold TwilioNativeDetector.processCall.
  destruct (twilio_calls_create env _) as [call|e]; [by auto|].
  case_bool_decide; by auto.
Qed.

Lemma annotate_confidence (env : Env) (phoneNumber callId : string) (added : obj) :
  let r := annotate (TwilioNativeDetector.processCall env phoneNumber callId) added in
  confidence r = num 0 /\ (result r = UNDECIDED \/ result r = ERROR).
Proof. exact (native_processCall_confidence env phoneNumber callId). Qed.

Lemma tryFormats_confidence (env : Env) (phoneNumber callId : string)
    (cleanFromNumber : option string) (formats : list string) :
  let r := JambonzSipDetector.tryFormats env phoneNumber callId cleanFromNumber formats in
  confidence r = num 0 /\ (result r = UNDECIDED \/ result r = ERROR).
Proof.
  cbv zeta. induction formats as [|toFormat rest IH]; cbn [JambonzSipDetector.tryFormats].
  - apply annotate_confidence.
  - destruct (fetch env _) as [response|e]; [|exact IH].
    destruct (ok response).
    + destruct (json response) as [[]|e]; try exact IH; by auto.
    + destruct (text response) as [errorText|e]; [|exact IH].
      destruct rest; [apply annotate_confidence | exact IH].
Qed.

Lemma processCall_confidence (env : Env) (s : AmdStrategy) (phoneNumber callId : string) :
  let r := processCall (createDetector env s) env phoneNumber callId in
  confidence r = num 0 /\ (result r = UNDECIDED \/ result r = ERROR).
Proof.
  cbv zeta. destruct s; cbn [createDetector processCall].
  - apply native_processCall_confidence.
  - unfold JambonzSipDetector.processCall.
    repeat (case_match; try apply annotate_confidence).
    apply tryFormats_confidence.
  - unfold HuggingFaceDetector.processCall.
    repeat (case_match; try apply annotate_confidence). by auto.
  - unfold GeminiFlashDetector.processCall.
    repeat (case_match; try apply annotate_confidence). by auto.
Qed.

Lemma native_handleWebhook_confidence (payload : obj) (r : AmdDetectionResult) :
  TwilioNativeDetector.handleWebhook payload = Some r ->
  in_unit_interval (confidence r) /\ result r <> ERROR.
Proof.
  unfold TwilioNativeDetector.handleWebhook.
  repeat case_match; intros [= <-]; (split; [unit_literal | discriminate]).
Qed.

Lemma handleWebhook_confidence (env : Env) (s : AmdStrategy) (payload : obj)
    (r : AmdDetectionResult) :
  handleWebhook (createDetector env s) payload = Some r ->
  in_unit_interval (confidence r) /\ result r <> ERROR.
Proof.
  destruct s; cbn [createDetector handleWebhook];
    try apply native_handleWebhook_confidence.
  unfold JambonzSipDetector.handleWebhook.
  repeat case_match; intros [= <-]; (split; [unit_literal | discriminate]).
Qed.

Lemma error_result_spec (e : thrown) :
  result (error_result e) = ERROR
  /\ confidence (error_result e) = num 0
  /\ is_Some (metadata (error_result e) !! "error").
Proof. split_and!; [reflexivity | reflexivity | by eexists]. Qed.



End StrategyFacts.

(** ** The reconciliation of webhook events *)

Section RouteFacts.

Import AmdStrategies Routes RouteSpec.

Context `{Runtime}.

Lemma prop_fmap_body (body : gmap string string) (k : string) :
  prop (JStr <$> body) k = of_opt (body !! k).
Proof. unfold prop. rewrite lookup_fmap. by destruct (body !! k). Qed.

Lemma prop_insert_eq (m : obj) (k : string) (v : jsval) : prop (<[k:=v]> m) k = v.
Proof. unfold prop. by rewrite lookup_insert_eq. Qed.

Lemma prop_insert_ne (m : obj) (k k' : string) (v : jsval) :
  k <> k' -> prop (<[k:=v]> m) k' = prop m k'.
Proof. intros Hk. unfold prop. by rewrite lookup_insert_ne. Qed.

Lemma or_else_idem (a b : jsval) : or_else (or_else a b) b = or_else a b.
Proof.
  unfold or_else. destruct (truthy a) eqn:Ea; [by rewrite Ea|].
  by destruct (truthy b).
Qed.

(** The payload the Twilio route builds for the detector carries the same
    classification as the request body. *)
Lemma twilio_amdPayload (body : gmap string string) :
  let AMDS := of_opt (body !! "AnsweringMachineDetectionStatus") in
  let AnsweredBy := of_opt (body !! "AnsweredBy") in
  TwilioNativeDetector.handleWebhook
    (<["AnsweringMachineDetectionStatus" := or_else AMDS AnsweredBy]> (JStr <$> body))
  = TwilioNativeDetector.handleWebhook (JStr <$> body).
Proof.
  cbv zeta. unfold TwilioNativeDetector.handleWebhook.
  rewrite prop_insert_eq, prop_insert_ne by done.
  rewrite !prop_fmap_body, or_else_idem. reflexivity.
Qed.

Lemma twilio_no_classification (body : gmap string string) :
  truthy (of_opt (body !! "AnsweringMachineDetectionStatus"))
  || truthy (of_opt (body !! "AnsweredBy")) = false ->
  TwilioNativeDetector.handleWebhook (JStr <$> body) = None.
Proof.
  intros [E1 E2]%orb_false_iff. unfold TwilioNativeDetector.handleWebhook.
  rewrite !prop_fmap_body. unfold or_else. by rewrite E1, E2.
Qed.

(** The verdict, confidence and metadata the Twilio route writes, by the
    signal of the event. *)
Lemma twilio_updateData_signal (env : Env) (call : Call.t) (body : gmap string string)
    (now : Z) :
  let ev := TwilioStatusEvent body now in
  let data := TwilioStatus.updateData env call body now in
  let old := default ∅ (Call.metadata call) in
  match signal env call ev with
  | Some r =>
      data_amdResult data = Some (Some (result r))
      /\ data_confidence data = Some (confidence r)
      /\ data_metadata data = Some (route_stamp call ev ∪ (metadata r ∪ old))
  | None =>
      data_amdResult data = Some (Call.amdResult call)
      /\ data_confidence data = Some (Call.confidence call)
      /\ data_metadata data = Some old
  end.
Proof.
  cbv zeta. unfold signal, selected, payload. cbn [createDetector handleWebhook].
  unfold TwilioStatus.updateData. cbn [createDetector handleWebhook].
  rewrite twilio_amdPayload.
  destruct (truthy (of_opt (body !! "AnsweringMachineDetectionStatus"))
            || truthy (of_opt (body !! "AnsweredBy"))) eqn:E.
  - destruct (TwilioNativeDetector.handleWebhook (JStr <$> body)) as [r|];
      split_and!; reflexivity.
  - rewrite (twilio_no_classification body E). split_and!; reflexivity.
Qed.

(** What one event does to the record, by the signal of the event. *)
Lemma reconcile_fields (env : Env) (call : Call.t) (ev : Event) :
  let call' := reconcile env call ev in
  let old := default ∅ (Call.metadata call) in
  same_identity call call'
  /\ match signal env call ev with
     | Some r =>
         Call.amdResult call' = Some (result r)
         /\ Call.confidence call' = confidence r
         /\ Call.metadata call' = Some (route_stamp call ev ∪ (metadata r ∪ old))
     | None =>
         Call.amdResult call' = Call.amdResult call
         /\ Call.confidence call' = Call.confidence call
         /\ Call.metadata call' =
              match ev with
              | TwilioStatusEvent _ _ => Some old
              | _ => Call.metadata call
              end
     end.
Proof.
  cbv zeta. split; [by destruct ev|].
  destruct ev as [body now|body now|body now nowISO].
  - pose proof (twilio_updateData_signal env call body now) as Hs. cbv zeta in Hs.
    cbn [reconcile]. unfold TwilioStatus.POST, prisma_call_update.
    cbn [Call.amdResult Call.confidence Call.metadata].
    destruct (signal env call (TwilioStatusEvent body now)) as [r|];
      destruct Hs as (-> & -> & ->); split_and!; reflexivity.
  - unfold signal, selected, payload. cbn [reconcile].
    unfold JambonzWebhook.POST, JambonzWebhook.updateData, prisma_call_update.
    cbn [Call.amdResult Call.confidence Call.metadata data_amdResult data_confidence
         data_metadata].
    destruct (handleWebhook (createDetector env JAMBONZ_SIP) body) as [r|];
      cbn [fmap option_fmap option_map default]; split_and!; try reflexivity.
    unfold route_stamp, spread. by rewrite (left_id_L ∅ (∪)).
  - unfold signal, selected, payload. cbn [reconcile].
    unfold AmdEvents.POST, AmdEvents.updateData, prisma_call_update.
    cbn [Call.amdResult Call.confidence Call.metadata data_amdResult data_confidence
         data_metadata].
    destruct (handleWebhook (createDetector env (Call.amdStrategy call)) body) as [r|];
      cbn [fmap option_fmap option_map default]; split_and!; reflexivity.
Qed.

Lemma reconcile_strategy (env : Env) (call : Call.t) (ev : Event) :
  Call.amdStrategy (reconcile env call ev) = Call.amdStrategy call.
Proof. by destruct ev. Qed.

(** The signal of an event reads nothing of the record but its strategy. *)
Lemma signal_strategy (env : Env) (c c' : Call.t) (ev : Event) :
  Call.amdStrategy c' = Call.amdStrategy c -> signal env c' ev = signal env c ev.
Proof. intros Hs. destruct ev; unfold signal, selected; by rewrite ?Hs. Qed.

Lemma resolves_metadata (ev : Event) (call : Call.t) :
  resolves ev call -> exists m, Call.metadata call = Some m.
Proof.
  destruct ev; cbn [resolves].
  - intros (sid & _ & m & Hm & _). eauto.
  - intros [(m & Hm & _) _]. eauto.
  - intros [[(m & Hm & _)|(m & Hm & _)] _]; eauto.
Qed.

Lemma reconcile_all_null (env : Env) (evs : list Event) (call : Call.t) :
  Forall (fun ev => signal env call ev = None) evs ->
  Call.amdResult (reconcile_all env call evs) = Call.amdResult call
  /\ Call.confidence (reconcile_all env call evs) = Call.confidence call.
Proof.
  unfold reconcile_all. revert call.
  induction evs as [|ev evs IH]; intros call Hall; [done|].
  apply Forall_cons in Hall as [Hev Hall]. cbn [fold_left].
  destruct (reconcile_fields env call ev) as [_ Hf]. rewrite Hev in Hf.
  destruct Hf as (Hr & Hc & _).
  destruct (IH (reconcile env call ev)) as [IHr IHc].
  { eapply Forall_impl; [exact Hall|]. cbv beta. intros ev' Hev'.
    rewrite <- Hev'. apply signal_strategy, reconcile_strategy. }
  split; congruence.
Qed.


(** *** The metadata merge *)

Lemma native_handleWebhook_keys (payload : obj) (r : AmdDetectionResult)
    (k : string) (v : jsval) :
  TwilioNativeDetector.handleWebhook payload = Some r ->
  metadata r !! k = Some v -> In k signal_keys.
Proof.
  unfold TwilioNativeDetector.handleWebhook.
  repeat case_match; intros [= <-]; cbn [metadata]; intros Hk; literal_key Hk.
Qed.

Lemma signal_metadata_keys (env : Env) (call : Call.t) (ev : Event)
    (r : AmdDetectionResult) (k : string) (v : jsval) :
  signal env call ev = Some r -> metadata r !! k = Some v -> In k signal_keys.
Proof.
  assert (HJ : JambonzSipDetector.handleWebhook (payload ev) = Some r ->
               metadata r !! k = Some v -> In k signal_keys).
  { unfold JambonzSipDetector.handleWebhook.
    repeat case_match; intros [= <-]; cbn [metadata]; intros Hk; literal_key Hk. }
  unfold signal, selected.
  destruct ev; [| exact HJ |]; cbn [createDetector handleWebhook];
    try apply native_handleWebhook_keys.
  destruct (Call.amdStrategy call); cbn [createDetector handleWebhook];
    first [apply native_handleWebhook_keys | exact HJ].
Qed.

Lemma route_stamp_keys (call : Call.t) (ev : Event) (k : string) (v : jsval) :
  route_stamp call ev !! k = Some v -> In k stamp_keys.
Proof. destruct ev; cbn [route_stamp]; intros Hk; literal_key Hk. Qed.

(** No key of a detector's result is a key the routes write themselves. *)
Lemma signal_key_not_stamped (env : Env) (call c : Call.t) (ev ev' : Event)
    (r : AmdDetectionResult) (k : string) (v : jsval) :
  signal env call ev = Some r -> metadata r !! k = Some v ->
  route_stamp c ev' !! k = None.
Proof.
  intros Hs Hk. pose proof (signal_metadata_keys env call ev r k v Hs Hk) as Hin.
  destruct (route_stamp c ev' !! k) as [w|] eqn:Hw; [|reflexivity].
  apply route_stamp_keys in Hw. exfalso.
  unfold signal_keys, stamp_keys in *. simpl in Hin, Hw.
  destruct Hin as [<-|[<-|[<-|[]]]]; intuition discriminate.
Qed.

(** A key that is neither a key of a detector's result nor a key the
    routes write keeps its stored value through an event. *)
Lemma reconcile_frame (env : Env) (call : Call.t) (ev : Event) (m : obj) (k : string) :
  Call.metadata call = Some m -> ~ In k (signal_keys ++ stamp_keys) ->
  exists m', Call.metadata (reconcile env call ev) = Some m' /\ m' !! k = m !! k.
Proof.
  intros Hm Hk.
  destruct (reconcile_fields env call ev) as [_ Hf]. rewrite Hm in Hf.
  cbn [default from_option id] in Hf.
  destruct (signal env call ev) as [r|] eqn:Hs; destruct Hf as (_ & _ & ->).
  - eexists; split; [reflexivity|].
    rewrite lookup_union_r.
    + rewrite lookup_union_r; [reflexivity|].
      destruct (metadata r !! k) as [v|] eqn:Hv; [|reflexivity].
      destruct Hk. apply in_or_app. left.
      exact (signal_metadata_keys env call ev r k v Hs Hv).
    + destruct (route_stamp call ev !! k) as [v|] eqn:Hv; [|reflexivity].
      destruct Hk. apply in_or_app. right. exact (route_stamp_keys call ev k v Hv).
  - exists m. split; [by destruct ev | reflexivity].
Qed.


(** *** The status mapping *)

Lemma unmapped_is_str (vocabulary : list (string * CallStatus)) (v : jsval) (s : string) :
  unmapped vocabulary v -> In s (List.map fst vocabulary) -> is_str v s = false.
Proof. intros Hu Hin. apply is_str_false. by apply Hu. Qed.

Lemma mapJambonzStatus_unmapped (call : Call.t) (v : jsval) :
  unmapped jambonz_vocabulary v -> mapJambonzStatus call v = Call.status call.
Proof.
  intros Hu. unfold mapJambonzStatus.
  rewrite !(unmapped_is_str jambonz_vocabulary v) by (exact Hu || (simpl; tauto)).
  reflexivity.
Qed.

Lemma mapTwilioStatus_unmapped (v : jsval) :
  unmapped twilio_vocabulary v -> TwilioStatus.mapTwilioStatus v = INITIATED.
Proof.
  intros Hu. unfold TwilioStatus.mapTwilioStatus.
  rewrite !(unmapped_is_str twilio_vocabulary v) by (exact Hu || (simpl; tauto)).
  reflexivity.
Qed.

(** C3: each word of a provider's status vocabulary maps to the stated
    status, and on the two Jambonz routes a status outside the vocabulary
    (or no status) keeps the record's current status.  On the Twilio
    status route a status outside the vocabulary is mapped to INITIATED
    whatever the current status: a COMPLETED record that receives the
    status "unknown" is written back as INITIATED. *)
Theorem status_mapping (env : Env) :
  Forall (fun p => TwilioStatus.mapTwilioStatus (JStr p.1) = p.2) twilio_vocabulary
  /\ (forall call, Forall (fun p => mapJambonzStatus call (JStr p.1) = p.2) jambonz_vocabulary)
  /\ (forall call body now,
        Call.status (TwilioStatus.POST env call body now)
        = TwilioStatus.mapTwilioStatus (of_opt (body !! "CallStatus")))
  /\ (forall call body now,
        Call.status (JambonzWebhook.POST env call body now)
        = if truthy (prop body "call_status")
          then mapJambonzStatus call (prop body "call_status") else Call.status call)
  /\ (forall call body now nowISO,
        Call.status (AmdEvents.POST env call body now nowISO)
        = if truthy (prop body "call_status")
          then mapJambonzStatus call (prop body "call_status") else Call.status call)
  /\ (forall call v, unmapped jambonz_vocabulary v ->
                     mapJambonzStatus call v = Call.status call)
  /\ (forall v, unmapped twilio_vocabulary v -> TwilioStatus.mapTwilioStatus v = INITIATED)
  /\ (let call := Fixtures.call_completed in
      let body := Fixtures.twilio_status_only "unknown" in
      Call.status call = COMPLETED
      /\ unmapped twilio_vocabulary (of_opt (body !! "CallStatus"))
      /\ Call.status (TwilioStatus.POST env call body 6000) = INITIATED).
Proof.
  split_and!.
  - repeat constructor.
  - intros call. repeat constructor.
  - intros call body now.
    unfold TwilioStatus.POST, prisma_call_update, TwilioStatus.updateData.
    set (verdict := if truthy _ || truthy _ then _ else _).
    by destruct verdict as [[amdResult confidence] metadata].
  - reflexivity.
  - reflexivity.
  - apply mapJambonzStatus_unmapped.
  - apply mapTwilioStatus_unmapped.
  - cbv zeta. split_and!; [reflexivity | | reflexivity].
    intros s Hin. simpl in Hin. change (JStr "unknown" <> JStr s).
    intuition (subst; discriminate).
Qed.

(** *** Duration and cost on the Twilio status route *)

(** C10 (as amended): every event on the Twilio status route writes the
    record's duration and cost.  Without a CallDuration (absent or empty)
    both are written as null, over whatever was stored.  With a
    CallDuration the duration is written as its parsed value, a zero
    included; the cost is null when that value is zero (or not a number),
    and (duration/60) * 0.0085 when it is positive, whatever the call's
    strategy. *)
Theorem twilio_status_duration_cost (env : Env) (call : Call.t)
    (body : gmap string string) (now : Z) :
  let data := TwilioStatus.updateData env call body now in
  let call' := TwilioStatus.POST env call body now in
  (exists d c, data_duration data = Some d /\ data_cost data = Some c
               /\ Call.duration call' = d /\ Call.cost call' = c)
  /\ (body !! "CallDuration" = None \/ body !! "CallDuration" = Some "" ->
      Call.duration call' = None /\ Call.cost call' = None)
  /\ (forall s, body !! "CallDuration" = Some s -> s <> "" ->
        Call.duration call' = Some (parseInt s)
        /\ (parseInt s = Num 0 \/ parseInt s = NaN -> Call.cost call' = None)
        /\ (forall n, (0 < n)%Z -> parseInt s = Num (inject_Z n) ->
              Call.cost call' = Some (Num ((inject_Z n / 60) * 0.0085)%Q))).
Proof.
  cbv zeta. unfold TwilioStatus.POST, prisma_call_update, TwilioStatus.updateData.
  set (verdict := if truthy _ || truthy _ then _ else _).
  destruct verdict as [[amdResult confidence] metadata].
  cbn [Call.duration Call.cost data_duration data_cost default from_option id].
  split_and!.
  - do 2 eexists. split_and!; reflexivity.
  - intros [-> | ->]; by cbn [opt_truthy string_truthy].
  - intros s -> Hs.
    assert (Ht : opt_truthy (Some s) = true) by (by destruct s).
    rewrite Ht. cbn [tmpl default from_option id]. split_and!; [reflexivity | |].
    + intros [-> | ->]; reflexivity.
    + intros n Hn ->. cbn [number_truthy ndiv nmul].
      assert (Hz : Qeq_bool (inject_Z n) 0 = false).
      { apply not_true_iff_false. intros Hq%Qeq_bool_iff.
        unfold Qeq in Hq. simpl in Hq. lia. }
      by rewrite Hz.
Qed.

(** C10 (as amended) at a completed call of 90 seconds. *)
Lemma twilio_status_duration_cost_witness :
  let call' := TwilioStatus.POST Fixtures.env_twilio_only Fixtures.call_completed
                 (Fixtures.twilio_completed "90") 6000 in
  Call.duration call' = Some (parseInt "90")
  /\ Call.cost call' = Some (Num ((inject_Z 90 / 60) * 0.0085)%Q).
Proof.
  cbv zeta.
  destruct (twilio_status_duration_cost Fixtures.env_twilio_only Fixtures.call_completed
              (Fixtures.twilio_completed "90") 6000) as (_ & _ & Hs).
  destruct (Hs "90" eq_refl ltac:(discriminate)) as (Hd & _ & Hc).
  split; [exact Hd | apply Hc; [lia | reflexivity]].
Defined.

(** C10, as stated, fails: a CallDuration of "0" writes the duration 0, not
    null (the cost is written as null). *)
Lemma twilio_status_zero_duration :
  let call' := TwilioStatus.POST Fixtures.env_twilio_only Fixtures.call_completed
                 (Fixtures.twilio_completed "0") 6000 in
  Call.duration call' = Some (Num 0)
  /\ Call.duration call' <> None
  /\ Call.cost call' = None.
Proof. cbv zeta. split_and!; [reflexivity | discriminate | reflexivity]. Qed.

Example twilio_status_overwrites_duration :
  let call := Fixtures.call_completed in
  let call' := TwilioStatus.POST Fixtures.env_twilio_only call
                 (Fixtures.twilio_status_only "completed") 6000 in
  Call.duration call = Some (Num 42) /\ Call.duration call' = None /\ Call.cost call' = None.
Proof. repeat split. Qed.

End RouteFacts.

(** ** The reconciliation on concrete events *)

Section RouteExamples.

Import AmdStrategies Routes RouteSpec Fixtures.



Example twilio_scenario_machine_end_beep :
  let call := reconcile env_twilio_only call_completed
                (TwilioStatusEvent (twilio_answered_by "machine_end_beep") 2000) in
  Call.amdResult call = Some MACHINE
  /\ Call.confidence call = num 0.8
  /\ Call.status call = ANSWERED.
Proof. repeat split. Qed.

End RouteExamples.

(* ===================================================================== *)
(** * Further properties of the code                                      *)
(* ===================================================================== *)

(** ** The normalizer: validity and display *)

Section PhoneMoreFacts.

Import PhoneUtils PhoneSpec PhoneDisplay.

Lemma strip_non_digits_all_digits (s : string) : all_digits (strip_non_digits s) = true.
Proof.
  induction s as [|c s IH]; [reflexivity|]. cbn [strip_non_digits].
  destruct (is_digit c) eqn:Hc; [|exact IH]. cbn [all_digits]. by rewrite Hc.
Qed.

Lemma all_digits_append (a b : string) :
  all_digits (a +:+ b) = all_digits a && all_digits b.
Proof.
  induction a as [|c a IH]; [reflexivity|].
  rewrite append_cons. cbn [all_digits]. by rewrite IH, andb_assoc.
Qed.

Lemma strip_non_digits_append (a b : string) :
  strip_non_digits (a +:+ b) = strip_non_digits a +:+ strip_non_digits b.
Proof.
  induction a as [|c a IH]; [reflexivity|].
  rewrite append_cons. cbn [strip_non_digits].
  destruct (is_digit c); [by rewrite append_cons, IH | exact IH].
Qed.

Lemma strip_non_digits_id (s : string) : all_digits s = true -> strip_non_digits s = s.
Proof.
  induction s as [|c s IH]; [reflexivity|]. cbn [all_digits strip_non_digits].
  intros [Hc Hs]%andb_true_iff. rewrite Hc. f_equal. auto.
Qed.

(** The normalized form under the default country code: nothing, or '+',
    a prefix of at most two digits and the digits of the input. *)
Lemma formatPhoneNumber_default_shape (s : string) :
  let d := strip_non_digits s in
  let n := String.length d in
  (d = "" /\ formatPhoneNumber s defaultCountryCode = "")
  \/ (d <> ""
      /\ exists p, formatPhoneNumber s defaultCountryCode = "+" +:+ p +:+ d
           /\ all_digits p = true
           /\ (n = 10%nat -> String.length p = 1%nat \/ String.length p = 2%nat)
           /\ ((12 < n)%nat -> p = "")
           /\ (n <> 10%nat -> (n <= 12)%nat -> (String.length p <= 1)%nat)
           /\ ((n < 10)%nat -> String.length p = 1%nat)).
Proof.
  cbv zeta. unfold formatPhoneNumber, defaultCountryCode.
  set (d := strip_non_digits s).
  destruct (string_truthy d) eqn:Ht; cbn [negb];
    [right | left; by apply string_truthy_false in Ht].
  split; [intros ->; discriminate|].
  pose proof (Nat.eqb_spec (String.length d) 11) as E11.
  pose proof (Nat.eqb_spec (String.length d) 12) as E12.
  pose proof (Nat.eqb_spec (String.length d) 10) as E10.
  pose proof (Nat.ltb_spec 12 (String.length d)) as E13.
  destruct E11, (startsWith d "1"), E12, (startsWith d "91"), E10,
    (startsWith d "6" || startsWith d "7" || startsWith d "8" || startsWith d "9"), E13;
    cbn [andb]; try lia;
    first [ exists ""; split; [reflexivity|]
          | exists "1"; split; [reflexivity|]
          | exists "91"; split; [reflexivity|] ];
    (split; [reflexivity|]); split_and!; intros;
    first [ reflexivity | simpl; lia | exfalso; lia ].
Qed.

(** X1: a number is valid exactly when it holds 9 to 15 decimal digits,
    whatever else it holds. *)
Theorem isValidPhoneNumber_digit_count (s : string) :
  isValidPhoneNumber s = true
  <-> (9 <= String.length (digits_in_order s) <= 15)%nat.
Proof.
  rewrite <- strip_non_digits_spec. unfold isValidPhoneNumber.
  destruct (formatPhoneNumber_default_shape s)
    as [[Hd ->]|(Hne & p & -> & Hp & H10 & H13 & Hle & Hlt)]; cbv zeta in *.
  { rewrite Hd. simpl. split; [discriminate | lia]. }
  change ("+" +:+ p +:+ strip_non_digits s) with (String "+" (p +:+ strip_non_digits s)).
  cbn [phoneRegex_test].
  rewrite all_digits_append, Hp, strip_non_digits_all_digits, length_append. cbn [andb].
  rewrite andb_true_iff, !Nat.leb_le.
  set (n := String.length (strip_non_digits s)) in *.
  destruct (decide (n = 10%nat)) as [E|E]; [destruct (H10 E); lia|].
  destruct (decide (12 < n)%nat) as [E'|E']; [rewrite (H13 E'); simpl; lia|].
  specialize (Hle E ltac:(lia)).
  destruct (decide (n < 10)%nat) as [E''|E'']; [rewrite (Hlt E''); lia | lia].
Qed.

(** *** Substrings *)

Lemma substring_0_append (n m : nat) (x : string) :
  String.substring 0 n x +:+ String.substring n m x = String.substring 0 (n + m) x.
Proof.
  revert x; induction n as [|n IH]; intros x.
  - cbn [Nat.add]. by destruct m, x.
  - destruct x as [|c x]; [by destruct m|].
    cbn [String.substring Nat.add]. rewrite append_cons. f_equal. apply IH.
Qed.

Lemma substring_append (a n m : nat) (x : string) :
  String.substring a n x +:+ String.substring (a + n) m x = String.substring a (n + m) x.
Proof.
  revert x; induction a as [|a IH]; intros x; [apply substring_0_append|].
  destruct x as [|c x]; [by destruct n, m|]. cbn [String.substring Nat.add]. apply IH.
Qed.

Lemma substring_all (n : nat) (x : string) :
  (String.length x <= n)%nat -> String.substring 0 n x = x.
Proof.
  revert n; induction x as [|c x IH]; intros n Hn; [by destruct n|].
  destruct n as [|n]; [simpl in Hn; lia|].
  cbn [String.substring]. f_equal. apply IH. simpl in Hn. lia.
Qed.

(** [s.slice(0, n) + s.slice(n)] is [s]. *)
Lemma slice_from_append (n : nat) (x : string) :
  String.substring 0 n x +:+ slice_from n x = x.
Proof.
  unfold slice_from. rewrite substring_0_append. apply substring_all. lia.
Qed.

Lemma slice_from_prefix (p r : string) : slice_from (String.length p) (p +:+ r) = r.
Proof.
  unfold slice_from. rewrite length_append.
  replace (String.length p + String.length r - String.length p)%nat
    with (String.length r) by lia.
  induction p as [|c p IH]; [apply substring_all; lia|].
  rewrite append_cons. exact IH.
Qed.

Lemma groups_join (g1 run : nat) (r : string) :
  (g1 + 6 <= run)%nat ->
  String.substring 0 g1 r +:+ String.substring g1 3 r +:+ String.substring (g1 + 3) 3 r
  +:+ String.substring (g1 + 6) (run - (g1 + 6)) r +:+ slice_from run r = r.
Proof.
  intros Hrun. unfold slice_from.
  replace run with (g1 + 6 + (run - (g1 + 6)))%nat at 2 by lia.
  rewrite substring_append.
  replace (g1 + 6)%nat with (g1 + 3 + 3)%nat at 1 by lia.
  rewrite substring_append.
  rewrite substring_append.
  rewrite (substring_append 0 g1).
  apply substring_all. lia.
Qed.

(** The grouping of digits inserts blanks only. *)
Lemma group_digits_digits (s : string) :
  strip_non_digits (group_digits s) = strip_non_digits s.
Proof.
  induction s as [|c r IH]; [reflexivity|]. cbn [group_digits].
  destruct (Ascii.eqb c "+" && (8 <=? digit_run_length r)%nat) eqn:E.
  - apply andb_true_iff in E as [->%Ascii.eqb_eq Hrun%Nat.leb_le].
    set (run := digit_run_length r) in *. set (g1 := Nat.min 3 (run - 7)).
    transitivity (strip_non_digits
      (String.substring 0 g1 r +:+ String.substring g1 3 r
       +:+ String.substring (g1 + 3) 3 r
       +:+ String.substring (g1 + 6) (run - (g1 + 6)) r +:+ slice_from run r)).
    + rewrite !strip_non_digits_append. reflexivity.
    + rewrite groups_join by (unfold g1; lia). reflexivity.
  - cbn [strip_non_digits]. destruct (is_digit c); by rewrite IH.
Qed.

Lemma slices_join (n m : nat) (r : string) :
  String.substring 0 n r +:+ String.substring n m r +:+ slice_from (n + m) r = r.
Proof.
  unfold slice_from. rewrite substring_append, substring_0_append.
  apply substring_all. lia.
Qed.

(** X2: the display form holds the digits of the normalized number, in
    order, and no other digit: displaying only inserts blanks, brackets
    and a dash. *)
Theorem displayPhoneNumber_digits (s : string) :
  digits_in_order (displayPhoneNumber s)
  = digits_in_order (formatPhoneNumber s defaultCountryCode).
Proof.
  rewrite <- !strip_non_digits_spec. unfold displayPhoneNumber.
  set (F := formatPhoneNumber s defaultCountryCode).
  destruct (startsWith F "+1" && (String.length F =? 12)%nat) eqn:E1.
  { apply andb_true_iff in E1 as [[r Hr]%startsWith_spec _].
    pose proof (slice_from_prefix "+1" r) as Hd. rewrite <- Hr in Hd.
    change (String.length "+1") with 2%nat in Hd. rewrite Hd, Hr.
    unfold slice. cbn [Nat.sub].
    transitivity (strip_non_digits
      ("+1" +:+ String.substring 0 3 r +:+ String.substring 3 3 r +:+ slice_from (3 + 3) r)).
    - rewrite !strip_non_digits_append. reflexivity.
    - by rewrite slices_join. }
  destruct (startsWith F "+91" && (String.length F =? 13)%nat) eqn:E2.
  { apply andb_true_iff in E2 as [[r Hr]%startsWith_spec _].
    pose proof (slice_from_prefix "+91" r) as Hd. rewrite <- Hr in Hd.
    change (String.length "+91") with 3%nat in Hd. rewrite Hd, Hr.
    unfold slice. cbn [Nat.sub].
    transitivity (strip_non_digits ("+91" +:+ String.substring 0 5 r +:+ slice_from 5 r)).
    - rewrite !strip_non_digits_append. reflexivity.
    - by rewrite slice_from_append. }
  destruct (12 <? String.length F)%nat; [apply group_digits_digits | reflexivity].
Qed.

Ltac explode x H :=
  repeat (destruct x as [|? x]; try discriminate H); clear H.

Lemma first_digit_in_head (c : ascii) (r r' cs : string) :
  first_digit_in (String c r) cs <-> first_digit_in (String c r') cs.
Proof.
  split; intros (c0 & r0 & Heq & Hin); injection Heq as <- _;
    eexists _, _; (split; [reflexivity | exact Hin]).
Qed.

(** X3: a North American number, given as its ten national digits (not
    starting with 6 to 9) or as these after the country digit 1, is
    displayed as [+1 (AAA) BBB-CCCC]. *)
Theorem displayPhoneNumber_north_america (s a b c : string) :
  String.length a = 3%nat -> String.length b = 3%nat -> String.length c = 4%nat ->
  (digits_in_order s = a +:+ b +:+ c /\ ~ first_digit_in a "6789")
  \/ digits_in_order s = "1" +:+ a +:+ b +:+ c ->
  displayPhoneNumber s = "+1 (" +:+ a +:+ ") " +:+ b +:+ "-" +:+ c.
Proof.
  intros Ha Hb Hc Hd.
  destruct (formatPhoneNumber_cases s defaultCountryCode) as (_ & H11 & _ & H10 & _).
  explode a Ha. explode b Hb. explode c Hc.
  unfold displayPhoneNumber. destruct Hd as [[Hd Hnot] | Hd]; rewrite Hd in *.
  - rewrite H10; [reflexivity | reflexivity |].
    intros Hin. apply Hnot. revert Hin. apply first_digit_in_head.
  - rewrite H11; [reflexivity|]. left. split; [reflexivity|]. by eexists.
Qed.

Lemma displayPhoneNumber_north_america_witness :
  displayPhoneNumber "(415) 555-2671" = "+1 (415) 555-2671".
Proof.
  apply (displayPhoneNumber_north_america "(415) 555-2671" "415" "555" "2671");
    try reflexivity.
  left. split; [reflexivity|].
  intros (c & r & Heq & Hin). injection Heq as <- _.
  simpl in Hin. intuition discriminate.
Defined.

(** X4: an Indian mobile number, given as its ten national digits
    (starting with 6 to 9) or as these after the country digits 91, is
    displayed as [+91 AAAAA BBBBB]. *)
Theorem displayPhoneNumber_india (s a b : string) :
  String.length a = 5%nat -> String.length b = 5%nat ->
  (digits_in_order s = a +:+ b /\ first_digit_in a "6789")
  \/ digits_in_order s = "91" +:+ a +:+ b ->
  displayPhoneNumber s = "+91 " +:+ a +:+ " " +:+ b.
Proof.
  intros Ha Hb Hd.
  destruct (formatPhoneNumber_cases s defaultCountryCode) as (_ & H12 & H10 & _).
  explode a Ha. explode b Hb.
  unfold displayPhoneNumber. destruct Hd as [[Hd Hin] | Hd]; rewrite Hd in *.
  - rewrite H10; [reflexivity | reflexivity |].
    revert Hin. apply first_digit_in_head.
  - rewrite H12; [reflexivity|]. right. split; [reflexivity|]. by eexists.
Qed.

Lemma displayPhoneNumber_india_witness :
  displayPhoneNumber "98765 43210" = "+91 98765 43210".
Proof.
  apply (displayPhoneNumber_india "98765 43210" "98765" "43210"); try reflexivity.
  left. split; [reflexivity|].
  exists "9"%char, "8765". split; [reflexivity|]. simpl. tauto.
Defined.

End PhoneMoreFacts.

(* ===================================================================== *)
(** ** More on the strategies: what placing a call leaves behind          *)
(* ===================================================================== *)

Section PlacementFacts.

Import AmdStrategies AmdSpec PlacementSpec.

Lemma native_processCall_placement (env : Env) (phoneNumber callId : string) :
  let r := TwilioNativeDetector.processCall env phoneNumber callId in
  placed_on_twilio r \/ not_placed r.
Proof.
  cbv zeta. unfold TwilioNativeDetector.processCall.
  destruct (twilio_calls_create env _) as [call|e].
  - left. split_and!; try reflexivity. by eexists.
  - right. case_bool_decide; split_and!; try reflexivity; by eexists.
Qed.

(** Marks whose keys are none of the keys a placement is read from leave
    the placement as it is. *)
Lemma annotate_placement (r : AmdDetectionResult) (added : obj) :
  added !! "twilioCallSid" = None -> added !! "jambonzCallSid" = None ->
  added !! "error" = None ->
  placed_on_twilio r \/ not_placed r ->
  placed_on_twilio (annotate r added) \/ not_placed (annotate r added).
Proof.
  intros Ht Hj He. destruct (annotate_spec r added) as (Hr & _ & _ & Hkeep).
  unfold placed_on_twilio, not_placed.
  rewrite Hr, !Hkeep by assumption. tauto.
Qed.

Lemma fallbackToTwilio_placement (env : Env) (phoneNumber callId reason : string) :
  let r := JambonzSipDetector.fallbackToTwilio env phoneNumber callId reason in
  placed_on_twilio r \/ not_placed r.
Proof.
  cbv zeta. unfold JambonzSipDetector.fallbackToTwilio.
  apply annotate_placement; try reflexivity. apply native_processCall_placement.
Qed.

Lemma fallbackToTwilio_marks (env : Env) (phoneNumber callId reason : string) :
  annotated_with (TwilioNativeDetector.processCall env phoneNumber callId)
    (JambonzSipDetector.fallbackToTwilio env phoneNumber callId reason)
    (jambonz_fallback_marks reason).
Proof. apply annotate_spec. Qed.

(** One turn of the loop over the formats. *)
Lemma tryFormats_step (env : Env) (phoneNumber callId : string)
    (cleanFromNumber : option string) (f : string) (rest : list string) :
  let next := JambonzSipDetector.tryFormats env phoneNumber callId cleanFromNumber rest in
  let r := JambonzSipDetector.tryFormats env phoneNumber callId cleanFromNumber (f :: rest) in
  (accepts env cleanFromNumber f = true /\ placed_on_jambonz r f)
  \/ (accepts env cleanFromNumber f = false
      /\ (r = next
          \/ (rest = []
              /\ exists reason, reason <> ""
                   /\ r = JambonzSipDetector.fallbackToTwilio env phoneNumber callId reason))).
Proof.
  cbv zeta. cbn [JambonzSipDetector.tryFormats]. unfold accepts.
  destruct (fetch env _) as [response|e]; [|by auto].
  destruct (ok response); cbn [andb].
  - destruct (json response) as [data|e]; [|by auto].
    destruct data; try (by auto); left; (split; [reflexivity|]);
      (split_and!; try reflexivity; by eexists).
  - destruct (text response) as [errorText|e]; [|by auto].
    destruct rest as [|g rest']; [|by auto].
    right. split; [reflexivity|]. right. split; [reflexivity|].
    eexists. split; [|reflexivity]. discriminate.
Qed.

(** The loop over the formats places the call with the first format that
    Jambonz accepts, and hands the call to Twilio when it accepts none. *)
Lemma tryFormats_first_accepted (env : Env) (phoneNumber callId : string)
    (cleanFromNumber : option string) (formats : list string) :
  let r := JambonzSipDetector.tryFormats env phoneNumber callId cleanFromNumber formats in
  (exists pre f post,
      formats = (pre ++ f :: post)%list
      /\ Forall (fun g => accepts env cleanFromNumber g = false) pre
      /\ accepts env cleanFromNumber f = true
      /\ placed_on_jambonz r f)
  \/ (Forall (fun g => accepts env cleanFromNumber g = false) formats
      /\ exists reason, reason <> ""
           /\ r = JambonzSipDetector.fallbackToTwilio env phoneNumber callId reason).
Proof.
  cbv zeta. induction formats as [|toFormat rest IH].
  { right. split; [constructor|].
    exists "All Jambonz phone number formats failed". split; [discriminate | reflexivity]. }
  destruct (tryFormats_step env phoneNumber callId cleanFromNumber toFormat rest)
    as [[Hacc Hr]|[Hno [Hr|[-> Hr]]]].
  - left. by exists [], toFormat, rest.
  - rewrite Hr. destruct IH as [(pre & f & post & -> & Hpre & Hf & Hp)|[Hall Hfb]].
    + left. exists (toFormat :: pre), f, post. split_and!; try done. by constructor.
    + right. split; [by constructor | exact Hfb].
  - right. split; [by repeat constructor | exact Hr].
Qed.

(** The three ways in which placing a call ends. *)
Lemma processCall_placement_cases (env : Env) (s : AmdStrategy) (phoneNumber callId : string) :
  let r := processCall (createDetector env s) env phoneNumber callId in
  placed_on_twilio r
  \/ (s = JAMBONZ_SIP /\ exists f, placed_on_jambonz r f)
  \/ not_placed r.
Proof.
  cbv zeta.
  assert (Hn : forall added,
    added !! "twilioCallSid" = None -> added !! "jambonzCallSid" = None ->
    added !! "error" = None ->
    let r := annotate (TwilioNativeDetector.processCall env phoneNumber callId) added in
    placed_on_twilio r \/ (s = JAMBONZ_SIP /\ exists f, placed_on_jambonz r f)
    \/ not_placed r).
  { intros added H1 H2 H3. cbv zeta.
    destruct (annotate_placement _ added H1 H2 H3
                (native_processCall_placement env phoneNumber callId)) as [Hp|Hp];
      [left | right; right]; exact Hp. }
  destruct s; cbn [createDetector processCall].
  - destruct (native_processCall_placement env phoneNumber callId) as [Hp|Hp];
      [left | right; right]; exact Hp.
  - unfold JambonzSipDetector.processCall.
    repeat (case_match; try (by apply Hn)).
    match goal with
    | |- context [JambonzSipDetector.tryFormats ?e ?p ?c ?from ?fs] =>
        destruct (tryFormats_first_accepted e p c from fs)
          as [(pre & f & post & _ & _ & _ & Hp)|[_ (reason & _ & ->)]]
    end.
    + right; left. split; [reflexivity|]. by exists f.
    + by apply Hn.
  - unfold HuggingFaceDetector.processCall.
    repeat (case_match; try (by apply Hn)).
    left. split_and!; try reflexivity. by eexists.
  - unfold GeminiFlashDetector.processCall.
    repeat (case_match; try (by apply Hn)).
    left. split_and!; try reflexivity. by eexists.
Qed.

(** X5: whatever the strategy, placing a call ends in one of three ways,
    and the result tells which: Twilio has the call, and the result holds
    its Twilio id; Jambonz has it (SIP strategy only); or no call was
    placed, and the result holds an error message and no call id. *)
Theorem processCall_placement (env : Env) (s : AmdStrategy) (phoneNumber callId : string) :
  let r := processCall (createDetector env s) env phoneNumber callId in
  (placed_on_twilio r /\ result r <> ERROR)
  \/ (s = JAMBONZ_SIP /\ (exists f, placed_on_jambonz r f) /\ result r <> ERROR)
  \/ (not_placed r /\ result r = ERROR).
Proof.
  cbv zeta.
  destruct (processCall_placement_cases env s phoneNumber callId)
    as [Hp|[[Hs [f Hp]]|Hp]].
  - left. split; [exact Hp|]. destruct Hp as [-> _]. discriminate.
  - right; left. split_and!; [exact Hs | by exists f |].
    destruct Hp as [-> _]. discriminate.
  - right; right. split; [exact Hp | apply Hp].
Qed.

(** X6: the SIP strategy either places the call through Jambonz, which
    then is configured and healthy and has accepted one of the three ways
    the number is written, every way tried before it having been refused;
    or it hands the call to Twilio and marks the result as a fallback,
    with the reason. *)
Theorem jambonz_processCall_first_accepted (env : Env) (phoneNumber callId : string) :
  let r := JambonzSipDetector.processCall env phoneNumber callId in
  let cleanFromNumber := strip_non_digits_plus <$> getenv env "TWILIO_PHONE_NUMBER" in
  let formats := JambonzSipDetector.toNumberFormats (strip_non_digits_plus phoneNumber) in
  (jambonz_configured env
   /\ JambonzSipDetector.checkJambonzAvailability env = true
   /\ exists pre f post,
        formats = (pre ++ f :: post)%list
        /\ Forall (fun g => accepts env cleanFromNumber g = false) pre
        /\ accepts env cleanFromNumber f = true
        /\ placed_on_jambonz r f)
  \/ (exists reason, reason <> ""
        /\ annotated_with (TwilioNativeDetector.processCall env phoneNumber callId) r
             (jambonz_fallback_marks reason)).
Proof.
  cbv zeta. unfold JambonzSipDetector.processCall.
  destruct (opt_truthy (getenv env "JAMBONZ_API_BASE_URL")) eqn:E1; cbn [negb orb];
    [|right; eexists; split; [|apply fallbackToTwilio_marks]; discriminate].
  destruct (opt_truthy (getenv env "JAMBONZ_ACCOUNT_SID")) eqn:E2; cbn [negb orb];
    [|right; eexists; split; [|apply fallbackToTwilio_marks]; discriminate].
  destruct (opt_truthy (getenv env "JAMBONZ_API_KEY")) eqn:E3; cbn [negb orb];
    [|right; eexists; split; [|apply fallbackToTwilio_marks]; discriminate].
  destruct (JambonzSipDetector.checkJambonzAvailability env) eqn:E4; cbn [negb];
    [|right; eexists; split; [|apply fallbackToTwilio_marks]; discriminate].
  match goal with
  | |- context [JambonzSipDetector.tryFormats ?e ?p ?c ?from ?fs] =>
      destruct (tryFormats_first_accepted e p c from fs)
        as [Hplaced|[_ (reason & Hreason & ->)]]
  end.
  - left. split; [|split; [reflexivity | exact Hplaced]].
    unfold jambonz_configured. by rewrite <- !opt_truthy_spec.
  - right. exists reason. split; [exact Hreason | apply fallbackToTwilio_marks].
Qed.

End PlacementFacts.

Section PromptFacts.

Import AmdStrategies AmdSpec.

Lemma length_substring_0 (n : nat) (s : string) :
  String.length (String.substring 0 n s) = Nat.min n (String.length s).
Proof.
  revert s; induction n as [|n IH]; intros [|c s]; cbn [String.substring String.length Nat.min];
    try reflexivity.
  by rewrite IH.
Qed.

Lemma substring_0_prefix (n : nat) (a b : string) :
  String.length a = n -> String.substring 0 n (a +:+ b) = a.
Proof.
  revert a; induction n as [|n IH]; intros [|c a] Ha; try discriminate Ha.
  - by destruct b.
  - rewrite append_cons. cbn [String.substring]. f_equal. apply IH.
    by injection Ha.
Qed.

Lemma contains_middle (a x b : string) : contains (a +:+ x +:+ b) x.
Proof. by exists a, b. Qed.

Lemma append_assoc (a b c : string) : (a +:+ b) +:+ c = a +:+ b +:+ c.
Proof. induction a as [|x a IH]; [reflexivity|]. rewrite !append_cons. by rewrite IH. Qed.

(** X7: the prompt sent to the model quotes the transcript, cut to its
    first 500 characters and an ellipsis when it is longer; so the prompt
    has at most 503 characters of transcript around a fixed text, and its
    length does not grow with the transcript beyond that. *)
Theorem prompt_transcript_bounded (transcript : string)
    (audioQuality noiseLevel : option string) :
  let sent := GeminiFlashDetector.optimizedTranscript transcript in
  let p := GeminiFlashDetector.prompt transcript audioQuality noiseLevel in
  contains p (quoted sent)
  /\ String.substring 0 500 sent = String.substring 0 500 transcript
  /\ String.length sent = (if (500 <? String.length transcript)%nat then 503%nat
                           else String.length transcript)
  /\ String.length p
     = (if GeminiFlashDetector.isNoisyAudio audioQuality noiseLevel
        then 112 + String.length sent
        else 683 + String.length (GeminiFlashDetector.or_unknown audioQuality)
             + String.length (GeminiFlashDetector.or_unknown noiseLevel)
             + String.length sent)%nat.
Proof.
  cbv zeta. split_and!.
  - unfold GeminiFlashDetector.prompt.
    destruct (GeminiFlashDetector.isNoisyAudio audioQuality noiseLevel).
    + apply contains_middle.
    + unfold GeminiFlashDetector.getStandardPrompt.
      set (x := quoted _). set (q := GeminiFlashDetector.or_unknown audioQuality).
      set (n := GeminiFlashDetector.or_unknown noiseLevel).
      match goal with
      | |- contains (?a +:+ q +:+ ?b +:+ n +:+ ?c +:+ x +:+ ?d) x =>
          exists (a +:+ q +:+ b +:+ n +:+ c), d
      end.
      by rewrite !append_assoc.
  - unfold GeminiFlashDetector.optimizedTranscript.
    destruct (500 <? String.length transcript)%nat eqn:E; [|reflexivity].
    apply Nat.ltb_lt in E. rewrite substring_0_prefix; [reflexivity|].
    rewrite length_substring_0. lia.
  - unfold GeminiFlashDetector.optimizedTranscript.
    destruct (500 <? String.length transcript)%nat eqn:E; [|reflexivity].
    apply Nat.ltb_lt in E. rewrite length_append, length_substring_0.
    change (String.length "...") with 3%nat. lia.
  - unfold GeminiFlashDetector.prompt.
    destruct (GeminiFlashDetector.isNoisyAudio audioQuality noiseLevel).
    + unfold GeminiFlashDetector.getFallbackPrompt, quoted.
      rewrite !length_append.
      repeat match goal with
             | |- context [String.length (String ?c ?r)] =>
                 let n := eval vm_compute in (String.length (String c r)) in
                 change (String.length (String c r)) with n
             end.
      change (String.length dq) with 1%nat. lia.
    + unfold GeminiFlashDetector.getStandardPrompt, quoted.
      rewrite !length_append.
      repeat match goal with
             | |- context [String.length (String ?c ?r)] =>
                 let n := eval vm_compute in (String.length (String c r)) in
                 change (String.length (String c r)) with n
             end.
      change (String.length dq) with 1%nat. lia.
Qed.

End PromptFacts.

(* ===================================================================== *)
(** ** More on the reconciliation: sequences of events                    *)
(* ===================================================================== *)

Section ReconcileFacts.

Context `{Runtime}.

Import AmdStrategies Routes RouteSpec ReconcileSpec.

Lemma reconcile_all_app (env : Env) (call : Call.t) (evs evs' : list Event) :
  reconcile_all env call (evs ++ evs')
  = reconcile_all env (reconcile_all env call evs) evs'.
Proof. unfold reconcile_all. apply fold_left_app. Qed.

Lemma reconcile_all_cons (env : Env) (call : Call.t) (ev : Event) (evs : list Event) :
  reconcile_all env call (ev :: evs) = reconcile_all env (reconcile env call ev) evs.
Proof. reflexivity. Qed.

Lemma same_identity_refl (c : Call.t) : same_identity c c.
Proof. by repeat split. Qed.

Lemma same_identity_trans (a b c : Call.t) :
  same_identity a b -> same_identity b c -> same_identity a c.
Proof. unfold same_identity. intuition congruence. Qed.

Lemma reconcile_all_identity (env : Env) (evs : list Event) (call : Call.t) :
  same_identity call (reconcile_all env call evs).
Proof.
  unfold reconcile_all. revert call.
  induction evs as [|ev evs IH]; intros call; [apply same_identity_refl|].
  cbn [fold_left]. eapply same_identity_trans; [|apply IH].
  apply reconcile_fields.
Qed.

(** X8: of a sequence of events, the last one that carries a signal
    decides the stored verdict and confidence, whatever was recorded
    before it: a verdict is replaced, not ranked. *)
Theorem reconcile_all_last_signal (env : Env) (call : Call.t)
    (pre post : list Event) (ev : Event) (r : AmdDetectionResult) :
  signal env call ev = Some r ->
  Forall (fun e => signal env call e = None) post ->
  let call' := reconcile_all env call (pre ++ ev :: post) in
  Call.amdResult call' = Some (result r)
  /\ Call.confidence call' = confidence r
  /\ same_identity call call'.
Proof.
  intros Hev Hpost call'. subst call'.
  split_and!; [| |apply reconcile_all_identity].
  all: rewrite reconcile_all_app, reconcile_all_cons.
  all: set (c0 := reconcile_all env call pre).
  all: assert (Hs0 : Call.amdStrategy c0 = Call.amdStrategy call)
         by apply reconcile_all_identity.
  all: destruct (reconcile_fields env c0 ev) as [Hid Hf];
    rewrite (signal_strategy env call c0 ev Hs0), Hev in Hf;
    destruct Hf as (Hr & Hc & _).
  all: destruct (reconcile_all_null env post (reconcile env c0 ev)) as [Hr' Hc'];
    [eapply Forall_impl; [exact Hpost|]; cbv beta; intros e He;
     rewrite <- He; apply signal_strategy;
     rewrite reconcile_strategy; exact Hs0 |].
  all: congruence.
Qed.

Lemma jambonz_event_keeps (env : Env) (call : Call.t) (ev : Event) :
  from_jambonz ev = true ->
  (is_Some (Call.duration call) -> is_Some (Call.duration (reconcile env call ev)))
  /\ (is_Some (Call.cost call) -> is_Some (Call.cost (reconcile env call ev))).
Proof.
  destruct ev as [body now|body now|body now nowISO]; [discriminate| |]; intros _;
    cbn [reconcile]; unfold JambonzWebhook.POST, AmdEvents.POST, prisma_call_update;
    cbn [Call.duration Call.cost];
    unfold JambonzWebhook.updateData, AmdEvents.updateData;
    cbn [data_duration data_cost];
    (destruct (truthy (prop body "call_duration")); cbn [fmap option_fmap option_map default from_option id];
     [destruct (number_truthy _); cbn [fmap option_fmap option_map default from_option id]|]);
    split; intros Hs; first [exact Hs | by eexists].
Qed.


End ReconcileFacts.

Section ReconcileExamples.

Import AmdStrategies Routes RouteSpec ReconcileSpec Fixtures.

(** X8 on concrete events: a call recorded as HUMAN receives a machine
    classification and then a status-only event; the record says MACHINE. *)
Lemma reconcile_all_last_signal_witness :
  let call' :=
    reconcile_all env_twilio_only call_completed
      [ TwilioStatusEvent (twilio_answered_by "human") 2000;
        TwilioStatusEvent (twilio_answered_by "machine_start") 2500;
        TwilioStatusEvent (twilio_status_only "completed") 3000 ] in
  Call.amdResult call' = Some MACHINE /\ Call.confidence call' = num 0.8.
Proof.
  cbv zeta.
  destruct (reconcile_all_last_signal (H := ReferenceRuntime.runtime)
              env_twilio_only call_completed
              [TwilioStatusEvent (twilio_answered_by "human") 2000]
              [TwilioStatusEvent (twilio_status_only "completed") 3000]
              (TwilioStatusEvent (twilio_answered_by "machine_start") 2500)
              _ eq_refl) as (Hr & Hc & _).
  - repeat constructor.
  - split; [exact Hr | exact Hc].
Defined.


End ReconcileExamples.

(* ===================================================================== *)
(** ** The dial route                                                     *)
(* ===================================================================== *)

Section DialFacts.

Import AmdStrategies Routes PhoneUtils PhoneSpec AmdSpec PlacementSpec DialSpec.

Lemma dialSchema_parse_Some (body : jsval) (phoneNumber : string) (s : AmdStrategy) :
  DialRoute.dialSchema_parse body = Some (phoneNumber, s) ->
  (7 <= String.length phoneNumber)%nat /\ isValidPhoneNumber phoneNumber = true.
Proof.
  unfold DialRoute.dialSchema_parse. destruct body as [| | | | |l|m]; try discriminate.
  destruct (prop m "phoneNumber") as [| | | |p| |]; try discriminate.
  destruct (DialRoute.nativeEnum_AmdStrategy _) as [s'|]; [|discriminate].
  destruct ((7 <=? String.length p)%nat && isValidPhoneNumber p) eqn:E; [|discriminate].
  intros [= <- _]. apply andb_true_iff in E as [E1%Nat.leb_le E2]. by split.
Qed.

(** What the route does once the configuration is complete, the request
    is valid and the store has created the row. *)
Lemma POST_Some (env : Env) (body : outcome jsval) (created : outcome DialRoute.Created)
    (a : DialRoute.Answer) (call : Call.t) :
  DialRoute.POST env body created = (a, Some call) ->
  exists json phoneNumber s c,
    body = Ok json /\ created = Ok c
    /\ DialRoute.missingVars env = []
    /\ DialRoute.dialSchema_parse json = Some (phoneNumber, s)
    /\ let number := formatPhoneNumber phoneNumber defaultCountryCode in
       let r := processCall (createDetector env s) env number (DialRoute.new_id c) in
       call = DialRoute.store_result (DialRoute.prisma_call_create c number s) r
       /\ a = if bool_decide (result r = ERROR)
              then DialRoute.CallFailed (DialRoute.new_id c)
                     (or_else (prop (metadata r) "error") (JStr "Call failed"))
              else DialRoute.CallInitiated (DialRoute.new_id c).
Proof.
  unfold DialRoute.POST. destruct (DialRoute.missingVars env) eqn:Hm; [|discriminate].
  destruct body as [json|e]; [|discriminate].
  destruct (DialRoute.dialSchema_parse json) as [[phoneNumber s]|] eqn:Hp; [|discriminate].
  destruct created as [c|e]; [|discriminate].
  cbv zeta. cbn [Call.id DialRoute.prisma_call_create].
  intros Heq. exists json, phoneNumber, s, c.
  do 3 (split; [reflexivity|]). split; [exact Hp|]. cbv zeta.
  destruct (bool_decide _) in *; injection Heq as <- <-; by split.
Qed.

(** X10: the dial route creates a call record only when the
    configuration is complete and the requested number is valid; the
    number it stores, and hands to the detector, is then in canonical
    form: a plus sign and 10 to 15 digits. *)
Theorem dial_stores_canonical_number (env : Env) (body : outcome jsval)
    (created : outcome DialRoute.Created) (a : DialRoute.Answer) (call : Call.t) :
  DialRoute.POST env body created = (a, Some call) ->
  canonical (Call.targetNumber call)
  /\ Forall (configured env) DialRoute.requiredEnvVars
  /\ exists json phoneNumber s,
       body = Ok json
       /\ DialRoute.dialSchema_parse json = Some (phoneNumber, s)
       /\ (7 <= String.length phoneNumber)%nat
       /\ Call.targetNumber call = formatPhoneNumber phoneNumber defaultCountryCode
       /\ Call.amdStrategy call = s.
Proof.
  intros (json & phoneNumber & s & c & -> & -> & Hm & Hp & Hcall & _)%POST_Some.
  cbv zeta in Hcall. subst call. cbn [DialRoute.store_result DialRoute.prisma_call_create
    Call.targetNumber Call.amdStrategy].
  destruct (dialSchema_parse_Some _ _ _ Hp) as [Hlen Hvalid].
  split_and!.
  - by apply phoneRegex_test_spec.
  - apply Forall_forall. intros k Hk. apply opt_truthy_spec.
    destruct (opt_truthy (getenv env k)) eqn:E; [reflexivity|].
    assert (Hin : In k (DialRoute.missingVars env)).
    { unfold DialRoute.missingVars. apply filter_In. split; [|by rewrite E].
      by apply list_elem_of_In. }
    rewrite Hm in Hin. destruct Hin.
  - by exists json, phoneNumber, s.
Qed.

Lemma dial_stores_canonical_number_witness :
  canonical (formatPhoneNumber "(415) 555-2671" defaultCountryCode).
Proof.
  refine (proj1 (dial_stores_canonical_number DialFixtures.env_dial
            (Ok (DialFixtures.dial_request "(415) 555-2671" "HUGGINGFACE_MODEL"))
            (Ok DialFixtures.new_row) _ _ eq_refl)).
Defined.

Lemma not_placed_unreachable (call : Call.t) (r : AmdDetectionResult) :
  Call.metadata call = Some (metadata r) -> not_placed r -> unreachable call.
Proof.
  intros Hm (_ & _ & Ht & Hj) ev Hres.
  assert (Hno : forall k v, k = "twilioCallSid" \/ k = "jambonzCallSid" ->
                            ~ metadata_path_equals call k v).
  { intros k v Hk (m & Hm' & Hv). rewrite Hm in Hm'. injection Hm' as <-.
    destruct Hk as [->| ->]; congruence. }
  destruct ev as [body now|body now|body now nowISO]; cbn [resolves] in Hres.
  - destruct Hres as (sid & _ & Hres). eapply Hno; [|exact Hres]. by left.
  - destruct Hres as [Hres _]. eapply Hno; [|exact Hres]. by right.
  - destruct Hres as [[Hres|Hres] _]; (eapply Hno; [|exact Hres]); [by right | by left].
Qed.



End DialFacts.

(* ===================================================================== *)
(** ** The speech-verification route                                      *)
(* ===================================================================== *)

Section VerifyFacts.

Context `{Runtime} `{StringNumericLiteral}.

Import AmdStrategies Routes AmdSpec.

Lemma append_nil_r (s : string) : s +:+ "" = s.
Proof. induction s as [|c s IH]; [reflexivity|]. by rewrite append_cons, IH. Qed.

Lemma length_zero (s : string) : String.length s = 0%nat -> s = "".
Proof. by destruct s. Qed.

Lemma contains_length (s k : string) :
  contains s k -> (String.length k <= String.length s)%nat.
Proof. intros (a & b & ->). rewrite !length_append. lia. Qed.

Lemma contains_same_length (s k : string) :
  (String.length s <= String.length k)%nat -> contains s k <-> s = k.
Proof.
  intros Hlen. split.
  - intros (a & b & ->). rewrite !length_append in Hlen.
    rewrite (length_zero a), (length_zero b) by lia. apply append_nil_r.
  - intros ->. exists "", "". by rewrite append_nil_r.
Qed.

(** X12: speech counts as a human response exactly when, lower-cased and
    trimmed, it has more than two characters or is "hi" or "ok"; the
    other keywords of the list decide nothing. *)
Theorem isHumanResponse_spec (speechText : string) :
  VerifyRoute.isHumanResponse speechText = true
  <-> speechText <> ""
      /\ let text := trim (toLowerCase speechText) in
         (2 < String.length text)%nat \/ text = "hi" \/ text = "ok".
Proof.
  unfold VerifyRoute.isHumanResponse. destruct speechText as [|c s].
  { split; [discriminate | by intros [? _]]. }
  cbn [string_truthy negb]. cbv zeta. set (text := trim (toLowerCase (String c s))).
  rewrite orb_true_iff, Nat.ltb_lt. split.
  - intros Hk. split; [discriminate|].
    destruct (decide (2 < String.length text)%nat) as [Hl|Hl]; [by left | right].
    destruct Hk as [Hk|Hk]; [|lia].
    unfold VerifyRoute.humanKeywords in Hk. cbn [existsb] in Hk.
    rewrite !orb_true_iff in Hk. rewrite !includes_spec in Hk.
    assert (Hlong : forall k, (2 < String.length k)%nat -> ~ contains text k).
    { intros k Hlen Hc%contains_length. lia. }
    assert (Hshort : forall k, String.length k = 2%nat -> contains text k -> text = k).
    { intros k Hlen Hc. apply contains_same_length; [lia | exact Hc]. }
    repeat (destruct Hk as [Hk|Hk]);
      first [ discriminate Hk
            | exfalso; revert Hk; apply Hlong; simpl; lia
            | left; by apply Hshort
            | right; by apply Hshort ].
  - intros [_ [Hl|[Hhi|Hok]]]; [by right | left | left].
    + rewrite Hhi. reflexivity.
    + rewrite Hok. reflexivity.
Qed.

Lemma Math_max_floor (x : number) :
  Math_max (Num 0.8) x = NaN
  \/ exists q, Math_max (Num 0.8) x = Num q /\ (0.8 <= q)%Q.
Proof.
  destruct x as [|q]; [by left | right]. cbn [Math_max].
  destruct (Qle_bool 0.8 q) eqn:E; eexists; (split; [reflexivity|]).
  - by apply Qle_bool_iff.
  - apply Qle_refl.
Qed.

(** X13: what the speech-verification route writes.  When the request
    holds speech that is no string the route fails and the record stays
    as it was.  Otherwise the verdict is HUMAN or MACHINE and nothing
    else; a HUMAN verdict has confidence at least 0.8 whatever the
    recognizer reported below that, a MACHINE verdict has 0.7; the
    metadata gains the key [speechVerification] and keeps every other
    key, so that the record still resolves; status, duration and cost are
    not touched. *)
Theorem verify_route_writes (call : Call.t) (body : obj) (now : Z) (nowISO : string) :
  let call' := VerifyRoute.POST call body now nowISO in
  match VerifyRoute.heard_human (prop body "speech") with
  | None => call' = call
  | Some human =>
      Call.amdResult call' = Some (if human then HUMAN else MACHINE)
      /\ (exists n, Call.confidence call' = JNum n
            /\ if human then n = NaN \/ exists q, n = Num q /\ (0.8 <= q)%Q
               else n = Num 0.7)
      /\ (forall q, prop body "confidence" = JNum (Num q) -> human = true ->
            Call.confidence call' = JNum (Num (if Qle_bool 0.8 q then q else 0.8)))
      /\ (exists m', Call.metadata call' = Some m'
            /\ is_Some (m' !! "speechVerification")
            /\ forall k, k <> "speechVerification" ->
                 m' !! k = default ∅ (Call.metadata call) !! k)
      /\ (VerifyRoute.where_ body call -> VerifyRoute.where_ body call')
      /\ Call.status call' = Call.status call
      /\ Call.duration call' = Call.duration call
      /\ Call.cost call' = Call.cost call
      /\ Call.updatedAt call' = now
  end.
Proof.
  cbv zeta. unfold VerifyRoute.POST, VerifyRoute.updateData.
  destruct (VerifyRoute.heard_human (prop body "speech")) as [human|]; [|reflexivity].
  unfold prisma_call_update.
  cbn [Call.amdResult Call.confidence Call.metadata Call.status Call.duration Call.cost
       Call.updatedAt data_status data_amdResult data_confidence data_duration data_cost
       data_metadata data_updatedAt default from_option id].
  assert (Hframe : forall k v, k <> "speechVerification" ->
            spread (default ∅ (Call.metadata call)) {[ "speechVerification" := v ]} !! k
            = default ∅ (Call.metadata call) !! k).
  { intros k v Hk. unfold spread. rewrite lookup_union_r; [reflexivity|].
    by apply lookup_singleton_ne. }
  split_and!; try reflexivity.
  - eexists. split; [reflexivity|]. destruct human; [apply Math_max_floor | reflexivity].
  - intros q Hq ->. rewrite Hq. unfold or_else, num. cbn [truthy number_truthy].
    destruct (Qeq_bool q 0) eqn:E; cbn [negb ToNumber Math_max]; [|reflexivity].
    apply Qeq_bool_iff in E.
    destruct (Qle_bool 0.8 q) eqn:E'; [|reflexivity].
    apply Qle_bool_iff in E'. rewrite E in E'. by apply Qle_bool_iff in E'.
  - eexists. split; [reflexivity|]. split.
    + unfold spread. eexists. apply lookup_union_Some_l. by apply lookup_singleton_Some.
    + intros k Hk. by apply Hframe.
  - assert (Hkeep : forall k v, k <> "speechVerification" ->
              metadata_path_equals call k v ->
              metadata_path_equals
                {| Call.id := Call.id call;
                   Call.userId := Call.userId call;
                   Call.targetNumber := Call.targetNumber call;
                   Call.amdStrategy := Call.amdStrategy call;
                   Call.status := Call.status call;
                   Call.amdResult := Some (if human then HUMAN else MACHINE);
                   Call.confidence :=
                     JNum (if human
                           then Math_max (Num 0.8)
                                  (ToNumber (or_else (prop body "confidence") (num 0.8)))
                           else Num 0.7);
                   Call.duration := Call.duration call;
                   Call.cost := Call.cost call;
                   Call.errorMessage := Call.errorMessage call;
                   Call.metadata :=
                     Some (spread (default ∅ (Call.metadata call))
                             {[ "speechVerification" :=
                                  JObj {[ "speech" :=
                                            or_else (prop body "speech") (JStr "no_speech");
                                          "confidence" :=
                                            or_else (prop body "confidence") (num 0);
                                          "verifiedAt" := JStr nowISO;
                                          "result" :=
                                            JStr (VerifyRoute.AmdResult_name
                                                    (if human then HUMAN else MACHINE)) ]} ]});
                   Call.createdAt := Call.createdAt call;
                   Call.updatedAt := now |} k v).
    { intros k v Hk (m & Hm & Hv). eexists. split; [reflexivity|].
      rewrite Hframe by exact Hk. by rewrite Hm. }
    intros [Hw|Hw]; [left | right]; (apply Hkeep; [discriminate | exact Hw]).
Qed.

End VerifyFacts.

(* ===================================================================== *)
(** ** The recording-analysis route and the speech-result route           *)
(* ===================================================================== *)

Section RecordingFacts.

Context `{Runtime}.

Import AmdStrategies Routes AmdSpec DialSpec.

Lemma empty_metadata_unreachable (call : Call.t) :
  Call.metadata call = Some ∅ -> unreachable call.
Proof.
  intros Hm ev Hres.
  assert (Hno : forall k v, ~ metadata_path_equals call k v).
  { intros k v (m & Hm' & Hv). rewrite Hm in Hm'. injection Hm' as <-.
    by rewrite lookup_empty in Hv. }
  destruct ev as [body now|body now|body now nowISO]; cbn [resolves] in Hres.
  - destruct Hres as (sid & _ & Hres). by eapply Hno.
  - destruct Hres as [Hres _]. by eapply Hno.
  - destruct Hres as [[Hres|Hres] _]; by eapply Hno.
Qed.

(** X14: for a call of the native or of the SIP strategy the recording
    route analyses nothing and still writes: the verdict becomes
    UNDECIDED with confidence 0 whatever it was, the call is COMPLETED,
    and the metadata is replaced by the empty object; the call id is lost
    with it, so that no later webhook event, and no later recording,
    resolves to the record. *)
Theorem recording_route_forgets_unanalysed_call (env : Env) (world : RecordingRoute.World)
    (call : Call.t) (body : TwilioStatus.Body) :
  Call.amdStrategy call = TWILIO_NATIVE \/ Call.amdStrategy call = JAMBONZ_SIP ->
  let call' := RecordingRoute.POST env world call body in
  Call.amdResult call' = Some UNDECIDED
  /\ Call.confidence call' = num 0
  /\ Call.status call' = COMPLETED
  /\ Call.metadata call' = Some ∅
  /\ unreachable call'
  /\ (forall body', ~ RecordingRoute.where_ body' call').
Proof.
  intros Hs. cbv zeta.
  assert (Hfields :
    let call' := RecordingRoute.POST env world call body in
    Call.amdResult call' = Some UNDECIDED /\ Call.confidence call' = num 0
    /\ Call.status call' = COMPLETED /\ Call.metadata call' = Some ∅).
  { cbv zeta. unfold RecordingRoute.POST, RecordingRoute.updateData, prisma_call_update.
    destruct Hs as [-> | ->]; by repeat split. }
  destruct Hfields as (Hr & Hc & Hst & Hm). split_and!; try assumption.
  - by apply empty_metadata_unreachable.
  - intros body' (sid & _ & m & Hm' & Hv). rewrite Hm in Hm'. injection Hm' as <-.
    by rewrite lookup_empty in Hv.
Qed.

Lemma Qle_bool_false (a b : Q) : Qle_bool a b = false -> (b < a)%Q.
Proof.
  intros E. destruct (Qlt_le_dec b a) as [Hlt|Hle]; [exact Hlt|].
  apply Qle_bool_iff in Hle. congruence.
Qed.

Ltac Qcases :=
  repeat match goal with
         | |- context [Qle_bool ?a ?b] =>
             let E := fresh "E" in
             destruct (Qle_bool a b) eqn:E;
             [apply Qle_bool_iff in E | apply Qle_bool_false in E]
         | H : context [Qle_bool ?a ?b] |- _ =>
             let E := fresh "E" in
             destruct (Qle_bool a b) eqn:E;
             [apply Qle_bool_iff in E | apply Qle_bool_false in E]
         end.

(** The pattern analysis, by the score before the random variance is
    added. *)
Lemma analysis_of_score (r base : Q) :
  (0 <= r)%Q -> (r < 1)%Q ->
  let humanScore :=
    RecordingRoute.Qmax 0.1 (RecordingRoute.Qmin 0.9 (base + (r - 0.5) * 0.2))%Q in
  let human := negb (Qle_bool humanScore 0.5) in
  let confidence := (RecordingRoute.Qabs (humanScore - 0.5) * 2)%Q in
  (0 <= confidence)%Q /\ (confidence <= 0.8)%Q
  /\ (base == 0.5 + 0.2 -> human = true /\ 0.2 <= confidence)%Q
  /\ (base == 0.5 - 0.3 -> human = false /\ 0.4 <= confidence)%Q
  /\ (base == 0.5 -> (human = true <-> 0.5 < r))%Q.
Proof.
  intros H0 H1. cbv zeta.
  unfold RecordingRoute.Qmax, RecordingRoute.Qmin, RecordingRoute.Qabs.
  Qcases; cbn [negb]; split_and!; try lra;
    intros Hb; split; try reflexivity; try discriminate; try lra;
    intros; try discriminate; try reflexivity; lra.
Qed.


Lemma path_kept (call call' : Call.t) (m' : obj) (k : string) (v : jsval) :
  Call.metadata call' = Some m' ->
  m' !! k = default ∅ (Call.metadata call) !! k ->
  metadata_path_equals call k v -> metadata_path_equals call' k v.
Proof.
  intros Hm' Hk (m & Hm & Hv). exists m'. split; [exact Hm'|].
  rewrite Hk, Hm. exact Hv.
Qed.

Lemma spread_lookup_other (a b : obj) (k : string) :
  b !! k = None -> spread a b !! k = a !! k.
Proof. intros Hb. unfold spread. by rewrite lookup_union_r. Qed.

Lemma huggingFaceStyle_result (env : Env) (world : RecordingRoute.World)
    (recordingUrl : option string) :
  let r := RecordingRoute.analyzeRecordingWithHuggingFaceStyle env world recordingUrl in
  (result r = HUMAN \/ result r = MACHINE) /\ metadata r !! "twilioCallSid" = None.
Proof.
  cbv zeta. unfold RecordingRoute.analyzeRecordingWithHuggingFaceStyle.
  repeat case_match; cbn [result metadata]; split; try reflexivity; by auto.
Qed.

Lemma gemini_recording_result (env : Env) (world : RecordingRoute.World)
    (recordingUrl : option string) :
  let r := RecordingRoute.analyzeRecordingWithGemini env world recordingUrl in
  let a := RecordingRoute.analyzeAudioPatterns world recordingUrl in
  (result r = HUMAN \/ result r = MACHINE)
  /\ metadata r !! "twilioCallSid" = None
  /\ metadata r !! "geminiUnavailable" = Some (JBool true)
  /\ confidence r = num (RecordingRoute.analysis_confidence a * 0.8)%Q.
Proof.
  cbv zeta. unfold RecordingRoute.analyzeRecordingWithGemini.
  cbn [RecordingRoute.getTranscriptFromRecording opt_truthy result metadata confidence].
  split_and!; try reflexivity. destruct (RecordingRoute.isHuman _); by auto.
Qed.


Lemma processAudioText_no_call_id (this : GeminiFlashDetector.t) (env : Env)
    (transcript : string) (audioQuality noiseLevel : option string) :
  metadata (GeminiFlashDetector.processAudioText this env transcript audioQuality noiseLevel)
    !! "twilioCallSid" = None.
Proof.
  unfold GeminiFlashDetector.processAudioText, GeminiFlashDetector.parseStructured,
    GeminiFlashDetector.parseRecovered, GeminiFlashDetector.parseFallbackResponse.
  repeat case_match; simplify_eq; reflexivity.
Qed.


End RecordingFacts.

Section RecordingExamples.

Import AmdStrategies Routes AmdSpec DialSpec Fixtures RecordingFixtures.

(** X14 on a concrete call: a native call with verdict HUMAN, after its
    recording has come in. *)
Lemma recording_route_forgets_unanalysed_call_witness :
  let call' := RecordingRoute.POST env_twilio_only world_short call_completed
                 recording_done in
  Call.amdResult call_completed = Some HUMAN
  /\ TwilioStatus.where_ recording_done call_completed
  /\ Call.amdResult call' = Some UNDECIDED
  /\ Call.metadata call' = Some ∅
  /\ unreachable call'.
Proof.
  cbv zeta.
  destruct (recording_route_forgets_unanalysed_call (H := ReferenceRuntime.runtime)
              env_twilio_only world_short call_completed recording_done
              (or_introl eq_refl)) as (Hr & _ & _ & Hm & Hun & _).
  split_and!; [reflexivity | | exact Hr | exact Hm | exact Hun].
  exists "CA0001". split; [reflexivity|]. eexists. split; reflexivity.
Defined.



End RecordingExamples.

(* ===================================================================== *)
(** ** The media-stream handler                                           *)
(* ===================================================================== *)

Section StreamFacts.

Context `{Runtime} `{MediaStream.BufferRuntime}.

Import AmdStrategies Routes MediaStream StreamSpec.

(** *** The keys *)

Lemma Qeq_bool_sym (p q : Q) : Qeq_bool p q = Qeq_bool q p.
Proof.
  destruct (Qeq_bool p q) eqn:E; symmetry.
  - apply Qeq_bool_iff. symmetry. by apply Qeq_bool_iff.
  - destruct (Qeq_bool q p) eqn:E'; [|reflexivity].
    apply Qeq_bool_iff in E'. symmetry in E'. apply Qeq_bool_iff in E'. congruence.
Qed.

Lemma Qeq_bool_trans (p q r : Q) :
  Qeq_bool p q = true -> Qeq_bool p r = Qeq_bool q r.
Proof.
  intros E%Qeq_bool_iff. destruct (Qeq_bool q r) eqn:E'.
  - apply Qeq_bool_iff. apply Qeq_bool_iff in E'. by rewrite E.
  - destruct (Qeq_bool p r) eqn:E''; [|reflexivity].
    apply Qeq_bool_iff in E''. rewrite E in E''. apply Qeq_bool_iff in E''. congruence.
Qed.

Lemma same_key_sym (a b : jsval) : same_key a b = same_key b a.
Proof.
  destruct a as [| |x|[|p]|s|l|m], b as [| |y|[|q]|t|l'|m']; cbn [same_key];
    try reflexivity.
  - by destruct x, y.
  - apply Qeq_bool_sym.
  - apply String.eqb_sym.
Qed.

(** Two keys that are the same are the same as the same keys. *)
Lemma same_key_trans (a b c : jsval) :
  same_key a b = true -> same_key a c = same_key b c.
Proof.
  destruct a as [| |x|[|p]|s|l|m], b as [| |y|[|q]|t|l'|m']; cbn [same_key];
    try discriminate; try reflexivity.
  - intros ->%Bool.eqb_prop. reflexivity.
  - intros E. destruct c as [| |z|[|r]|u|l''|m'']; cbn [same_key]; try reflexivity.
    by apply Qeq_bool_trans.
  - intros ->%String.eqb_eq. reflexivity.
Qed.

Lemma same_key_refl_r (a b : jsval) : same_key a b = true -> same_key b b = true.
Proof. intros E. rewrite <- (same_key_trans a b b E). exact E. Qed.

(** *** The map *)

Lemma Map_get_proper (a b : jsval) (m : Streams) :
  same_key a b = true -> Map_get a m = Map_get b m.
Proof.
  intros E. induction m as [|[k v] r IH]; [reflexivity|]. cbn [Map_get].
  rewrite (same_key_sym k a), (same_key_sym k b), (same_key_trans a b k E).
  by rewrite IH.
Qed.

Lemma Map_get_Some_refl (k : jsval) (m : Streams) (s : AudioBuffer) :
  Map_get k m = Some s -> same_key k k = true.
Proof.
  induction m as [|[k' v] r IH]; [discriminate|]. cbn [Map_get].
  destruct (same_key k' k) eqn:E; [|exact IH]. intros _. by eapply same_key_refl_r.
Qed.

Lemma Map_get_set_same (k : jsval) (v : AudioBuffer) (m : Streams) :
  same_key k k = true -> Map_get k (Map_set k v m) = Some v.
Proof.
  intros E. induction m as [|[k' v'] r IH]; cbn [Map_set Map_get].
  - by rewrite E.
  - destruct (same_key k' k) eqn:E'; cbn [Map_get]; by rewrite E'.
Qed.

Lemma Map_get_set_other (k k' : jsval) (v : AudioBuffer) (m : Streams) :
  same_key k k' = false -> Map_get k' (Map_set k v m) = Map_get k' m.
Proof.
  intros E. induction m as [|[k0 v0] r IH]; cbn [Map_set Map_get].
  - by rewrite E.
  - destruct (same_key k0 k) eqn:E0; cbn [Map_get].
    + by rewrite (same_key_trans k0 k k' E0), E.
    + by rewrite IH.
Qed.

Lemma Map_get_delete_other (k k' : jsval) (m : Streams) :
  same_key k k' = false -> Map_get k' (Map_delete k m) = Map_get k' m.
Proof.
  intros E. induction m as [|[k0 v0] r IH]; cbn [Map_delete Map_get]; [reflexivity|].
  destruct (same_key k0 k) eqn:E0; cbn [Map_get].
  - by rewrite (same_key_trans k0 k k' E0), E.
  - by rewrite IH.
Qed.

Lemma Map_get_delete_None (k k' : jsval) (m : Streams) :
  Map_get k' m = None -> Map_get k' (Map_delete k m) = None.
Proof.
  induction m as [|[k0 v0] r IH]; cbn [Map_delete Map_get]; [done|].
  destruct (same_key k0 k') eqn:E'; [discriminate|]. intros Hr.
  destruct (same_key k0 k); [exact Hr|]. cbn [Map_get]. rewrite E'. by apply IH.
Qed.

Lemma Map_get_delete_same (k : jsval) (m : Streams) :
  distinct m -> Map_get k (Map_delete k m) = None.
Proof.
  induction m as [|[k0 v0] r IH]; cbn [Map_delete Map_get distinct]; [done|].
  intros [Hk0 Hr]. destruct (same_key k0 k) eqn:E.
  - by rewrite <- (Map_get_proper k0 k r E).
  - cbn [Map_get]. rewrite E. by apply IH.
Qed.

Lemma distinct_set (k : jsval) (v : AudioBuffer) (m : Streams) :
  distinct m -> distinct (Map_set k v m).
Proof.
  induction m as [|[k0 v0] r IH]; cbn [Map_set distinct]; [done|].
  intros [Hk0 Hr]. destruct (same_key k0 k) eqn:E; cbn [distinct]; [done|].
  split; [|by apply IH].
  rewrite Map_get_set_other; [exact Hk0|]. by rewrite same_key_sym.
Qed.

Lemma distinct_delete (k : jsval) (m : Streams) :
  distinct m -> distinct (Map_delete k m).
Proof.
  induction m as [|[k0 v0] r IH]; cbn [Map_delete distinct]; [done|].
  intros [Hk0 Hr]. destruct (same_key k0 k); [exact Hr|]. cbn [distinct].
  split; [by apply Map_get_delete_None | by apply IH].
Qed.

Lemma bounded_get (k : jsval) (m : Streams) (s : AudioBuffer) :
  bounded m -> Map_get k m = Some s -> (length (chunks s) < 100)%nat.
Proof.
  unfold bounded. induction m as [|[k0 v0] r IH]; [discriminate|].
  intros [Hv Hr]%Forall_cons. cbn [Map_get].
  destruct (same_key k0 k); [by intros [= <-] | by apply IH].
Qed.

Lemma bounded_set (k : jsval) (v : AudioBuffer) (m : Streams) :
  bounded m -> (length (chunks v) < 100)%nat -> bounded (Map_set k v m).
Proof.
  unfold bounded. intros Hm Hv. induction Hm as [|[k0 v0] r Hv0 Hr IH]; cbn [Map_set].
  - constructor; [exact Hv | constructor].
  - destruct (same_key k0 k); by constructor.
Qed.

Lemma bounded_delete (k : jsval) (m : Streams) : bounded m -> bounded (Map_delete k m).
Proof.
  unfold bounded. induction m as [|[k0 v0] r IH]; cbn [Map_delete]; [done|].
  intros [Hv0 Hr]%Forall_cons. destruct (same_key k0 k); [exact Hr|].
  constructor; [exact Hv0 | by apply IH].
Qed.

(** *** One message *)

Lemma handle_invariant (st : Streams) (data : jsval) (now : Z) :
  bounded st -> distinct st ->
  bounded (handle st data now).1 /\ distinct (handle st data now).1
  /\ Forall well_sized (handle st data now).2.
Proof.
  intros Hb Hd. unfold handle. cbv zeta.
  destruct (is_str (get data "event") "start").
  { destruct (truthy (get data "callSid")); cbn [fst snd]; split_and!; try done.
    - apply bounded_set; [exact Hb | simpl; lia].
    - by apply distinct_set. }
  destruct (is_str (get data "event") "media").
  { destruct (truthy (get data "streamSid") && truthy (get data "media"));
      [|by split_and!].
    destruct (Map_get (get data "streamSid") st) as [stream|] eqn:Hget; [|by split_and!].
    destruct (Buffer_from _) as [audioChunk|e]; [|by split_and!].
    pose proof (bounded_get _ _ _ Hb Hget) as Hlen.
    destruct (2000 <=? length (chunks stream ++ [audioChunk]) * 20)%nat eqn:E;
      cbn [fst snd].
    - split_and!.
      + apply bounded_set; [exact Hb | simpl; lia].
      + by apply distinct_set.
      + constructor; [|constructor]. unfold well_sized. cbn [emitted_chunks].
        apply Nat.leb_le in E. rewrite length_app in *. simpl in *. lia.
    - apply Nat.leb_gt in E. rewrite length_app in E. simpl in E. split_and!.
      + apply bounded_set; [exact Hb|]. cbn [chunks]. rewrite length_app. simpl. lia.
      + by apply distinct_set.
      + constructor. }
  destruct (is_str (get data "event") "stop"); [|by split_and!].
  destruct (truthy (get data "streamSid")); [|by split_and!]. cbn [fst snd].
  split_and!; [by apply bounded_delete | by apply distinct_delete |].
  destruct (Map_get (get data "streamSid") st) as [stream|] eqn:Hget; [|constructor].
  pose proof (bounded_get _ _ _ Hb Hget) as Hlen.
  destruct (0 <? length (chunks stream))%nat eqn:E; [|constructor].
  apply Nat.ltb_lt in E. constructor; [|constructor].
  unfold well_sized. cbn [emitted_chunks]. lia.
Qed.

Lemma handleWebSocketMessage_invariant (st : Streams) (message : string) (now : Z) :
  bounded st -> distinct st ->
  bounded (handleWebSocketMessage st message now).1
  /\ distinct (handleWebSocketMessage st message now).1
  /\ Forall well_sized (handleWebSocketMessage st message now).2.
Proof.
  intros Hb Hd. unfold handleWebSocketMessage.
  destruct (JSON_parse message) as [[]|]; try (by split_and!);
    by apply handle_invariant.
Qed.

Lemma run_cons (st : Streams) (message : string) (now : Z) (rest : list (string * Z)) :
  run st ((message, now) :: rest)
  = ((run (handleWebSocketMessage st message now).1 rest).1,
     ((handleWebSocketMessage st message now).2
      ++ (run (handleWebSocketMessage st message now).1 rest).2)%list).
Proof.
  cbn [run]. destruct (handleWebSocketMessage st message now) as [st' out].
  cbn [fst snd]. by destruct (run st' rest).
Qed.

Lemma run_invariant (messages : list (string * Z)) (st : Streams) :
  bounded st -> distinct st ->
  bounded (run st messages).1 /\ distinct (run st messages).1
  /\ Forall well_sized (run st messages).2.
Proof.
  revert st. induction messages as [|[message now] rest IH]; intros st Hb Hd.
  { by split_and!. }
  rewrite run_cons. cbn [fst snd].
  destruct (handleWebSocketMessage_invariant st message now Hb Hd) as (Hb' & Hd' & Hw).
  destruct (IH _ Hb' Hd') as (Hb'' & Hd'' & Hw'').
  split_and!; try done. by apply Forall_app.
Qed.

(** X18: whatever messages a connection brings, in whatever order, no
    buffer of the map ever holds 100 chunks, no two entries of the map
    have the same key, and each batch of audio handed to the analysis
    holds at least one chunk and at most 100. *)
Theorem stream_buffers_stay_bounded (messages : list (string * Z)) :
  bounded (run [] messages).1
  /\ distinct (run [] messages).1
  /\ Forall well_sized (run [] messages).2.
Proof. apply run_invariant; [constructor | exact I]. Qed.

(** *** One stream *)

Lemma media_step (st : Streams) (k : jsval) (s : AudioBuffer) (message : string)
    (now : Z) (b : list Byte.byte) :
  Map_get k st = Some s -> truthy k = true -> media_message k message b ->
  let st' := (handleWebSocketMessage st message now).1 in
  let out := (handleWebSocketMessage st message now).2 in
  exists s', Map_get k st' = Some s'
    /\ callSid s' = callSid s
    /\ (emitted_audio out ++ chunks s' = chunks s ++ [b])%list
    /\ Forall (fun e => emitted_callSid e = callSid s) out
    /\ (distinct st -> distinct st').
Proof.
  intros Hget Hk (data & Hparse & Hev & Hsid & Hmedia & Hbuf). cbv zeta.
  pose proof (Map_get_Some_refl _ _ _ Hget) as Hrefl.
  unfold handleWebSocketMessage. rewrite Hparse.
  assert (Hh : exists s', Map_get k (handle st data now).1 = Some s'
    /\ callSid s' = callSid s
    /\ (emitted_audio (handle st data now).2 ++ chunks s' = chunks s ++ [b])%list
    /\ Forall (fun e => emitted_callSid e = callSid s) (handle st data now).2
    /\ (distinct st -> distinct (handle st data now).1)).
  { unfold handle. cbv zeta. rewrite Hev, Hsid, Hk, Hmedia, Hget, Hbuf.
    cbn [is_str String.eqb Ascii.eqb Bool.eqb andb].
    destruct (2000 <=? length (chunks s ++ [b]) * 20)%nat; cbn [fst snd];
      eexists; (split; [by apply Map_get_set_same|]); cbn [callSid chunks];
      split_and!; try reflexivity.
    - unfold emitted_audio. cbn [fmap list_fmap emitted_chunks concat].
      by rewrite !app_nil_r.
    - by repeat constructor.
    - apply distinct_set.
    - constructor.
    - apply distinct_set. }
  destruct data; try exact Hh; discriminate Hev.
Qed.

Lemma run_media (messages : list (string * Z)) (bs : list (list Byte.byte))
    (st : Streams) (k : jsval) (s : AudioBuffer) :
  Map_get k st = Some s -> truthy k = true ->
  Forall2 (fun m b => media_message k m.1 b) messages bs ->
  exists s', Map_get k (run st messages).1 = Some s'
    /\ callSid s' = callSid s
    /\ (emitted_audio (run st messages).2 ++ chunks s' = chunks s ++ bs)%list
    /\ Forall (fun e => emitted_callSid e = callSid s) (run st messages).2
    /\ (distinct st -> distinct (run st messages).1).
Proof.
  intros Hget Hk Hall. revert st s Hget.
  induction Hall as [|[message now] b rest bs' Hm Hrest IH]; intros st s Hget.
  { exists s. cbn [run fst snd]. split_and!; try done. by rewrite app_nil_r. }
  rewrite run_cons. cbn [fst snd].
  destruct (media_step st k s message now b Hget Hk Hm)
    as (s1 & Hget1 & Hc1 & Ha1 & Hs1 & Hd1).
  cbv zeta in Hget1, Ha1, Hs1, Hd1.
  destruct (IH _ _ Hget1) as (s2 & Hget2 & Hc2 & Ha2 & Hs2 & Hd2).
  exists s2. split_and!.
  - exact Hget2.
  - congruence.
  - unfold emitted_audio in *. rewrite fmap_app, concat_app, <- app_assoc, Ha2.
    rewrite app_assoc, Ha1, <- app_assoc. reflexivity.
  - apply Forall_app. split; [exact Hs1|]. by rewrite <- Hc1.
  - by auto.
Qed.

Lemma stop_step (st : Streams) (k : jsval) (s : AudioBuffer) (message : string) (now : Z) :
  Map_get k st = Some s -> truthy k = true -> stop_message k message ->
  let st' := (handleWebSocketMessage st message now).1 in
  let out := (handleWebSocketMessage st message now).2 in
  emitted_audio out = chunks s
  /\ Forall (fun e => emitted_callSid e = callSid s) out
  /\ (distinct st -> Map_get k st' = None).
Proof.
  intros Hget Hk (data & Hparse & Hev & Hsid). cbv zeta.
  unfold handleWebSocketMessage. rewrite Hparse.
  assert (Hh : emitted_audio (handle st data now).2 = chunks s
    /\ Forall (fun e => emitted_callSid e = callSid s) (handle st data now).2
    /\ (distinct st -> Map_get k (handle st data now).1 = None)).
  { unfold handle. cbv zeta. rewrite Hev, Hsid, Hk, Hget.
    cbn [is_str String.eqb Ascii.eqb Bool.eqb fst snd].
    split_and!; [| |by apply Map_get_delete_same].
    - destruct (chunks s) as [|c cs]; [reflexivity|]. cbn [length Nat.ltb Nat.leb].
      unfold emitted_audio. cbn [fmap list_fmap emitted_chunks concat].
      by rewrite app_nil_r.
    - destruct (0 <? length (chunks s))%nat; by repeat constructor. }
  destruct data; try exact Hh; discriminate Hev.
Qed.

Lemma run_app (st : Streams) (xs ys : list (string * Z)) :
  run st (xs ++ ys)
  = ((run (run st xs).1 ys).1, ((run st xs).2 ++ (run (run st xs).1 ys).2)%list).
Proof.
  revert st. induction xs as [|[message now] rest IH]; intros st.
  { cbn [app run fst snd]. by destruct (run st ys). }
  rewrite <- app_comm_cons, !run_cons, IH. cbn [fst snd]. by rewrite app_assoc.
Qed.

(** X19: the audio of a stream is handed on whole and in order.  When
    the messages that follow an open stream are its media messages and
    then its stop message, the batches handed to the analysis, put
    together, are the chunks the stream held followed by the chunks of
    the media messages, in their order; each batch goes out under the
    call id the stream was started with; and the stream is gone from the
    map afterwards. *)
Theorem stream_audio_conserved (st : Streams) (k : jsval) (s : AudioBuffer)
    (messages : list (string * Z)) (bs : list (list Byte.byte))
    (stop : string) (stopped : Z) :
  Map_get k st = Some s -> truthy k = true -> distinct st ->
  Forall2 (fun m b => media_message k m.1 b) messages bs ->
  stop_message k stop ->
  let final := run st (messages ++ [(stop, stopped)]) in
  emitted_audio final.2 = (chunks s ++ bs)%list
  /\ Forall (fun e => emitted_callSid e = callSid s) final.2
  /\ Map_get k final.1 = None.
Proof.
  intros Hget Hk Hd Hall Hstop. cbv zeta. rewrite run_app. cbn [fst snd].
  destruct (run_media messages bs st k s Hget Hk Hall)
    as (s' & Hget' & Hc' & Ha' & Hs' & Hd').
  rewrite run_cons. cbn [run fst snd]. rewrite app_nil_r.
  destruct (stop_step _ k s' stop stopped Hget' Hk Hstop) as (Ha'' & Hs'' & Hgone).
  cbv zeta in Ha'', Hs'', Hgone. split_and!.
  - unfold emitted_audio in *. by rewrite fmap_app, concat_app, Ha'', Ha'.
  - apply Forall_app. split; [exact Hs'|]. by rewrite <- Hc'.
  - by auto.
Qed.

(** X20: a message leaves every stream but the one it names as it is: the
    buffer, the call id and the time of any other stream are the same
    after the message as before it. *)
Theorem other_streams_untouched (st : Streams) (message : string) (now : Z) (k : jsval) :
  (forall data, JSON_parse message = Some data ->
                same_key (get data "streamSid") k = false) ->
  Map_get k (handleWebSocketMessage st message now).1 = Map_get k st.
Proof.
  intros Hother. unfold handleWebSocketMessage.
  destruct (JSON_parse message) as [data|]; [|reflexivity].
  specialize (Hother data eq_refl).
  assert (Hh : Map_get k (handle st data now).1 = Map_get k st).
  { unfold handle. cbv zeta.
    repeat (case_match; cbn [fst snd]; try reflexivity);
      first [by apply Map_get_set_other | by apply Map_get_delete_other]. }
  destruct data; try exact Hh; reflexivity.
Qed.

End StreamFacts.

Section StreamExamples.

Import AmdStrategies Routes MediaStream StreamSpec StreamFixtures.

(** X19 on a concrete stream: two media messages of three bytes and of
    one byte, then the stop message. *)
Lemma stream_audio_conserved_witness :
  let st := (run [] [(start_text "MZ1" "CA0001", 1%Z)]).1 in
  let final := run st [ (media_text "MZ1" "AAEC", 2%Z);
                        (media_text "MZ1" "/w==", 3%Z);
                        (stop_text "MZ1", 4%Z) ] in
  emitted_audio final.2 = [[Byte.x00; Byte.x01; Byte.x02]; [Byte.xff]]
  /\ Forall (fun e => emitted_callSid e = JStr "CA0001") final.2
  /\ Map_get (JStr "MZ1") final.1 = None.
Proof.
  cbv zeta.
  refine (stream_audio_conserved (H := ReferenceRuntime.runtime) (H0 := canonical_base64)
            (run [] [(start_text "MZ1" "CA0001", 1%Z)]).1 (JStr "MZ1")
            {| chunks := []; timestamp := 1; callSid := JStr "CA0001" |}
            [ (media_text "MZ1" "AAEC", 2%Z); (media_text "MZ1" "/w==", 3%Z) ]
            [ [Byte.x00; Byte.x01; Byte.x02]; [Byte.xff] ]
            (stop_text "MZ1") 4%Z eq_refl eq_refl _ _ _).
  - vm_compute. tauto.
  - repeat constructor; (eexists; split; [vm_compute; reflexivity|]);
      split_and!; vm_compute; reflexivity.
  - eexists. split; [vm_compute; reflexivity|]. split; vm_compute; reflexivity.
Defined.

(** X20 on concrete messages: the media of another stream. *)
Lemma other_streams_untouched_witness :
  let st := (run [] [(start_text "MZ1" "CA0001", 1%Z)]).1 in
  Map_get (JStr "MZ1") (handleWebSocketMessage st (media_text "MZ2" "AAEC") 2%Z).1
  = Map_get (JStr "MZ1") st.
Proof.
  cbv zeta.
  apply (other_streams_untouched (H := ReferenceRuntime.runtime) (H0 := canonical_base64)).
  intros data Hdata. vm_compute in Hdata. injection Hdata as <-. reflexivity.
Defined.

End StreamExamples.

(* ===================================================================== *)
(** ** The analysis of streamed audio                                     *)
(* ===================================================================== *)

Section StreamAnalysisFacts.

Context `{Runtime}.

Import AmdStrategies Routes RouteSpec.

Lemma processWithGemini_result (env : Env) (audioData : list Byte.byte)
    (r : AmdDetectionResult) :
  StreamAnalysis.processWithGemini env audioData = Some r ->
  result r = HUMAN \/ result r = MACHINE.
Proof.
  unfold StreamAnalysis.processWithGemini.
  repeat case_match; try discriminate; intros [= <-]; cbn [result]; by auto.
Qed.

(** X21: what the analysis of a batch of streamed audio writes.  For a
    call of the native or of the SIP strategy it writes nothing, and for
    a streaming call it writes nothing when the model service gives no
    answer or an empty one.  When it writes, the verdict is HUMAN or
    MACHINE and nothing else (a classification "voicemail" is stored as
    MACHINE); the time of the update is the clock's; status, duration
    and cost and the identity of the call are not touched; and the call
    id stays in the metadata, so that the record still resolves. *)
Theorem processAudioChunk_writes (env : Env) (world : StreamAnalysis.World)
    (call : Call.t) (audioData : list Byte.byte) (now : Z) :
  let call' := StreamAnalysis.processAudioChunk env world call audioData now in
  (Call.amdStrategy call = TWILIO_NATIVE \/ Call.amdStrategy call = JAMBONZ_SIP ->
   call' = call)
  /\ (Call.amdStrategy call = HUGGINGFACE_MODEL ->
      truthy (StreamAnalysis.processWithHuggingFace env world audioData) = false ->
      call' = call)
  /\ (call' = call
      \/ ((Call.amdResult call' = Some HUMAN \/ Call.amdResult call' = Some MACHINE)
          /\ Call.updatedAt call' = now
          /\ Call.status call' = Call.status call
          /\ Call.duration call' = Call.duration call
          /\ Call.cost call' = Call.cost call
          /\ same_identity call call'
          /\ forall callSid,
               StreamAnalysis.where_ callSid call -> StreamAnalysis.where_ callSid call')).
Proof.
  cbv zeta. unfold StreamAnalysis.processAudioChunk, StreamAnalysis.updateData.
  split_and!.
  - intros [-> | ->]; reflexivity.
  - intros -> ->. reflexivity.
  - destruct (Call.amdStrategy call); try (by left).
    + destruct (truthy (StreamAnalysis.processWithHuggingFace env world audioData));
        [right | by left].
      unfold prisma_call_update, same_identity, StreamAnalysis.where_.
      cbn [Call.amdResult Call.updatedAt Call.status Call.duration Call.cost Call.id
           Call.userId Call.targetNumber Call.amdStrategy Call.errorMessage Call.createdAt
           Call.metadata data_status data_amdResult data_confidence data_duration
           data_cost data_metadata data_updatedAt default from_option id].
      split_and!; try reflexivity.
      * destruct (is_str _ "human"); by auto.
      * intros callSid (m & Hm & Hv). eexists. split; [reflexivity|].
        unfold spread. rewrite lookup_union_r by reflexivity. by rewrite Hm.
    + destruct (StreamAnalysis.processWithGemini env audioData) as [r|] eqn:Hg;
        [right | by left].
      unfold prisma_call_update, same_identity, StreamAnalysis.where_.
      cbn [Call.amdResult Call.updatedAt Call.status Call.duration Call.cost Call.id
           Call.userId Call.targetNumber Call.amdStrategy Call.errorMessage Call.createdAt
           Call.metadata data_status data_amdResult data_confidence data_duration
           data_cost data_metadata data_updatedAt default from_option id].
      split_and!; try reflexivity.
      * destruct (processWithGemini_result _ _ _ Hg) as [-> | ->]; by auto.
      * intros callSid (m & Hm & Hv). eexists. split; [reflexivity|].
        unfold spread. rewrite lookup_union_r by reflexivity. by rewrite Hm.
Qed.

End StreamAnalysisFacts.

(* ===================================================================== *)
(** ** The analytics                                                      *)
(* ===================================================================== *)

Section AnalyticsFacts.

Import AmdStrategies Routes AmdSpec PlacementSpec AnalyticsSpec.

Lemma length_filter_cons {A : Type} (f : A -> bool) (x : A) (l : list A) :
  length (List.filter f (x :: l))
  = ((if f x then 1 else 0) + length (List.filter f l))%nat.
Proof. cbn [List.filter]. by destruct (f x). Qed.

Lemma breakdown_partition (calls : list Call.t) :
  (length (List.filter (Analytics.has_result HUMAN) calls)
   + length (List.filter (Analytics.has_result MACHINE) calls)
   + length (List.filter (Analytics.has_result TIMEOUT) calls)
   + length (List.filter (Analytics.has_result ERROR) calls)
   + length (List.filter unlisted calls) = length calls)%nat.
Proof.
  induction calls as [|call calls IH]; [reflexivity|].
  rewrite !length_filter_cons. cbn [length].
  assert (Hone :
    ((if Analytics.has_result HUMAN call then 1 else 0)
     + (if Analytics.has_result MACHINE call then 1 else 0)
     + (if Analytics.has_result TIMEOUT call then 1 else 0)
     + (if Analytics.has_result ERROR call then 1 else 0)
     + (if unlisted call then 1 else 0) = 1)%nat).
  { unfold Analytics.has_result, unlisted.
    destruct (Call.amdResult call) as [[]|]; reflexivity. }
  lia.
Qed.

Lemma success_partition (calls : list Call.t) :
  (length (List.filter (fun call => negb (Analytics.has_result ERROR call)) calls)
   + length (List.filter (Analytics.has_result ERROR) calls) = length calls)%nat.
Proof.
  induction calls as [|call calls IH]; [reflexivity|].
  rewrite !length_filter_cons. cbn [length].
  destruct (Analytics.has_result ERROR call); cbn [negb]; lia.
Qed.

(** X22: the counts of [analyzeStrategy].  Every call counted has the
    strategy asked for.  The four columns of the detection breakdown
    (human, machine, timeout, error) together with the calls whose
    verdict is VOICEMAIL, UNDECIDED or absent make up the total: a call
    with one of these verdicts is in no column.  A call is successful
    unless its verdict is ERROR, so a call with no verdict yet counts as
    a success.  A fallback rate is given for the SIP strategy only. *)
Theorem analyzeStrategy_counts (table : list Call.t) (s : AmdStrategy)
    (dateRange : option Analytics.DateRange) :
  let m := Analytics.analyzeStrategy table s dateRange in
  let calls := Analytics.findMany table s dateRange in
  let b := Analytics.detectionBreakdown m in
  Analytics.totalCalls m = length calls
  /\ Forall (fun call => Call.amdStrategy call = s) calls
  /\ (Analytics.human b + Analytics.machine b + Analytics.timeout b + Analytics.error b
      + length (List.filter unlisted calls) = Analytics.totalCalls m)%nat
  /\ (length (List.filter (fun call => negb (Analytics.has_result ERROR call)) calls)
      + Analytics.error b = Analytics.totalCalls m)%nat
  /\ (is_Some (Analytics.fallbackRate m) <-> s = JAMBONZ_SIP /\ calls <> []).
Proof.
  cbv zeta. unfold Analytics.analyzeStrategy.
  set (calls := Analytics.findMany table s dateRange).
  assert (Hs : Forall (fun call => Call.amdStrategy call = s) calls).
  { apply List.Forall_forall. intros call [_ Hc]%filter_In.
    apply andb_true_iff in Hc as [Hc _]. by apply bool_decide_eq_true in Hc. }
  destruct calls as [|call calls'] eqn:Hcalls.
  { cbn. split_and!; try done. split; [intros [? [=]] | by intros [_ ?]]. }
  rewrite <- Hcalls in *. assert (Hne : calls <> []) by (by rewrite Hcalls).
  replace (length calls =? 0)%nat with false
    by (symmetry; apply Nat.eqb_neq; rewrite Hcalls; discriminate).
  cbv zeta. cbn [Analytics.totalCalls Analytics.detectionBreakdown Analytics.human
    Analytics.machine Analytics.timeout Analytics.error Analytics.fallbackRate].
  split_and!; try done.
  - apply breakdown_partition.
  - apply success_partition.
  - case_bool_decide; split.
    + by intros _.
    + intros _. by eexists.
    + intros [? [=]].
    + by intros [? _].
Qed.

Lemma jambonz_processCall_cases (env : Env) (phoneNumber callId : string) :
  let r := JambonzSipDetector.processCall env phoneNumber callId in
  (exists f, placed_on_jambonz r f)
  \/ (exists reason,
        r = JambonzSipDetector.fallbackToTwilio env phoneNumber callId reason).
Proof.
  cbv zeta. unfold JambonzSipDetector.processCall.
  repeat (case_match; try (right; by eexists)).
  match goal with
  | |- context [JambonzSipDetector.tryFormats ?e ?p ?c ?from ?fs] =>
      destruct (tryFormats_first_accepted e p c from fs)
        as [(pre & f & post & _ & _ & _ & Hp)|[_ (reason & _ & ->)]]
  end.
  - left. by exists f.
  - right. by exists reason.
Qed.

(** X23: the fallback rate counts the right calls.  A record whose
    metadata is what the SIP strategy returned when the call was dialled
    counts as a fallback exactly when Jambonz did not place the call. *)
Theorem fallbackCall_counts_unplaced_calls (env : Env) (phoneNumber callId : string)
    (call : Call.t) :
  let r := JambonzSipDetector.processCall env phoneNumber callId in
  Call.metadata call = Some (metadata r) ->
  Analytics.fallbackCall call = true <-> ~ exists f, placed_on_jambonz r f.
Proof.
  cbv zeta. intros Hm. unfold Analytics.fallbackCall. rewrite Hm.
  destruct (jambonz_processCall_cases env phoneNumber callId) as [[f Hp]|[reason Hr]].
  - pose proof Hp as (_ & _ & _ & _ & _ & Hno & _). rewrite Hno.
    split; [discriminate | intros Hn; destruct Hn; by exists f].
  - rewrite Hr.
    destruct (fallbackToTwilio_marks env phoneNumber callId reason) as (_ & _ & Hadd & _).
    rewrite (Hadd "fallbackUsed" (JBool true) eq_refl).
    split; [|done]. intros _ [f (_ & _ & _ & _ & _ & Hno & _)].
    rewrite (Hadd "fallbackUsed" (JBool true) eq_refl) in Hno. discriminate.
Qed.

Lemma fallbackCall_counts_unplaced_calls_witness :
  Analytics.fallbackCall Fixtures.call_fallen_back = true.
Proof.
  apply (fallbackCall_counts_unplaced_calls Fixtures.env_twilio_only
           "+14155552671" "call_1" Fixtures.call_fallen_back eq_refl).
  intros [f (_ & _ & _ & _ & _ & Hno & _)]. discriminate Hno.
Defined.

End AnalyticsFacts.
